(** * Sigil, BookManipulation/FolderKeeper.cpp: the resource registry

    A shallow embedding of [FolderKeeper], the registry that maps the
    resources of an EPUB to files of the book folder, and proofs about its
    unique-name allocator, its two indices, its removal and rename paths and
    its handling of the file watcher.

    Conventions of the model.
    - A [QString] is a [string]; characters are the 8-bit characters of
      [ascii], and case folding acts on the letters A-Z only.
    - An [int] is a [Z] in the range of 32 bits; the one addition that can
      leave the range ([max_num + 1]) is written with its wrap-around.
    - A [Resource *] is an address [ptr] into a store of objects ([heap]);
      both indices hold addresses, so that a change to an object is seen
      through both.
    - The file system is the set of paths that exist ([disk]); paths are
      absolute and use the slash as separator.
    - What is not in FolderKeeper.cpp (the resource classes, the media-type
      tables, the manifest) is modelled from the specification and marked
      as such. *)

From Stdlib Require Import ZArith Lia Ascii String List Decimal DecimalString DecimalN.
From stdpp Require Import base option list gmap strings.

Local Open Scope Z_scope.

(** ** Qt primitives *)

Module QChar.

(** [QChar::isDigit], restricted to the characters [\d] matches without
    the Unicode-properties option: 0-9. *)
Definition isDigit (c : ascii) : bool :=
  ((48 <=? N_of_ascii c) && (N_of_ascii c <=? 57))%N.

(** Case folding of one character. *)
Definition toLower (c : ascii) : ascii :=
  if ((65 <=? N_of_ascii c) && (N_of_ascii c <=? 90))%N
  then ascii_of_N (N_of_ascii c + 32)
  else c.

End QChar.

Module QString.

Definition isEmpty (s : string) : bool :=
  match s with EmptyString => true | String _ _ => false end.

Definition size (s : string) : Z := Z.of_nat (String.length s).

Fixpoint toLower (s : string) : string :=
  match s with
  | EmptyString => EmptyString
  | String c s' => String (QChar.toLower c) (toLower s')
  end.

(** [QString::compare(a, b, Qt::CaseInsensitive) == 0]. *)
Definition equals_ci (a b : string) : bool :=
  String.eqb (toLower a) (toLower b).

Fixpoint skip (n : nat) (s : string) : string :=
  match n, s with
  | O, _ => s
  | S n', String _ s' => skip n' s'
  | S _, EmptyString => EmptyString
  end.

Fixpoint take (n : nat) (s : string) : string :=
  match n, s with
  | O, _ => EmptyString
  | S n', String c s' => String c (take n' s')
  | S _, EmptyString => EmptyString
  end.

(** [QString::right(n)]: the [n] rightmost characters; the entire string
    when [n] is negative or not less than the size. *)
Definition right (s : string) (n : Z) : string :=
  if (n <? 0) || (size s <=? n) then s
  else skip (Z.to_nat (size s - n)) s.

(** [QString::left(n)], same convention. *)
Definition left (s : string) (n : Z) : string :=
  if (n <? 0) || (size s <=? n) then s
  else take (Z.to_nat n) s.

(** [s] starts with [p] (case-sensitive): the rest of [s]. *)
Fixpoint strip_prefix (p s : string) : option string :=
  match p, s with
  | EmptyString, _ => Some s
  | String a p', String b s' =>
      if Ascii.eqb a b then strip_prefix p' s' else None
  | String _ _, EmptyString => None
  end.

(** The same up to case: what a caseless literal of a pattern consumes. *)
Fixpoint strip_prefix_ci (p s : string) : option string :=
  match p, s with
  | EmptyString, _ => Some s
  | String a p', String b s' =>
      if Ascii.eqb (QChar.toLower a) (QChar.toLower b)
      then strip_prefix_ci p' s' else None
  | String _ _, EmptyString => None
  end.

(** [QString::contains(QString)], case-sensitive. *)
Fixpoint contains (needle s : string) : bool :=
  match strip_prefix needle s with
  | Some _ => true
  | None =>
      match s with
      | EmptyString => false
      | String _ s' => contains needle s'
      end
  end.

(** The text after the last [sep] of [s]; [cur] is the candidate so far. *)
Fixpoint after_last (sep : ascii) (cur s : string) : string :=
  match s with
  | EmptyString => cur
  | String c s' =>
      if Ascii.eqb c sep then after_last sep s' s' else after_last sep cur s'
  end.

(** The text before the first [sep] of [s] (all of [s] without one). *)
Fixpoint before_first (sep : ascii) (s : string) : string :=
  match s with
  | EmptyString => EmptyString
  | String c s' =>
      if Ascii.eqb c sep then EmptyString else String c (before_first sep s')
  end.

(** The text after the first [sep] of [s] (empty without one). *)
Fixpoint after_first (sep : ascii) (s : string) : string :=
  match s with
  | EmptyString => EmptyString
  | String c s' => if Ascii.eqb c sep then s' else after_first sep s'
  end.

(** The text before the last [sep] of [s] (empty without one). *)
Fixpoint before_last (sep : ascii) (s : string) : string :=
  match s with
  | EmptyString => EmptyString
  | String c s' =>
      if contains (String sep EmptyString) s'
      then String c (before_last sep s')
      else EmptyString
  end.

Fixpoint repeated (n : nat) (c : ascii) : string :=
  match n with
  | O => EmptyString
  | S n' => String c (repeated n' c)
  end.

(** Decimal digits of a natural number, one zero digit for zero. *)
Definition number (n : N) : string :=
  NilEmpty.string_of_uint (N.to_uint n).

(** Left padding of [digits] with zeros up to [width] characters. *)
Definition zero_padded (width : Z) (digits : string) : string :=
  repeated (Z.to_nat (width - size digits)) "0"%char +:+ digits.

(** [QString::arg(a, fieldWidth, 10, fillChar)] with the fill character
    zero, applied to the one-placeholder format, for an [int] [a]:
    the decimal digits, padded with zeros to [fieldWidth]; a negative
    number keeps its sign in front and the sign counts in the width. *)
Definition arg (a fieldWidth : Z) : string :=
  if a <? 0
  then String "-"%char (zero_padded (fieldWidth - 1) (number (Z.to_N (- a))))
  else zero_padded fieldWidth (number (Z.to_N a)).

(** [QString::endsWith(e, Qt::CaseInsensitive)]: [e] is not longer than
    [s] and equals, up to case, the characters at the end of [s]. *)
Definition endsWith (s e : string) : bool :=
  (size e <=? size s)
  && equals_ci (skip (String.length s - String.length e) s) e.

End QString.

(** 32-bit [int]. *)
Definition INT_MAX : Z := 2147483647.

Definition wrap_int (z : Z) : Z := (z + 2 ^ 31) mod 2 ^ 32 - 2 ^ 31.

Module QStringList.

(** [QStringList::contains(str, Qt::CaseInsensitive)]. *)
Definition contains_ci (l : list string) (s : string) : bool :=
  existsb (QString.equals_ci s) l.

End QStringList.

Module QFileInfo.

(** [QFileInfo::fileName()]: the name of the file, without the path. *)
Definition fileName (path : string) : string :=
  QString.after_last "/"%char path path.

(** [QFileInfo::baseName()]: the file name up to the first dot. *)
Definition baseName (path : string) : string :=
  QString.before_first "."%char (fileName path).

(** [QFileInfo::completeSuffix()]: the file name after the first dot. *)
Definition completeSuffix (path : string) : string :=
  QString.after_first "."%char (fileName path).

(** [QFileInfo::suffix()]: the file name after the last dot, empty when
    the name has no dot. *)
Definition suffix (path : string) : string :=
  if QString.contains "." (fileName path)
  then QString.after_last "."%char (fileName path) (fileName path)
  else EmptyString.

(** [QFileInfo::absolutePath()] of an absolute path: the path without the
    file name and without the slash before it; the root for a file of the
    root. *)
Definition absolutePath (path : string) : string :=
  let folder := QString.before_last "/"%char path in
  if QString.isEmpty folder then "/" else folder.

End QFileInfo.

(** ** The patterns of [GetUniqueFilenameVersion] *)

Module Pattern.

(** The longest run of digits at the head of [s], and what follows it:
    what a greedy [\d*] takes. *)
Fixpoint digits (s : string) : string * string :=
  match s with
  | EmptyString => (EmptyString, EmptyString)
  | String c s' =>
      if QChar.isDigit c
      then let '(d, rest) := digits s' in (String c d, rest)
      else (EmptyString, s)
  end.

(** The string holds digits only. *)
Fixpoint all_digits (s : string) : bool :=
  match s with
  | EmptyString => true
  | String c s' => QChar.isDigit c && all_digits s'
  end.

Definition starts_with_digit (s : string) : bool :=
  match s with
  | EmptyString => false
  | String c _ => QChar.isDigit c
  end.

(** [$] holds here: at the end of the subject, or before a line feed that
    is its last character. *)
Definition dollar (rest : string) : bool :=
  match rest with
  | EmptyString => true
  | String c EmptyString => Ascii.eqb c "010"%char
  | _ => false
  end.

(** [s.remove(QRegularExpression(\d+$))]: the leftmost match is looked
    for from each position in turn; a match starts at a digit whose run of
    digits reaches [$], and what follows a match holds no other match. *)
Fixpoint remove_digits_dollar (s : string) : string :=
  match s with
  | EmptyString => EmptyString
  | String c s' =>
      if QChar.isDigit c && dollar (snd (digits s'))
      then snd (digits s')
      else String c (remove_digits_dollar s')
  end.

(** The match of the search pattern: start of subject, the escaped
    [name_prefix], a captured run of zero or more digits, then for a
    non-empty [extension] a literal dot and the escaped extension, then [$];
    under [CaseInsensitiveOption] against [existing_file]. The result is
    [captured(1)] when [hasMatch()]. Escaping makes prefix and extension
    literals. *)
Definition filename_search (name_prefix extension existing_file : string)
  : option string :=
  match QString.strip_prefix_ci name_prefix existing_file with
  | None => None
  | Some after_prefix =>
      let '(captured, rest) := digits after_prefix in
      if QString.isEmpty extension
      then if dollar rest then Some captured else None
      else
        match QString.strip_prefix_ci (String "."%char extension) rest with
        | Some tail => if dollar tail then Some captured else None
        | None => None
        end
  end.

(** [QString::toInt(&ok)] on a capture of [\d*]: [None] stands for
    [ok == false], which the empty text and a value above [INT_MAX] give. *)
Definition toInt (captured : string) : option Z :=
  if QString.isEmpty captured then None
  else
    match NilEmpty.uint_of_string captured with
    | Some d =>
        let v := Z.of_N (N.of_uint d) in
        if v <=? INT_MAX then Some v else None
    | None => None
    end.

End Pattern.

(** ** [FolderKeeper::GetUniqueFilenameVersion]

    [filenames] is the value of [GetAllFilenames()]. *)

(** The body of the [foreach] over the existing names: the state is
    [(max_num, max_num_length)]. *)
Definition scan_existing_file (name_prefix extension : string)
    (acc : Z * Z) (existing_file : string) : Z * Z :=
  let '(max_num, max_num_length) := acc in
  match Pattern.filename_search name_prefix extension existing_file with
  | None => acc
  | Some captured =>
      match Pattern.toInt captured with
      | Some number_suffix =>
          if number_suffix >? max_num
          then (number_suffix, QString.size captured)
          else acc
      | None => acc
      end
  end.

Definition GetUniqueFilenameVersion (filenames : list string)
    (filename : string) : string :=
  if negb (QStringList.contains_ci filenames filename) then filename
  else
    let name_prefix :=
      Pattern.remove_digits_dollar (QFileInfo.baseName filename) in
    let extension := QFileInfo.completeSuffix filename in
    let '(max_num, max_num_length) :=
      fold_left (scan_existing_file name_prefix extension) filenames (-1, -1) in
    let '(max_num, max_num_length) :=
      if max_num =? -1 then (0, 4) else (max_num, max_num_length) in
    let new_name :=
      name_prefix +:+ QString.arg (wrap_int (max_num + 1)) max_num_length in
    new_name +:+
      (if negb (QString.isEmpty extension) then "." +:+ extension else EmptyString).

(** The value of [max_num] when the loop over the existing names ends. *)
Definition max_num (filenames : list string) (filename : string) : Z :=
  (fold_left
     (scan_existing_file
        (Pattern.remove_digits_dollar (QFileInfo.baseName filename))
        (QFileInfo.completeSuffix filename))
     filenames (-1, -1)).1.

(** ** Resources and collaborators *)

(** A [Resource *]: an address of the object store; [NULL] is no address. *)
Abbreviation ptr := N (only parsing).

Definition NULL : ptr := 0%N.

(** Modelled from the spec: ResourceObjects/Resource.h is not part of the
    sources at hand. The kinds are the classes [AddContentFileToFolder],
    [AddNCXToFolder] and [CreateInfrastructureFiles] construct; the kind is
    what [Type()] returns. *)
Inductive ResourceType :=
  | GenericResourceType
  | MiscTextResourceType
  | AudioResourceType
  | VideoResourceType
  | ImageResourceType
  | SVGResourceType
  | FontResourceType
  | HTMLResourceType
  | CSSResourceType
  | XMLResourceType
  | OPFResourceType
  | NCXResourceType.

Global Instance ResourceType_eq_dec : EqDecision ResourceType.
Proof. solve_decision. Defined.

(** Modelled from the spec: the object behind a [Resource *]. It has a
    stable identifier assigned at creation, the folder of the book, a full
    path that only a rename changes, a kind, a media type, a package
    version and a longest-common-path key. *)
Record Resource := mkResource {
  m_Identifier : string;
  m_MainFolder : string;
  m_FullFilePath : string;
  m_Type : ResourceType;
  m_MediaType : string;
  m_EpubVersion : string;
  m_LCP : string
}.

(** Modelled from the spec: the book path is the full path minus the
    folder of the book and the separator after it. *)
Definition GetRelativePath (r : Resource) : string :=
  QString.right (m_FullFilePath r)
    (QString.size (m_FullFilePath r) - QString.size (m_MainFolder r) - 1).

(** Modelled from the spec: the file name is derived from the full path. *)
Definition Filename (r : Resource) : string :=
  QFileInfo.fileName (m_FullFilePath r).

(** Modelled from the spec: the accessors of the full path and of the
    identifier, and the change of the full path a rename makes. *)
Definition GetFullPath (r : Resource) : string := m_FullFilePath r.

Definition GetIdentifier (r : Resource) : string := m_Identifier r.

Definition SetFullPath (path : string) (r : Resource) : Resource :=
  mkResource (m_Identifier r) (m_MainFolder r) path (m_Type r)
    (m_MediaType r) (m_EpubVersion r) (m_LCP r).

(** Modelled from the spec: Misc/MediaTypes.h is not part of the sources at
    hand. The classification table resolves an extension to a media type
    and a media type to a group and to a resource description; each lookup
    takes the value to return for an unknown key. *)
Record MediaTypes := mkMediaTypes {
  m_ExtToMType : gmap string string;
  m_MTypeToGroup : gmap string string;
  m_MTypeToRDesc : gmap string string
}.

Definition GetMediaTypeFromExtension (MTMaps : MediaTypes)
    (extension fallback : string) : string :=
  default fallback (m_ExtToMType MTMaps !! extension).

Definition GetGroupFromMediaType (MTMaps : MediaTypes)
    (media_type fallback : string) : string :=
  default fallback (m_MTypeToGroup MTMaps !! media_type).

Definition GetResourceDescFromMediaType (MTMaps : MediaTypes)
    (media_type fallback : string) : string :=
  default fallback (m_MTypeToRDesc MTMaps !! media_type).

(** Modelled from the spec: what the other collaborators answer. The
    manifest component is asked for the package version and the main
    identifier, the settings for the default version, and
    [OpenExternally::mayOpen] gates the watching of a file. *)
Record Collaborators := mkCollaborators {
  MTMaps : MediaTypes;
  mayOpen : ResourceType → bool;
  OPF_GetEpubVersion : string;
  OPF_GetMainIdentifierValue : string;
  defaultVersion : string
}.

Inductive Exception :=
  | FileDoesNotExist (path : string)
  | ResourceDoesNotExist (name : string).

(** The signals the registry emits, and the call it forwards to the OPF. *)
Inductive Signal :=
  | ResourceAdded (resource : ptr)
  | ResourceRemoved (resource : ptr)
  | OPF_ResourceRenamed (resource : ptr) (old_full_path : string).

(** ** The state of a [FolderKeeper] *)

Record FolderKeeper := mkFolderKeeper {
  heap : gmap N Resource;
  disk : gset string;
  m_Resources : gmap string N;
  m_Path2Resource : gmap string N;
  m_OPF : ptr;
  m_NCX : ptr;
  m_FSWatcher : gset string;
  m_SuspendedWatchedFiles : list string;
  m_FullPathToMainFolder : string;
  m_KeyToLCP : gmap string string;
  emitted : list Signal
}.

(** A call either returns a value or throws; both leave a state. *)
Inductive result (A : Type) :=
  | Returns (a : A) (st : FolderKeeper)
  | Throws (e : Exception) (st : FolderKeeper).

Arguments Returns {A} a st.
Arguments Throws {A} e st.

Definition state_of {A} (r : result A) : FolderKeeper :=
  match r with Returns _ st => st | Throws _ st => st end.

Definition FILE_EXCEPTIONS : string := "META-INF".
Definition IMAGE_FOLDER_NAME : string := "Images".
Definition FONT_FOLDER_NAME : string := "Fonts".
Definition TEXT_FOLDER_NAME : string := "Text".
Definition STYLE_FOLDER_NAME : string := "Styles".
Definition AUDIO_FOLDER_NAME : string := "Audio".
Definition VIDEO_FOLDER_NAME : string := "Video".
Definition MISC_FOLDER_NAME : string := "Misc".
Definition OPF_FILE_NAME : string := "content.opf".
Definition NCX_FILE_NAME : string := "toc.ncx".

(** The folders [CreateFolderStructure] records. *)
Definition m_FullPathToMetaInfFolder (st : FolderKeeper) : string :=
  m_FullPathToMainFolder st +:+ "/META-INF".
Definition m_FullPathToOEBPSFolder (st : FolderKeeper) : string :=
  m_FullPathToMainFolder st +:+ "/OEBPS".
Definition m_FullPathToAudioFolder (st : FolderKeeper) : string :=
  m_FullPathToOEBPSFolder st +:+ "/" +:+ AUDIO_FOLDER_NAME.
Definition m_FullPathToVideoFolder (st : FolderKeeper) : string :=
  m_FullPathToOEBPSFolder st +:+ "/" +:+ VIDEO_FOLDER_NAME.
Definition m_FullPathToImagesFolder (st : FolderKeeper) : string :=
  m_FullPathToOEBPSFolder st +:+ "/" +:+ IMAGE_FOLDER_NAME.
Definition m_FullPathToFontsFolder (st : FolderKeeper) : string :=
  m_FullPathToOEBPSFolder st +:+ "/" +:+ FONT_FOLDER_NAME.
Definition m_FullPathToTextFolder (st : FolderKeeper) : string :=
  m_FullPathToOEBPSFolder st +:+ "/" +:+ TEXT_FOLDER_NAME.
Definition m_FullPathToStylesFolder (st : FolderKeeper) : string :=
  m_FullPathToOEBPSFolder st +:+ "/" +:+ STYLE_FOLDER_NAME.
Definition m_FullPathToMiscFolder (st : FolderKeeper) : string :=
  m_FullPathToOEBPSFolder st +:+ "/" +:+ MISC_FOLDER_NAME.

(** [new]: an address that is neither [NULL] nor in use. *)
Definition new_address (h : gmap N Resource) : ptr :=
  fresh ({[NULL]} ∪ dom h).

(** [m_Resources.values()], each pointer followed to its object; an
    address that holds no object gives none. *)
Definition values (st : FolderKeeper) : list Resource :=
  omap (λ p, heap st !! p) (map_to_list (m_Resources st)).*2.

(** [QFileInfo::exists] and [QFile::exists]. *)
Definition file_exists (st : FolderKeeper) (path : string) : bool :=
  bool_decide (path ∈ disk st).

(** [QFileSystemWatcher::addPath]: a path that does not exist is not added. *)
Definition addPath (st : FolderKeeper) (path : string)
    (watched : gset string) : gset string :=
  if file_exists st path then {[path]} ∪ watched else watched.

(** [QFileSystemWatcher::files()]. *)
Definition files (st : FolderKeeper) : list string :=
  elements (m_FSWatcher st).

(** ** The operations of [FolderKeeper] *)

Definition CreateKeyToLCPMap (st : FolderKeeper) : FolderKeeper :=
  if bool_decide (m_KeyToLCP st = ∅) then
    let main := m_FullPathToMainFolder st in
    mkFolderKeeper (heap st) (disk st) (m_Resources st) (m_Path2Resource st)
      (m_OPF st) (m_NCX st) (m_FSWatcher st) (m_SuspendedWatchedFiles st)
      main
      (<["other" := main +:+ "/"]>
       (<["opf" := main +:+ "/OEBPS/"]>
       (<["ncx" := main +:+ "/OEBPS/"]>
       (<["misc" := main +:+ "/OEBPS/Misc/"]>
       (<["video" := main +:+ "/OEBPS/Video/"]>
       (<["audio" := main +:+ "/OEBPS/Audio/"]>
       (<["fonts" := main +:+ "/OEBPS/Fonts/"]>
       (<["images" := main +:+ "/OEBPS/Images/"]>
       (<["styles" := main +:+ "/OEBPS/Styles/"]>
       (<["text" := main +:+ "/OEBPS/Text/"]> (m_KeyToLCP st)))))))))))
      (emitted st)
  else st.

Definition CreateFolderStructure (st : FolderKeeper) : FolderKeeper :=
  let main := m_FullPathToMainFolder st in
  mkFolderKeeper (heap st)
    (list_to_set
       [ main +:+ "/META-INF"; main +:+ "/OEBPS";
         main +:+ "/OEBPS/" +:+ AUDIO_FOLDER_NAME;
         main +:+ "/OEBPS/" +:+ VIDEO_FOLDER_NAME;
         main +:+ "/OEBPS/" +:+ IMAGE_FOLDER_NAME;
         main +:+ "/OEBPS/" +:+ FONT_FOLDER_NAME;
         main +:+ "/OEBPS/" +:+ TEXT_FOLDER_NAME;
         main +:+ "/OEBPS/" +:+ STYLE_FOLDER_NAME;
         main +:+ "/OEBPS/" +:+ MISC_FOLDER_NAME ] ∪ disk st)
    (m_Resources st) (m_Path2Resource st) (m_OPF st) (m_NCX st)
    (m_FSWatcher st) (m_SuspendedWatchedFiles st) main (m_KeyToLCP st)
    (emitted st).

(** [uuid] is the identifier the constructor of the new resource draws. *)
Definition CreateInfrastructureFiles (env : Collaborators) (uuid : string)
    (st : FolderKeeper) : FolderKeeper :=
  let version := defaultVersion env in
  let opf := new_address (heap st) in
  let object :=
    mkResource uuid (m_FullPathToMainFolder st)
      (m_FullPathToOEBPSFolder st +:+ "/" +:+ OPF_FILE_NAME)
      OPFResourceType "" version (default "" (m_KeyToLCP st !! "opf")) in
  mkFolderKeeper (<[opf := object]> (heap st))
    ({[m_FullPathToMetaInfFolder st +:+ "/container.xml"]} ∪ disk st)
    (<[GetIdentifier object := opf]> (m_Resources st))
    (<[GetRelativePath object := opf]> (m_Path2Resource st))
    opf (m_NCX st) (m_FSWatcher st) (m_SuspendedWatchedFiles st)
    (m_FullPathToMainFolder st)
    (if m_KeyToLCP st !! "opf" is Some _ then m_KeyToLCP st
     else <["opf" := ""]> (m_KeyToLCP st))
    (emitted st).

(** The constructor: [main] is the path of the temporary folder, [files0]
    what the disk holds. *)
Definition FolderKeeper_new (env : Collaborators) (main : string)
    (files0 : gset string) (uuid : string) : FolderKeeper :=
  CreateInfrastructureFiles env uuid
    (CreateFolderStructure
       (CreateKeyToLCPMap
          (mkFolderKeeper ∅ files0 ∅ ∅ NULL NULL ∅ [] main ∅ []))).

Definition DetermineFileGroup (env : Collaborators)
    (filepath mimetype : string) : string :=
  let extension := QString.toLower (QFileInfo.suffix filepath) in
  if QString.contains FILE_EXCEPTIONS filepath then "other"
  else
    let mt :=
      if QString.isEmpty mimetype
      then GetMediaTypeFromExtension (MTMaps env) extension ""
      else mimetype in
    if QString.isEmpty mt then "other"
    else QString.toLower (GetGroupFromMediaType (MTMaps env) mt "other").

Definition GetAllFilenames (st : FolderKeeper) : list string :=
  Filename <$> values st.

Definition GetAllBookPaths (st : FolderKeeper) : list string :=
  GetRelativePath <$> values st.

(** The chain of comparisons on the resource description: the path of the
    new file, the class constructed and the longest common path. *)
Definition placement (st : FolderKeeper) (fullfilepath filename resdesc
    lcppath : string) : string * ResourceType * string :=
  let main := m_FullPathToMainFolder st in
  if QString.contains FILE_EXCEPTIONS fullfilepath then
    (main +:+ QString.right fullfilepath
                (QString.size fullfilepath - QString.size main),
     GenericResourceType, lcppath)
  else if String.eqb resdesc "MiscTextResource" then
    (m_FullPathToMiscFolder st +:+ "/" +:+ filename, MiscTextResourceType, lcppath)
  else if String.eqb resdesc "AudioResource" then
    (m_FullPathToAudioFolder st +:+ "/" +:+ filename, AudioResourceType, lcppath)
  else if String.eqb resdesc "VideoResource" then
    (m_FullPathToVideoFolder st +:+ "/" +:+ filename, VideoResourceType, lcppath)
  else if String.eqb resdesc "ImageResource" then
    (m_FullPathToImagesFolder st +:+ "/" +:+ filename, ImageResourceType, lcppath)
  else if String.eqb resdesc "SVGResource" then
    (m_FullPathToImagesFolder st +:+ "/" +:+ filename, SVGResourceType, lcppath)
  else if String.eqb resdesc "FontResource" then
    (m_FullPathToFontsFolder st +:+ "/" +:+ filename, FontResourceType, lcppath)
  else if String.eqb resdesc "HTMLResource" then
    (m_FullPathToTextFolder st +:+ "/" +:+ filename, HTMLResourceType, lcppath)
  else if String.eqb resdesc "CSSResource" then
    (m_FullPathToStylesFolder st +:+ "/" +:+ filename, CSSResourceType, lcppath)
  else if String.eqb resdesc "XMLResource" then
    (m_FullPathToMiscFolder st +:+ "/" +:+ filename, XMLResourceType, lcppath)
  else
    (m_FullPathToMiscFolder st +:+ "/" +:+ filename, GenericResourceType,
     default "" (m_KeyToLCP st !! "misc")).

(** The file name after the renaming of a name that starts with a dot. *)
Definition normalise (fullfilepath : string) : string :=
  let fileName := QFileInfo.fileName fullfilepath in
  if String.eqb (QString.left fileName 1) "."
  then QFileInfo.absolutePath fullfilepath +:+ "/" +:+
       QString.right fileName (QString.size fileName - 1)
  else fullfilepath.

(** [uuid] is the identifier the constructor of the new resource draws. *)
Definition AddContentFileToFolder (env : Collaborators) (uuid : string)
    (fullfilepath : string) (update_opf : bool) (mimetype : string)
    (st : FolderKeeper) : result ptr :=
  if negb (file_exists st fullfilepath) then
    Throws (FileDoesNotExist fullfilepath) st
  else
    let normalised_file_path := normalise fullfilepath in
    let filename :=
      GetUniqueFilenameVersion (GetAllFilenames st)
        (QFileInfo.fileName normalised_file_path) in
    let extension := QString.toLower (QFileInfo.suffix normalised_file_path) in
    let mt :=
      if QString.isEmpty mimetype
      then GetMediaTypeFromExtension (MTMaps env) extension ""
      else mimetype in
    let group := DetermineFileGroup env normalised_file_path mt in
    let resdesc := GetResourceDescFromMediaType (MTMaps env) mt "Resource" in
    let lcppath := default "" (m_KeyToLCP st !! group) in
    let '(new_file_path, type, lcppath) :=
      placement st fullfilepath filename resdesc lcppath in
    let resource := new_address (heap st) in
    let main := m_FullPathToMainFolder st in
    let book_path :=
      QString.right new_file_path
        (QString.size new_file_path - QString.size main - 1) in
    let object :=
      mkResource uuid main new_file_path type mt (OPF_GetEpubVersion env)
        lcppath in
    Returns resource
      (mkFolderKeeper (<[resource := object]> (heap st))
         ({[new_file_path]} ∪ disk st)
         (<[GetIdentifier object := resource]> (m_Resources st))
         (<[book_path := resource]> (m_Path2Resource st))
         (m_OPF st) (m_NCX st) (m_FSWatcher st) (m_SuspendedWatchedFiles st)
         main (m_KeyToLCP st)
         (if update_opf then emitted st ++ [ResourceAdded resource]
          else emitted st)).

Definition GetHighestReadingOrder (st : FolderKeeper) : Z :=
  let count_of_html_resources :=
    fold_left
      (λ count resource,
         if bool_decide (m_Type resource = HTMLResourceType)
         then wrap_int (count + 1) else count)
      (values st) 0 in
  wrap_int (count_of_html_resources - 1).

Definition GetResourceByIdentifier (identifier : string)
    (st : FolderKeeper) : ptr :=
  default NULL (m_Resources st !! identifier).

Definition GetResourceByBookPath (bookpath : string)
    (st : FolderKeeper) : result ptr :=
  let resource := default NULL (m_Path2Resource st !! bookpath) in
  if bool_decide (resource ≠ NULL) then Returns resource st
  else Throws (ResourceDoesNotExist bookpath) st.

(** [uuid] is the identifier the constructor of the new resource draws. *)
Definition AddNCXToFolder (env : Collaborators) (uuid : string)
    (version : string) (st : FolderKeeper) : result ptr :=
  let ncx := new_address (heap st) in
  let object :=
    mkResource uuid (m_FullPathToMainFolder st)
      (m_FullPathToOEBPSFolder st +:+ "/" +:+ NCX_FILE_NAME)
      NCXResourceType "" version (default "" (m_KeyToLCP st !! "ncx")) in
  Returns ncx
    (mkFolderKeeper (<[ncx := object]> (heap st)) (disk st)
       (<[GetIdentifier object := ncx]> (m_Resources st))
       (<[GetRelativePath object := ncx]> (m_Path2Resource st))
       (m_OPF st) ncx (m_FSWatcher st) (m_SuspendedWatchedFiles st)
       (m_FullPathToMainFolder st)
       (if m_KeyToLCP st !! "ncx" is Some _ then m_KeyToLCP st
        else <["ncx" := ""]> (m_KeyToLCP st))
       (emitted st)).

(** A call through a [Resource *] has no behaviour ([None]) when the
    address holds no object. *)
Definition RemoveResource (resource : ptr) (st : FolderKeeper)
    : option FolderKeeper :=
  match heap st !! resource with
  | None => None
  | Some object =>
      Some
        (mkFolderKeeper (heap st) (disk st)
           (delete (GetIdentifier object) (m_Resources st))
           (delete (GetRelativePath object) (m_Path2Resource st))
           (m_OPF st) (m_NCX st)
           (if bool_decide (GetFullPath object ∈ files st)
            then m_FSWatcher st ∖ {[GetFullPath object]}
            else m_FSWatcher st)
           (filter (λ path, path ≠ GetFullPath object)
              (m_SuspendedWatchedFiles st))
           (m_FullPathToMainFolder st) (m_KeyToLCP st)
           (emitted st ++ [ResourceRemoved resource]))
  end.

Definition RemoveNCXFromFolder (st : FolderKeeper) : option FolderKeeper :=
  if bool_decide (m_NCX st = NULL) then Some st
  else
    match RemoveResource (m_NCX st) st with
    | None => None
    | Some st' =>
        Some
          (mkFolderKeeper (heap st') (disk st') (m_Resources st')
             (m_Path2Resource st') (m_OPF st') NULL (m_FSWatcher st')
             (m_SuspendedWatchedFiles st') (m_FullPathToMainFolder st')
             (m_KeyToLCP st') (emitted st'))
    end.

Definition ResourceRenamed (resource : ptr) (old_full_path : string)
    (st : FolderKeeper) : option FolderKeeper :=
  match heap st !! resource with
  | None => None
  | Some object =>
      let book_path :=
        QString.right old_full_path
          (QString.size old_full_path
           - QString.size (m_FullPathToMainFolder st) - 1) in
      (* the subscript adds a NULL entry for a key the hash lacks *)
      let res := default NULL (m_Path2Resource st !! book_path) in
      let with_entry := <[book_path := res]> (m_Path2Resource st) in
      Some
        (mkFolderKeeper (heap st) (disk st) (m_Resources st)
           (<[GetRelativePath object := res]> (delete book_path with_entry))
           (m_OPF st) (m_NCX st) (m_FSWatcher st)
           (m_SuspendedWatchedFiles st) (m_FullPathToMainFolder st)
           (m_KeyToLCP st)
           (emitted st ++ [OPF_ResourceRenamed resource old_full_path]))
  end.

Definition WatchResourceFile (env : Collaborators) (resource : ptr)
    (st : FolderKeeper) : option FolderKeeper :=
  match heap st !! resource with
  | None => None
  | Some object =>
      if mayOpen env (m_Type object) then
        Some
          (mkFolderKeeper (heap st) (disk st) (m_Resources st)
             (m_Path2Resource st) (m_OPF st) (m_NCX st)
             (if bool_decide (GetFullPath object ∈ files st)
              then m_FSWatcher st
              else addPath st (GetFullPath object) (m_FSWatcher st))
             (m_SuspendedWatchedFiles st) (m_FullPathToMainFolder st)
             (m_KeyToLCP st) (emitted st))
      else Some st
  end.

Definition SuspendWatchingResources (st : FolderKeeper) : FolderKeeper :=
  if bool_decide (m_SuspendedWatchedFiles st = [])
     && negb (bool_decide (files st = []))
  then
    let suspended := m_SuspendedWatchedFiles st ++ files st in
    mkFolderKeeper (heap st) (disk st) (m_Resources st) (m_Path2Resource st)
      (m_OPF st) (m_NCX st)
      (m_FSWatcher st ∖ list_to_set suspended)
      suspended (m_FullPathToMainFolder st) (m_KeyToLCP st) (emitted st)
  else st.

Definition ResumeWatchingResources (st : FolderKeeper) : FolderKeeper :=
  if negb (bool_decide (m_SuspendedWatchedFiles st = [])) then
    mkFolderKeeper (heap st) (disk st) (m_Resources st) (m_Path2Resource st)
      (m_OPF st) (m_NCX st)
      (fold_left
         (λ watched path,
            if file_exists st path then addPath st path watched else watched)
         (m_SuspendedWatchedFiles st) (m_FSWatcher st))
      [] (m_FullPathToMainFolder st) (m_KeyToLCP st) (emitted st)
  else st.

(** Modelled from the spec: the rename of a resource is not part of the
    sources at hand. The resource changes its own full path: the object at
    the address is updated, and every holder of the address sees it. *)
Definition MoveResource (resource : ptr) (new_full_path : string)
    (st : FolderKeeper) : FolderKeeper :=
  mkFolderKeeper (alter (SetFullPath new_full_path) resource (heap st))
    (disk st) (m_Resources st) (m_Path2Resource st) (m_OPF st) (m_NCX st)
    (m_FSWatcher st) (m_SuspendedWatchedFiles st) (m_FullPathToMainFolder st)
    (m_KeyToLCP st) (emitted st).

(** Modelled from the spec: after the change the resource announces the
    rename with its prior full path, which reaches [ResourceRenamed]. *)
Definition RenameResource (resource : ptr) (new_full_path : string)
    (st : FolderKeeper) : option FolderKeeper :=
  match heap st !! resource with
  | None => None
  | Some object =>
      ResourceRenamed resource (GetFullPath object)
        (MoveResource resource new_full_path st)
  end.

(** ** The queries of [FolderKeeper] *)

(** [m_Resources.values()]: the addresses, in the order of the hash. *)
Definition GetResourceList (st : FolderKeeper) : list ptr :=
  (map_to_list (m_Resources st)).*2.

(** An address that holds no object is of no type. *)
Definition GetResourceListByType (type : ResourceType) (st : FolderKeeper)
    : list ptr :=
  filter (λ resource, m_Type <$> heap st !! resource = Some type)
    (GetResourceList st).

(** The first resource, in the order of the hash, whose book path ends
    with [path_end]; the empty string when there is none. *)
Definition GetBookPathByPathEnd (path_end : string) (st : FolderKeeper)
    : string :=
  match
    find (λ resource, QString.endsWith (GetRelativePath resource) path_end)
      (values st)
  with
  | Some resource => GetRelativePath resource
  | None => EmptyString
  end.

Definition GetOPF (st : FolderKeeper) : ptr := m_OPF st.

Definition GetNCX (st : FolderKeeper) : ptr := m_NCX st.

(** The call fills the map when it is empty, so it returns a state too. *)
Definition GetLongestCommonPathForKey (key : string) (st : FolderKeeper)
    : string * FolderKeeper :=
  let st' := CreateKeyToLCPMap st in
  (default EmptyString (m_KeyToLCP st' !! key), st').

(** ** Properties of a registry *)

(** A resource is registered when both indices hold it, each under the one
    key the object itself gives: its identifier and its book path. *)
Definition registered (st : FolderKeeper) (p : ptr) : Prop :=
  p ≠ NULL ∧
  ∃ r, heap st !! p = Some r
       ∧ m_Resources st !! GetIdentifier r = Some p
       ∧ m_Path2Resource st !! GetRelativePath r = Some p
       ∧ (∀ id, m_Resources st !! id = Some p → id = GetIdentifier r)
       ∧ (∀ k, m_Path2Resource st !! k = Some p → k = GetRelativePath r).

(** The same as a test, for a state that is given. *)
Definition registeredb (st : FolderKeeper) (p : ptr) : bool :=
  match heap st !! p with
  | None => false
  | Some r =>
      bool_decide (p ≠ NULL)
      && bool_decide (m_Resources st !! GetIdentifier r = Some p)
      && bool_decide (m_Path2Resource st !! GetRelativePath r = Some p)
      && forallb
           (λ kv : string * N, bool_decide (kv.2 = p → kv.1 = GetIdentifier r))
           (map_to_list (m_Resources st))
      && forallb
           (λ kv : string * N,
              bool_decide (kv.2 = p → kv.1 = GetRelativePath r))
           (map_to_list (m_Path2Resource st))
  end.

(** I1: whatever one index holds is registered, so the two indices hold the
    same resources. *)
Definition I1 (st : FolderKeeper) : Prop :=
  (∀ id p, m_Resources st !! id = Some p → registered st p)
  ∧ (∀ k p, m_Path2Resource st !! k = Some p → registered st p).

(** The objects the registry holds were made for its folder. *)
Definition same_folder (st : FolderKeeper) : Prop :=
  ∀ id p r, m_Resources st !! id = Some p → heap st !! p = Some r →
    m_MainFolder r = m_FullPathToMainFolder st.

(** The number of registered resources of the HTML kind. *)
Definition html_count (st : FolderKeeper) : Z :=
  Z.of_nat
    (size (filter
             (λ kv : string * N,
                m_Type <$> heap st !! kv.2 = Some HTMLResourceType)
             (m_Resources st))).

(** Every address the index by identifier holds is the address of an
    object. *)
Definition addresses_valid (st : FolderKeeper) : Prop :=
  ∀ id p, m_Resources st !! id = Some p → is_Some (heap st !! p).

(** A run of calls of [AddContentFileToFolder], each given as identifier
    drawn, path, update flag and media-type hint: the state it leads to and
    the number of resources of the HTML kind it registered. *)
Fixpoint register_all (env : Collaborators)
    (requests : list (string * string * bool * string))
    (st : FolderKeeper) : FolderKeeper * Z :=
  match requests with
  | [] => (st, 0)
  | (uuid, fullfilepath, update_opf, mimetype) :: rest =>
      match AddContentFileToFolder env uuid fullfilepath update_opf mimetype st
      with
      | Returns p st' =>
          let '(st'', k) := register_all env rest st' in
          (st'',
           k + (if bool_decide
                     (m_Type <$> heap st' !! p = Some HTMLResourceType)
                then 1 else 0))
      | Throws _ st' => register_all env rest st'
      end
  end.

(** The operations that change the registry. *)
Inductive Operation :=
  | addContentFile (uuid fullfilepath : string) (update_opf : bool)
      (mimetype : string)
  | addNavigationResource (uuid version : string)
  | removeResource (resource : ptr)
  | resourceRenamed (resource : ptr) (new_full_path : string).

Definition perform (env : Collaborators) (op : Operation)
    (st : FolderKeeper) : option FolderKeeper :=
  match op with
  | addContentFile uuid fullfilepath update_opf mimetype =>
      Some (state_of
              (AddContentFileToFolder env uuid fullfilepath update_opf
                 mimetype st))
  | addNavigationResource uuid version =>
      Some (state_of (AddNCXToFolder env uuid version st))
  | removeResource resource => RemoveResource resource st
  | resourceRenamed resource new_full_path =>
      RenameResource resource new_full_path st
  end.

Fixpoint perform_all (env : Collaborators) (ops : list Operation)
    (st : FolderKeeper) : option FolderKeeper :=
  match ops with
  | [] => Some st
  | op :: ops' =>
      match perform env op st with
      | Some st' => perform_all env ops' st'
      | None => None
      end
  end.

(** A new resource comes with an identifier and a book path that are keys
    of neither index yet. *)
Definition enters_unused (st : FolderKeeper) (res : result ptr) : Prop :=
  ∀ p st' r, res = Returns p st' → heap st' !! p = Some r →
    m_Resources st !! GetIdentifier r = None
    ∧ m_Path2Resource st !! GetRelativePath r = None.

(** The operations the amended invariant is about: additions enter under
    unused keys, a removal or a rename is of a registered resource, and a
    rename leads to a book path that is not in use. *)
Definition permitted (env : Collaborators) (st : FolderKeeper)
    (op : Operation) : Prop :=
  match op with
  | addContentFile uuid fullfilepath update_opf mimetype =>
      enters_unused st
        (AddContentFileToFolder env uuid fullfilepath update_opf mimetype st)
  | addNavigationResource uuid version =>
      enters_unused st (AddNCXToFolder env uuid version st)
  | removeResource resource => registered st resource
  | resourceRenamed resource new_full_path =>
      registered st resource
      ∧ ∀ r, heap st !! resource = Some r →
          m_Path2Resource st
            !! GetRelativePath (SetFullPath new_full_path r) = None
  end.

(** The same as tests, for a state and an operation that are given. *)
Definition enters_unusedb (st : FolderKeeper) (res : result ptr) : bool :=
  match res with
  | Returns p st' =>
      match heap st' !! p with
      | Some r =>
          bool_decide (m_Resources st !! GetIdentifier r = None)
          && bool_decide (m_Path2Resource st !! GetRelativePath r = None)
      | None => true
      end
  | Throws _ _ => true
  end.

Definition permittedb (env : Collaborators) (st : FolderKeeper)
    (op : Operation) : bool :=
  match op with
  | addContentFile uuid fullfilepath update_opf mimetype =>
      enters_unusedb st
        (AddContentFileToFolder env uuid fullfilepath update_opf mimetype st)
  | addNavigationResource uuid version =>
      enters_unusedb st (AddNCXToFolder env uuid version st)
  | removeResource resource => registeredb st resource
  | resourceRenamed resource new_full_path =>
      registeredb st resource
      && match heap st !! resource with
         | Some r =>
             bool_decide
               (m_Path2Resource st
                  !! GetRelativePath (SetFullPath new_full_path r) = None)
         | None => true
         end
  end.

(** No other resource of the registry has the file name of [p], up to
    case. *)
Definition name_unshared (st : FolderKeeper) (p : ptr) (name : string)
    : Prop :=
  ∀ id q s, m_Resources st !! id = Some q → q ≠ p → heap st !! q = Some s →
    QString.equals_ci name (Filename s) = false.

Definition name_unsharedb (st : FolderKeeper) (p : ptr) (name : string)
    : bool :=
  forallb
    (λ kv : string * N,
       bool_decide (kv.2 = p)
       || match heap st !! kv.2 with
          | Some s => negb (QString.equals_ci name (Filename s))
          | None => true
          end)
    (map_to_list (m_Resources st)).

(** I3: no two entries of the index by identifier have file names that
    are equal up to case. *)
Definition names_distinct (st : FolderKeeper) : Prop :=
  ∀ id1 id2 p q r s, id1 ≠ id2 →
    m_Resources st !! id1 = Some p → m_Resources st !! id2 = Some q →
    heap st !! p = Some r → heap st !! q = Some s →
    QString.equals_ci (Filename r) (Filename s) = false.

(** A run of additions none of which is of a file of the metadata folder
    or meets existing names whose largest suffix is [INT_MAX]. *)
Fixpoint ordinary (env : Collaborators)
    (requests : list (string * string * bool * string))
    (st : FolderKeeper) : Prop :=
  match requests with
  | [] => True
  | (uuid, fullfilepath, update_opf, mimetype) :: rest =>
      QString.contains FILE_EXCEPTIONS fullfilepath = false
      ∧ max_num (GetAllFilenames st)
          (QFileInfo.fileName (normalise fullfilepath)) < INT_MAX
      ∧ ordinary env rest
          (state_of
             (AddContentFileToFolder env uuid fullfilepath update_opf
                mimetype st))
  end.

(** The folders and the file the constructor makes. *)
Definition skeleton (st : FolderKeeper) : list string :=
  [ m_FullPathToMetaInfFolder st; m_FullPathToOEBPSFolder st;
    m_FullPathToAudioFolder st; m_FullPathToVideoFolder st;
    m_FullPathToImagesFolder st; m_FullPathToFontsFolder st;
    m_FullPathToTextFolder st; m_FullPathToStylesFolder st;
    m_FullPathToMiscFolder st;
    m_FullPathToMetaInfFolder st +:+ "/container.xml" ].

(** The states a new [FolderKeeper] reaches by permitted operations. *)
Inductive reachable (env : Collaborators) : FolderKeeper → Prop :=
  | reachable_new main files0 uuid :
      reachable env (FolderKeeper_new env main files0 uuid)
  | reachable_step st op st' :
      reachable env st → permitted env st op →
      perform env op st = Some st' → reachable env st'.

(** ** The allocator in the words of the specification *)

Module Spec.

(** The base name without its trailing run of decimal digits. *)
Fixpoint strip_trailing_digits (s : string) : string :=
  match s with
  | EmptyString => EmptyString
  | String c s' =>
      if QChar.isDigit c && QString.isEmpty (snd (Pattern.digits s'))
      then EmptyString
      else String c (strip_trailing_digits s')
  end.

(** The last character is a line feed. *)
Fixpoint ends_with_line_feed (s : string) : bool :=
  match s with
  | EmptyString => false
  | String c EmptyString => Ascii.eqb c "010"%char
  | String _ s' => ends_with_line_feed s'
  end.

(** The value of a numeric suffix, of any size. *)
Definition numeric (captured : string) : option Z :=
  if QString.isEmpty captured then None
  else (λ d, Z.of_N (N.of_uint d)) <$> NilEmpty.uint_of_string captured.

(** The existing names that match the pattern and yield a number: the
    value and the width of each suffix, in the order of the names. *)
Definition suffixes (value : string → option Z)
    (prefix extension : string) (existing : list string) : list (Z * Z) :=
  omap
    (λ name,
       match Pattern.filename_search prefix extension name with
       | Some captured =>
           (λ n, (n, QString.size captured)) <$> value captured
       | None => None
       end)
    existing.

(** The larger of two suffixes, the earlier one when they are equal. *)
Definition keep_larger (acc c : Z * Z) : Z * Z :=
  if c.1 >? acc.1 then c else acc.

Definition maximum (found : list (Z * Z)) : Z := foldr Z.max 0 found.*1.

(** The width of the first suffix that has the maximum, 4 without one. *)
Definition width_of_maximum (found : list (Z * Z)) : Z :=
  match find (λ c, fst c =? maximum found) found with
  | Some c => snd c
  | None => 4
  end.

(** [allocate(desiredName, existingNames)]; [value] reads a suffix. *)
Definition allocate (value : string → option Z) (desiredName : string)
    (existingNames : list string) : string :=
  if negb (QStringList.contains_ci existingNames desiredName)
  then desiredName
  else
    let prefix := strip_trailing_digits (QFileInfo.baseName desiredName) in
    let extension := QFileInfo.completeSuffix desiredName in
    let found := suffixes value prefix extension existingNames in
    prefix
    +:+ QString.zero_padded (width_of_maximum found)
          (QString.number (Z.to_N (maximum found + 1)))
    +:+ (if QString.isEmpty extension then EmptyString
         else "." +:+ extension).

End Spec.

(** ** A book for the examples *)

Module Example.

Definition tables : MediaTypes :=
  mkMediaTypes
    (<["xhtml" := "application/xhtml+xml"]> (<["css" := "text/css"]> ∅))
    (<["application/xhtml+xml" := "Text"]> (<["text/css" := "Styles"]> ∅))
    (<["application/xhtml+xml" := "HTMLResource"]>
       (<["text/css" := "CSSResource"]> ∅)).

Definition env : Collaborators :=
  mkCollaborators tables (λ _, true) "2.0" "urn:uuid:0" "2.0".

Definition main : string := "/tmp/book".

Definition files0 : gset string :=
  list_to_set
    [ "/in/a.xhtml"; "/in/b.css"; "/in/x.zzz";
      "/tmp/orig/META-INF/x.zzz" ].

Definition book0 : FolderKeeper := FolderKeeper_new env main files0 "opf".

(** A document and a style sheet are added, the document is renamed and
    the style sheet is removed. *)
Definition book1 : FolderKeeper :=
  state_of (AddContentFileToFolder env "u1" "/in/a.xhtml" true "" book0).

Definition book2 : FolderKeeper :=
  state_of (AddContentFileToFolder env "u2" "/in/b.css" true "" book1).

Definition book3 : FolderKeeper :=
  default book2 (RenameResource 2 "/tmp/book/OEBPS/Text/c.xhtml" book2).

Definition book4 : FolderKeeper :=
  default book3 (RemoveResource 3 book3).

(** The document of [book2] after it changed its path, before the
    registry is told. *)
Definition moved : FolderKeeper :=
  MoveResource 2 "/tmp/book/OEBPS/Text/c.xhtml" book2.

(** A document, a style sheet and the same document again. *)
Definition requests : list (string * string * bool * string) :=
  [ ("u1", "/in/a.xhtml", true, ""); ("u2", "/in/b.css", true, "");
    ("u3", "/in/a.xhtml", false, "application/xhtml+xml") ].

(** The same file of the metadata folder, added twice. *)
Definition twice : list Operation :=
  [ addContentFile "u1" "/tmp/orig/META-INF/x.zzz" true "";
    addContentFile "u2" "/tmp/orig/META-INF/x.zzz" true "" ].

Definition added_twice : FolderKeeper :=
  default book0 (perform_all env twice book0).

(** A file of the content and a file of the metadata folder that have
    the same name. *)
Definition same_name : list Operation :=
  [ addContentFile "u1" "/in/x.zzz" true "";
    addContentFile "u2" "/tmp/orig/META-INF/x.zzz" true "" ].

Definition with_same_name : FolderKeeper :=
  default book0 (perform_all env same_name book0).

(** Names with the largest suffix an int holds, and with a larger one. *)
Definition names_at_limit : list string :=
  [ "a2147483647.txt"; "a-2147483648.txt" ].

Definition names_beyond_limit : list string := [ "a.txt"; "a9999999999.txt" ].

Definition name_with_line_feed : string :=
  "a1" +:+ String "010"%char EmptyString.

(** The document of [book2] is watched. *)
Definition watched : FolderKeeper :=
  default book2 (WatchResourceFile env 2 book2).

End Example.

(** * Proofs *)

(** ** Strings *)

Lemma append_nil (b : string) : EmptyString +:+ b = b.
Proof. reflexivity. Qed.

Lemma append_cons (c : ascii) (a b : string) :
  String c a +:+ b = String c (a +:+ b).
Proof. reflexivity. Qed.

Ltac string_simpl := rewrite ?append_nil, ?append_cons; simpl.

Lemma append_assoc (a b c : string) : (a +:+ b) +:+ c = a +:+ (b +:+ c).
Proof. induction a as [|x a IH]; string_simpl; [done|]. by rewrite IH. Qed.

Lemma append_empty_r (a : string) : a +:+ EmptyString = a.
Proof. induction a as [|x a IH]; string_simpl; [done|]. by rewrite IH. Qed.

Lemma length_append (a b : string) :
  String.length (a +:+ b) = (String.length a + String.length b)%nat.
Proof. induction a as [|x a IH]; string_simpl; [done|]. by rewrite IH. Qed.

Lemma size_append (a b : string) :
  QString.size (a +:+ b) = QString.size a + QString.size b.
Proof. unfold QString.size. rewrite length_append. lia. Qed.

Lemma size_nonneg (a : string) : 0 ≤ QString.size a.
Proof. unfold QString.size. lia. Qed.

Lemma skip_append (a b : string) : QString.skip (String.length a) (a +:+ b) = b.
Proof. induction a as [|x a IH]; string_simpl; [by destruct b|done]. Qed.

(** Dropping the length of a prefix from the right leaves the rest. *)
Lemma right_append (a b : string) :
  QString.right (a +:+ b) (QString.size (a +:+ b) - QString.size a) = b.
Proof.
  unfold QString.right. rewrite size_append.
  replace (QString.size a + QString.size b - QString.size a)
    with (QString.size b) by lia.
  destruct (Z.ltb_spec (QString.size b) 0) as [Hneg|_].
  { pose proof (size_nonneg b). lia. }
  destruct (Z.leb_spec (QString.size a + QString.size b) (QString.size b))
    as [Hle|Hgt]; simpl.
  - assert (String.length a = 0%nat) as Ha.
    { pose proof (size_nonneg a). unfold QString.size in *. lia. }
    by destruct a.
  - replace (Z.to_nat (QString.size a + QString.size b - QString.size b))
      with (String.length a) by (unfold QString.size; lia).
    apply skip_append.
Qed.

Lemma toLower_append (a b : string) :
  QString.toLower (a +:+ b) = QString.toLower a +:+ QString.toLower b.
Proof. induction a as [|x a IH]; string_simpl; [done|]. by rewrite IH. Qed.

Lemma equals_ci_spec (a b : string) :
  QString.equals_ci a b = true ↔ QString.toLower a = QString.toLower b.
Proof. unfold QString.equals_ci. apply String.eqb_eq. Qed.

Lemma contains_ci_spec (l : list string) (s : string) :
  QStringList.contains_ci l s = true
  ↔ ∃ e, e ∈ l ∧ QString.toLower s = QString.toLower e.
Proof.
  unfold QStringList.contains_ci. rewrite existsb_exists. split.
  - intros (e & Hin & Heq). exists e. split; [by apply list_elem_of_In|].
    by apply equals_ci_spec.
  - intros (e & Hin & Heq). exists e. split; [by apply list_elem_of_In|].
    by apply equals_ci_spec.
Qed.

(** A string that folds to a concatenation is a concatenation of strings
    that fold to the parts. *)
Lemma toLower_split (e x y : string) :
  QString.toLower e = x +:+ y →
  ∃ e1 e2, e = e1 +:+ e2 ∧ QString.toLower e1 = x ∧ QString.toLower e2 = y.
Proof.
  revert e. induction x as [|c x IH]; intros e He.
  - by exists EmptyString, e.
  - rewrite append_cons in He. destruct e as [|d e]; simpl in He; [done|].
    injection He as Hc He. destruct (IH e He) as (e1 & e2 & -> & H1 & H2).
    exists (String d e1), e2. string_simpl. by rewrite Hc, H1.
Qed.

Lemma strip_prefix_ci_append (p e1 e2 : string) :
  QString.toLower e1 = QString.toLower p →
  QString.strip_prefix_ci p (e1 +:+ e2) = Some e2.
Proof.
  revert e1. induction p as [|c p IH]; intros [|d e1] H; simpl in H;
    try done; string_simpl.
  injection H as Hc H. rewrite Hc, Ascii.eqb_refl. by apply IH.
Qed.

(** ** Characters *)

Lemma toLower_digit (c : ascii) :
  QChar.isDigit (QChar.toLower c) = true → QChar.toLower c = c.
Proof. by destruct c as [[] [] [] [] [] [] [] []]. Qed.

Lemma toLower_dot (c : ascii) : QChar.toLower c = "."%char → c = "."%char.
Proof. by destruct c as [[] [] [] [] [] [] [] []]. Qed.

(** ** Digits and numbers *)

Lemma all_digits_append (a b : string) :
  Pattern.all_digits (a +:+ b) = Pattern.all_digits a && Pattern.all_digits b.
Proof.
  induction a as [|x a IH]; string_simpl; [done|].
  rewrite IH. by destruct (QChar.isDigit x).
Qed.

Lemma all_digits_repeated (n : nat) :
  Pattern.all_digits (QString.repeated n "0"%char) = true.
Proof. induction n as [|n IH]; simpl; [done|]. by rewrite IH. Qed.

Lemma all_digits_string_of_uint (d : uint) :
  Pattern.all_digits (NilEmpty.string_of_uint d) = true.
Proof. induction d; simpl; by rewrite ?IHd. Qed.

Lemma digits_append (d rest : string) :
  Pattern.all_digits d = true → Pattern.starts_with_digit rest = false →
  Pattern.digits (d +:+ rest) = (d, rest).
Proof.
  intros Hd Hrest. induction d as [|c d IH]; string_simpl.
  - destruct rest as [|x rest]; simpl in *; [done|]. by rewrite Hrest.
  - simpl in Hd. apply andb_true_iff in Hd as [Hc Hd].
    rewrite Hc, (IH Hd). done.
Qed.

(** What [digits] splits off is a run of digits, and the two parts make up
    the string. *)
Lemma digits_spec (s : string) :
  Pattern.all_digits (Pattern.digits s).1 = true
  ∧ Pattern.starts_with_digit (Pattern.digits s).2 = false
  ∧ s = (Pattern.digits s).1 +:+ (Pattern.digits s).2.
Proof.
  induction s as [|c s (IH1 & IH2 & IH3)]; simpl; [done|].
  destruct (QChar.isDigit c) eqn:Hc.
  - destruct (Pattern.digits s) as [d rest]; simpl in *.
    rewrite Hc, IH1. string_simpl. by rewrite <- IH3.
  - simpl. by rewrite Hc.
Qed.

Lemma toLower_all_digits (e d : string) :
  Pattern.all_digits d = true → QString.toLower e = d → e = d.
Proof.
  revert e. induction d as [|c d IH]; intros [|x e] Hd He; simpl in *;
    try done.
  apply andb_true_iff in Hd as [Hc Hd]. injection He as Hx He.
  rewrite <- Hx in Hc. apply toLower_digit in Hc.
  f_equal; [congruence | by apply IH].
Qed.

Lemma toLower_digits_id (d : string) :
  Pattern.all_digits d = true → QString.toLower d = d.
Proof.
  induction d as [|c d IH]; simpl; [done|]. intros [Hc Hd]%andb_true_iff.
  rewrite (IH Hd). f_equal. by destruct c as [[] [] [] [] [] [] [] []].
Qed.

Lemma uint_of_string_zeros (n : nat) (s : string) :
  NilEmpty.uint_of_string (QString.repeated n "0"%char +:+ s)
  = Nat.iter n D0 <$> NilEmpty.uint_of_string s.
Proof.
  induction n as [|n IH]; string_simpl.
  - by destruct (NilEmpty.uint_of_string s).
  - rewrite IH. by destruct (NilEmpty.uint_of_string s).
Qed.

Lemma of_uint_zeros (n : nat) (d : uint) :
  N.of_uint (Nat.iter n D0 d) = N.of_uint d.
Proof. induction n as [|n IH]; simpl; [done|]. exact IH. Qed.

Lemma number_not_empty (n : N) : QString.isEmpty (QString.number n) = false.
Proof.
  unfold QString.number. destruct (N.to_uint n) eqn:Hn; try done.
  assert (N.of_uint (N.to_uint n) = 0%N) as H0 by (by rewrite Hn).
  rewrite DecimalN.Unsigned.of_to in H0. by subst n.
Qed.

Lemma zero_padded_not_empty (w : Z) (n : N) :
  QString.isEmpty (QString.zero_padded w (QString.number n)) = false.
Proof.
  unfold QString.zero_padded.
  destruct (Z.to_nat _); string_simpl; [apply number_not_empty|done].
Qed.

Lemma all_digits_zero_padded (w : Z) (n : N) :
  Pattern.all_digits (QString.zero_padded w (QString.number n)) = true.
Proof.
  unfold QString.zero_padded, QString.number.
  by rewrite all_digits_append, all_digits_repeated, all_digits_string_of_uint.
Qed.

(** Reading back a padded number gives the number, when it fits an int. *)
Lemma toInt_zero_padded (w : Z) (n : N) :
  Z.of_N n ≤ INT_MAX →
  Pattern.toInt (QString.zero_padded w (QString.number n)) = Some (Z.of_N n).
Proof.
  intros Hn. unfold Pattern.toInt. rewrite zero_padded_not_empty.
  unfold QString.zero_padded, QString.number.
  rewrite uint_of_string_zeros, NilEmpty.usu. simpl.
  rewrite of_uint_zeros, DecimalN.Unsigned.of_to.
  destruct (Z.leb_spec (Z.of_N n) INT_MAX); [done|lia].
Qed.

Lemma toInt_nonneg (c : string) (n : Z) : Pattern.toInt c = Some n → 0 ≤ n.
Proof.
  unfold Pattern.toInt. destruct (QString.isEmpty c); [done|].
  destruct (NilEmpty.uint_of_string c); [|done].
  destruct (_ <=? _); [|done]. intros [= <-]. lia.
Qed.

(** ** The search pattern *)

(** The extension with its dot, as the new name gets it. *)
Lemma toLower_empty (e : string) : QString.toLower e = EmptyString → e = EmptyString.
Proof. by destruct e. Qed.

(** A name that equals prefix, digits and extension up to case matches the
    search pattern and the capture is the digits. *)
Lemma filename_search_ci (p d ext e : string) :
  Pattern.all_digits d = true →
  QString.toLower e
  = QString.toLower
      ((p +:+ d) +:+
       (if negb (QString.isEmpty ext) then "." +:+ ext else EmptyString)) →
  Pattern.filename_search p ext e = Some d.
Proof.
  intros Hd He. rewrite !toLower_append in He.
  rewrite append_assoc in He.
  apply toLower_split in He as (e1 & e23 & -> & H1 & H23).
  apply toLower_split in H23 as (e2 & e3 & -> & H2 & H3).
  rewrite (toLower_digits_id d Hd) in H2.
  apply (toLower_all_digits _ _ Hd) in H2 as ->.
  unfold Pattern.filename_search.
  rewrite (strip_prefix_ci_append p e1 _ H1).
  destruct ext as [|x ext]; simpl in H3.
  - apply toLower_empty in H3 as ->. rewrite append_empty_r.
    pose proof (digits_append d EmptyString Hd eq_refl) as Hdig.
    rewrite append_empty_r in Hdig. by rewrite Hdig.
  - destruct e3 as [|c e3]; [done|]. simpl in H3. injection H3 as Hc H3.
    change (QChar.toLower ".") with "."%char in Hc.
    apply toLower_dot in Hc as ->.
    rewrite (digits_append d (String "." e3) Hd eq_refl). simpl.
    pose proof (strip_prefix_ci_append (String x ext) e3 EmptyString) as Hs.
    rewrite append_empty_r in Hs. simpl in Hs. rewrite Hs by done. done.
Qed.

(** ** The scan of the existing names *)

Lemma scan_existing_file_mono (p ext : string) (acc : Z * Z) (e : string) :
  acc.1 ≤ (scan_existing_file p ext acc e).1.
Proof.
  unfold scan_existing_file. destruct acc as [m l]; simpl.
  destruct (Pattern.filename_search p ext e) as [c|]; [|done].
  destruct (Pattern.toInt c) as [n|]; [|done].
  destruct (Z.gtb_spec n m); simpl; lia.
Qed.

Lemma scan_bound (p ext : string) (names : list string) (acc : Z * Z) :
  acc.1 ≤ (fold_left (scan_existing_file p ext) names acc).1
  ∧ ∀ e c n, e ∈ names → Pattern.filename_search p ext e = Some c →
      Pattern.toInt c = Some n →
      n ≤ (fold_left (scan_existing_file p ext) names acc).1.
Proof.
  revert acc. induction names as [|x names IH]; intros acc; simpl.
  - split; [done|]. intros e c n Hin. by apply elem_of_nil in Hin.
  - destruct (IH (scan_existing_file p ext acc x)) as [IH1 IH2].
    pose proof (scan_existing_file_mono p ext acc x) as Hmono.
    split; [lia|]. intros e c n Hin Hc Hn.
    apply elem_of_cons in Hin as [->|Hin]; [|by eapply IH2].
    etrans; [|exact IH1]. unfold scan_existing_file.
    destruct acc as [m l]. rewrite Hc, Hn.
    destruct (Z.gtb_spec n m); simpl; lia.
Qed.

Lemma wrap_int_id (z : Z) : - 2 ^ 31 ≤ z < 2 ^ 31 → wrap_int z = z.
Proof. intros Hz. unfold wrap_int. rewrite Z.mod_small; lia. Qed.

(** The name is unused, as long as no suffix in use is the largest [int]. *)
Lemma GetUniqueFilenameVersion_unused (filenames : list string)
    (filename : string) :
  (fold_left
     (scan_existing_file
        (Pattern.remove_digits_dollar (QFileInfo.baseName filename))
        (QFileInfo.completeSuffix filename))
     filenames (-1, -1)).1 < INT_MAX →
  QStringList.contains_ci filenames
    (GetUniqueFilenameVersion filenames filename) = false.
Proof.
  intros Hmax. unfold GetUniqueFilenameVersion.
  destruct (QStringList.contains_ci filenames filename) eqn:Hin; simpl;
    [|done].
  set (p := Pattern.remove_digits_dollar _) in *.
  set (ext := QFileInfo.completeSuffix _) in *.
  destruct (scan_bound p ext filenames (-1, -1)) as [Hlow Hup].
  destruct (fold_left _ filenames (-1, -1)) as [m l] eqn:Hfold.
  simpl in *.
  set (ml := if m =? -1 then (0, 4) else (m, l)).
  assert (0 ≤ ml.1 ∧ m ≤ ml.1 ∧ ml.1 < INT_MAX) as (Hm0 & Hmm & HmM).
  { unfold ml, INT_MAX in *. destruct (Z.eqb_spec m (-1)); simpl; lia. }
  destruct ml as [m' l']; simpl in *.
  rewrite wrap_int_id by (unfold INT_MAX in *; lia).
  unfold QString.arg. destruct (Z.ltb_spec (m' + 1) 0); [lia|].
  apply not_true_is_false. intros (e & He & Heq)%contains_ci_spec.
  symmetry in Heq. apply filename_search_ci in Heq;
    [|apply all_digits_zero_padded].
  specialize (Hup e _ (m' + 1) He Heq).
  rewrite toInt_zero_padded in Hup by (unfold INT_MAX in *; lia).
  rewrite Z2N.id in Hup by lia. specialize (Hup eq_refl). lia.
Qed.

(** A name that is not in use comes back as it is. *)
Lemma GetUniqueFilenameVersion_unchanged (filenames : list string)
    (filename : string) :
  QStringList.contains_ci filenames filename = false →
  GetUniqueFilenameVersion filenames filename = filename.
Proof. intros H. unfold GetUniqueFilenameVersion. by rewrite H. Qed.

(** ** The allocator against the words of the specification *)

Lemma ends_with_line_feed_cons (c : ascii) (s : string) :
  Spec.ends_with_line_feed (String c s) = false →
  Spec.ends_with_line_feed s = false.
Proof. by destruct s. Qed.

Lemma ends_with_line_feed_append (d : string) :
  Spec.ends_with_line_feed (d +:+ String "010"%char EmptyString) = true.
Proof.
  induction d as [|x d IH]; string_simpl; [done|].
  destruct d; [done|]. exact IH.
Qed.

Lemma dollar_no_line_feed (s : string) :
  Spec.ends_with_line_feed s = false →
  Pattern.dollar (Pattern.digits s).2 = true → (Pattern.digits s).2 = EmptyString.
Proof.
  intros Hlf Hdollar. destruct (digits_spec s) as (_ & _ & Hs).
  destruct (Pattern.digits s).2 as [|c [|c' rest]] eqn:Hrest; simpl in *;
    try done.
  apply Ascii.eqb_eq in Hdollar as ->.
  rewrite Hs, ends_with_line_feed_append in Hlf. done.
Qed.

(** Without a line feed at the end, what the pattern removes is the
    trailing run of digits. *)
Lemma remove_digits_dollar_strip (s : string) :
  Spec.ends_with_line_feed s = false →
  Pattern.remove_digits_dollar s = Spec.strip_trailing_digits s.
Proof.
  induction s as [|c s IH]; intros Hlf; simpl; [done|].
  pose proof (ends_with_line_feed_cons c s Hlf) as Hlf'.
  rewrite (IH Hlf'). destruct (QChar.isDigit c); simpl; [|done].
  destruct (Pattern.dollar (Pattern.digits s).2) eqn:Hd.
  - by rewrite (dollar_no_line_feed s Hlf' Hd).
  - destruct (Pattern.digits s).2; [done|]. done.
Qed.

Lemma scan_suffixes (p ext : string) (names : list string) (acc : Z * Z) :
  fold_left (scan_existing_file p ext) names acc
  = fold_left Spec.keep_larger (Spec.suffixes Pattern.toInt p ext names) acc.
Proof.
  revert acc. induction names as [|e names IH]; intros [m l]; [done|].
  unfold Spec.suffixes in *. simpl. rewrite IH.
  unfold scan_existing_file, Spec.keep_larger.
  destruct (Pattern.filename_search p ext e) as [c|]; simpl; [|done].
  destruct (Pattern.toInt c) as [n|]; simpl; done.
Qed.

Lemma suffixes_nonneg (p ext : string) (names : list string) :
  Forall (λ c, 0 ≤ c.1) (Spec.suffixes Pattern.toInt p ext names).
Proof.
  apply Forall_forall. intros [n w] Hin.
  apply list_elem_of_omap in Hin as (e & _ & He).
  destruct (Pattern.filename_search p ext e) as [c|]; [|done].
  destruct (Pattern.toInt c) as [n'|] eqn:Hn; [|done].
  injection He as <- <-. by eapply toInt_nonneg.
Qed.

Lemma foldr_max_base (b b' : Z) (l : list Z) :
  b' ≤ b → foldr Z.max b l = Z.max b (foldr Z.max b' l).
Proof. intros Hb. induction l as [|x l IH]; simpl; lia. Qed.

Lemma foldr_max_ge (b : Z) (l : list Z) : b ≤ foldr Z.max b l.
Proof. induction l as [|x l IH]; simpl; lia. Qed.

(** A maximum above the base is the value of some element. *)
Lemma find_maximum (b : Z) (found : list (Z * Z)) :
  b < foldr Z.max b found.*1 →
  is_Some (find (λ c : Z * Z, c.1 =? foldr Z.max b found.*1) found).
Proof.
  induction found as [|[n w] found IH]; [simpl; lia|].
  rewrite fmap_cons. cbn [foldr find fst]. intros Hb.
  destruct (Z.eqb_spec n (Z.max n (foldr Z.max b found.*1))) as [|Hne];
    [by exists (n, w)|].
  replace (Z.max n (foldr Z.max b found.*1)) with (foldr Z.max b found.*1)
    in * by lia.
  apply IH. lia.
Qed.

(** The scan keeps the largest value and the width of the first suffix
    that has it. *)
Lemma fold_keep_larger (found : list (Z * Z)) (acc : Z * Z) :
  fold_left Spec.keep_larger found acc
  = let M := foldr Z.max acc.1 found.*1 in
    (M, if M =? acc.1 then acc.2
        else from_option snd acc.2 (find (λ c : Z * Z, c.1 =? M) found)).
Proof.
  revert acc. induction found as [|[n w] found IH]; intros [m l].
  { simpl. by rewrite Z.eqb_refl. }
  rewrite fmap_cons. cbn [fold_left foldr find fst snd].
  rewrite IH. unfold Spec.keep_larger. cbn [fst snd].
  pose proof (foldr_max_ge m found.*1) as Hge.
  destruct (Z.gtb_spec n m) as [Hgt|Hle]; simpl.
  - rewrite (foldr_max_base n m) by lia.
    set (M := Z.max n (foldr Z.max m found.*1)). f_equal.
    destruct (Z.eqb_spec M m) as [|_]; [lia|].
    destruct (Z.eqb_spec M n) as [HMn|HMn].
    + rewrite HMn, Z.eqb_refl. done.
    + destruct (Z.eqb_spec n M) as [|_]; [lia|].
      assert (M = foldr Z.max m found.*1) as HM by lia.
      destruct (find_maximum m found) as [c Hc]; [lia|].
      rewrite <- HM in Hc. by rewrite Hc.
  - replace (Z.max n (foldr Z.max m found.*1))
      with (foldr Z.max m found.*1) by lia.
    set (M := foldr Z.max m found.*1). f_equal.
    destruct (Z.eqb_spec M m) as [|HMm]; [done|].
    destruct (Z.eqb_spec n M) as [|_]; [lia|done].
Qed.

Lemma maximum_nonneg (found : list (Z * Z)) : 0 ≤ Spec.maximum found.
Proof. apply foldr_max_ge. Qed.

(** From the start value of the scan, and with the defaults put in. *)
Lemma scan_result (found : list (Z * Z)) :
  Forall (λ c, 0 ≤ c.1) found →
  (let '(m, l) := fold_left Spec.keep_larger found (-1, -1) in
   if m =? -1 then (0, 4) else (m, l))
  = (Spec.maximum found, Spec.width_of_maximum found).
Proof.
  intros Hpos. rewrite fold_keep_larger. cbn [fst snd].
  unfold Spec.width_of_maximum, Spec.maximum.
  destruct (decide (found = [])) as [->|Hne]; [done|].
  assert (foldr Z.max (-1) found.*1 = foldr Z.max 0 found.*1) as Heq.
  { rewrite (foldr_max_base 0 (-1)) by lia.
    destruct found as [|[n w] found]; [done|].
    apply Forall_cons_1 in Hpos as [Hn _]. rewrite fmap_cons.
    cbn [foldr fst] in *. lia. }
  pose proof (foldr_max_ge 0 found.*1) as H0.
  rewrite Heq.
  destruct (Z.eqb_spec (foldr Z.max 0 found.*1) (-1)) as [|_]; [lia|].
  destruct (find_maximum (-1) found) as [c Hc]; [lia|].
  rewrite Heq in Hc. rewrite Hc.
  destruct (Z.eqb_spec (foldr Z.max 0 found.*1) (-1)) as [|_]; [lia|done].
Qed.

(** C3, amended: for a desired name whose base name does not end in a line
    feed, the name returned is the desired name when it is not in use, and
    otherwise the prefix (the base name without its trailing digits), then
    one more than the largest suffix among the suffixes of the matching
    names that are read as an int, padded with zeros to the width of the
    first suffix that has this value (one and width 4 without such a
    suffix), then the extension; this holds when that largest suffix is
    below the largest int. *)
Theorem GetUniqueFilenameVersion_allocate (filenames : list string)
    (filename : string) :
  Spec.ends_with_line_feed (QFileInfo.baseName filename) = false →
  Spec.maximum
    (Spec.suffixes Pattern.toInt
       (Spec.strip_trailing_digits (QFileInfo.baseName filename))
       (QFileInfo.completeSuffix filename) filenames) < INT_MAX →
  GetUniqueFilenameVersion filenames filename
  = Spec.allocate Pattern.toInt filename filenames.
Proof.
  intros Hlf Hmax. unfold GetUniqueFilenameVersion, Spec.allocate.
  destruct (QStringList.contains_ci filenames filename); simpl; [|done].
  rewrite (remove_digits_dollar_strip _ Hlf).
  set (p := Spec.strip_trailing_digits _) in *.
  set (ext := QFileInfo.completeSuffix _) in *.
  rewrite scan_suffixes.
  pose proof (scan_result _ (suffixes_nonneg p ext filenames)) as Hscan.
  set (found := Spec.suffixes Pattern.toInt p ext filenames) in *.
  destruct (fold_left Spec.keep_larger found (-1, -1)) as [m l].
  rewrite Hscan. pose proof (maximum_nonneg found) as H0.
  rewrite wrap_int_id by (unfold INT_MAX in *; lia).
  unfold QString.arg.
  destruct (Z.ltb_spec (Spec.maximum found + 1) 0); [lia|].
  rewrite append_assoc. by destruct (QString.isEmpty ext).
Qed.

(** ** Addresses and paths *)

Lemma new_address_spec (h : gmap N Resource) :
  new_address h ≠ NULL ∧ h !! new_address h = None.
Proof.
  pose proof (is_fresh ({[NULL]} ∪ dom h)) as Hfresh.
  fold (new_address h) in Hfresh. split.
  - intros Heq. apply Hfresh. rewrite Heq. set_solver.
  - apply not_elem_of_dom. set_solver.
Qed.

(** The book path of a file inside the folder of the book. *)
Lemma relative_path_inside (main rel : string) :
  QString.right (main +:+ "/" +:+ rel)
    (QString.size (main +:+ "/" +:+ rel) - QString.size main - 1) = rel.
Proof.
  rewrite <- append_assoc.
  replace (QString.size ((main +:+ "/") +:+ rel) - QString.size main - 1)
    with (QString.size ((main +:+ "/") +:+ rel) - QString.size (main +:+ "/")).
  - apply right_append.
  - rewrite (size_append main "/"). change (QString.size "/") with 1. lia.
Qed.

Lemma misc_path_inside (st : FolderKeeper) (filename : string) :
  m_FullPathToMiscFolder st +:+ "/" +:+ filename
  = m_FullPathToMainFolder st +:+ "/" +:+ ("OEBPS/Misc/" +:+ filename).
Proof.
  unfold m_FullPathToMiscFolder, m_FullPathToOEBPSFolder, MISC_FOLDER_NAME.
  rewrite !append_assoc. reflexivity.
Qed.

(** ** Adding a file *)

(** The state after a call that returns: the new object is at a new
    address and enters both indices. *)
Lemma AddContentFileToFolder_returns (env : Collaborators) (uuid : string)
    (fullfilepath : string) (update_opf : bool) (mimetype : string)
    (st : FolderKeeper) :
  file_exists st fullfilepath = true →
  ∃ r, let p := new_address (heap st) in
    AddContentFileToFolder env uuid fullfilepath update_opf mimetype st
    = Returns p
        (mkFolderKeeper (<[p := r]> (heap st))
           ({[m_FullFilePath r]} ∪ disk st)
           (<[uuid := p]> (m_Resources st))
           (<[GetRelativePath r := p]> (m_Path2Resource st))
           (m_OPF st) (m_NCX st) (m_FSWatcher st)
           (m_SuspendedWatchedFiles st) (m_FullPathToMainFolder st)
           (m_KeyToLCP st)
           (if update_opf then emitted st ++ [ResourceAdded p]
            else emitted st))
    ∧ GetIdentifier r = uuid
    ∧ m_MainFolder r = m_FullPathToMainFolder st
    ∧ (m_FullFilePath r, m_Type r, m_LCP r)
      = (let normalised_file_path := normalise fullfilepath in
         let mt :=
           if QString.isEmpty mimetype
           then GetMediaTypeFromExtension (MTMaps env)
                  (QString.toLower (QFileInfo.suffix normalised_file_path)) ""
           else mimetype in
         placement st fullfilepath
           (GetUniqueFilenameVersion (GetAllFilenames st)
              (QFileInfo.fileName normalised_file_path))
           (GetResourceDescFromMediaType (MTMaps env) mt "Resource")
           (default ""
              (m_KeyToLCP st
                 !! DetermineFileGroup env normalised_file_path mt))).
Proof.
  intros Hex. unfold AddContentFileToFolder. rewrite Hex. simpl.
  destruct (placement _ _ _ _ _) as [[new_file_path type] lcppath].
  eexists (mkResource _ _ _ _ _ _ _). simpl. repeat split.
Qed.

Lemma placement_exception (st : FolderKeeper) (fullfilepath filename resdesc
    lcppath : string) :
  QString.contains FILE_EXCEPTIONS fullfilepath = true →
  placement st fullfilepath filename resdesc lcppath
  = (m_FullPathToMainFolder st +:+
       QString.right fullfilepath
         (QString.size fullfilepath - QString.size (m_FullPathToMainFolder st)),
     GenericResourceType, lcppath).
Proof. intros H. unfold placement. by rewrite H. Qed.

Lemma placement_fallback (st : FolderKeeper) (fullfilepath filename
    lcppath : string) :
  QString.contains FILE_EXCEPTIONS fullfilepath = false →
  placement st fullfilepath filename "Resource" lcppath
  = (m_FullPathToMiscFolder st +:+ "/" +:+ filename, GenericResourceType,
     default "" (m_KeyToLCP st !! "misc")).
Proof. intros H. unfold placement. by rewrite H. Qed.

(** A call that throws found no file, and changed nothing. *)
Lemma AddContentFileToFolder_throws (env : Collaborators) (uuid : string)
    (fullfilepath : string) (update_opf : bool) (mimetype : string)
    (st : FolderKeeper) (e : Exception) (st' : FolderKeeper) :
  AddContentFileToFolder env uuid fullfilepath update_opf mimetype st
  = Throws e st' →
  file_exists st fullfilepath = false
  ∧ e = FileDoesNotExist fullfilepath ∧ st' = st.
Proof.
  intros Hthrow. destruct (file_exists st fullfilepath) eqn:Hex.
  - destruct (AddContentFileToFolder_returns env uuid fullfilepath update_opf
                mimetype st Hex) as (r & Hret & _).
    simpl in Hret. by rewrite Hret in Hthrow.
  - unfold AddContentFileToFolder in Hthrow. rewrite Hex in Hthrow.
    simpl in Hthrow. by injection Hthrow as <- <-.
Qed.

(** C4: [AddContentFileToFolder] throws [FileDoesNotExist] exactly when the
    source path does not exist on disk, it throws nothing else, and a call
    that throws leaves the whole state as it was. *)
Theorem AddContentFileToFolder_missing (env : Collaborators) (uuid : string)
    (fullfilepath : string) (update_opf : bool) (mimetype : string)
    (st : FolderKeeper) :
  (file_exists st fullfilepath = false
   ↔ AddContentFileToFolder env uuid fullfilepath update_opf mimetype st
     = Throws (FileDoesNotExist fullfilepath) st)
  ∧ (∀ e st',
       AddContentFileToFolder env uuid fullfilepath update_opf mimetype st
       = Throws e st' →
       e = FileDoesNotExist fullfilepath ∧ st' = st).
Proof.
  split; [split|].
  - intros Hex. unfold AddContentFileToFolder. by rewrite Hex.
  - intros Hthrow. by eapply AddContentFileToFolder_throws.
  - intros e st' Hthrow.
    by destruct (AddContentFileToFolder_throws _ _ _ _ _ _ _ _ Hthrow)
      as (_ & ? & ?).
Qed.

(** C5, amended: every call for a file that exists returns a resource that
    both indices hold; a file outside the metadata folder whose extension
    and media-type hint the tables do not know becomes a generic resource
    under the Misc folder, and a file of the metadata folder becomes a
    generic resource at the same place below the folder of the book. *)
Theorem AddContentFileToFolder_registers (env : Collaborators)
    (uuid : string) (fullfilepath : string) (update_opf : bool)
    (mimetype : string) (st : FolderKeeper) :
  file_exists st fullfilepath = true →
  ∃ p st' r,
    AddContentFileToFolder env uuid fullfilepath update_opf mimetype st
    = Returns p st'
    ∧ p ≠ NULL
    ∧ heap st' !! p = Some r
    ∧ GetIdentifier r = uuid
    ∧ m_Resources st' !! uuid = Some p
    ∧ m_Path2Resource st' !! GetRelativePath r = Some p
    ∧ (QString.contains FILE_EXCEPTIONS fullfilepath = false →
       m_ExtToMType (MTMaps env)
         !! QString.toLower (QFileInfo.suffix (normalise fullfilepath)) = None →
       m_MTypeToRDesc (MTMaps env) !! mimetype = None →
       let filename :=
         GetUniqueFilenameVersion (GetAllFilenames st)
           (QFileInfo.fileName (normalise fullfilepath)) in
       m_Type r = GenericResourceType
       ∧ m_FullFilePath r = m_FullPathToMiscFolder st +:+ "/" +:+ filename
       ∧ GetRelativePath r = "OEBPS/Misc/" +:+ filename)
    ∧ (QString.contains FILE_EXCEPTIONS fullfilepath = true →
       m_Type r = GenericResourceType
       ∧ m_FullFilePath r
         = m_FullPathToMainFolder st +:+
             QString.right fullfilepath
               (QString.size fullfilepath
                - QString.size (m_FullPathToMainFolder st))).
Proof.
  intros Hex.
  destruct (AddContentFileToFolder_returns env uuid fullfilepath update_opf
              mimetype st Hex) as (r & Hret & Hid & Hmain & Hplace).
  simpl in Hret. destruct (new_address_spec (heap st)) as [Hnull Hnew].
  eexists _, _, r. split; [exact Hret|]. simpl.
  rewrite !lookup_insert_eq. split_and!; try done.
  - intros Hnot Hext Hhint.
    assert ((if QString.isEmpty mimetype
             then GetMediaTypeFromExtension (MTMaps env)
                    (QString.toLower
                       (QFileInfo.suffix (normalise fullfilepath))) ""
             else mimetype) = mimetype) as Hmt.
    { unfold GetMediaTypeFromExtension. rewrite Hext.
      by destruct mimetype. }
    simpl in Hplace. rewrite Hmt in Hplace.
    unfold GetResourceDescFromMediaType in Hplace. rewrite Hhint in Hplace.
    simpl in Hplace. rewrite placement_fallback in Hplace by done.
    injection Hplace as Hpath Htype _.
    split; [done|]. split; [done|].
    unfold GetRelativePath. rewrite Hmain, Hpath, misc_path_inside.
    apply relative_path_inside.
  - intros Hyes. simpl in Hplace.
    rewrite placement_exception in Hplace by done.
    by injection Hplace as Hpath Htype _.
Qed.

(** ** The file watcher *)

Lemma resume_fold (st : FolderKeeper) (paths : list string)
    (watched : gset string) :
  fold_left
    (λ watched path,
       if file_exists st path then addPath st path watched else watched)
    paths watched
  = watched ∪ list_to_set (filter (λ path, path ∈ disk st) paths).
Proof.
  revert watched. induction paths as [|path paths IH]; intros watched.
  - simpl. by rewrite union_empty_r_L.
  - cbn [fold_left]. rewrite IH, filter_cons. unfold addPath, file_exists.
    destruct (decide (path ∈ disk st)) as [Hin|Hout].
    + rewrite bool_decide_eq_true_2 by done. rewrite list_to_set_cons.
      by rewrite (union_comm_L {[path]} watched), union_assoc_L.
    + by rewrite bool_decide_eq_false_2 by done.
Qed.

(** C9: suspending moves the whole watch set into the suspended paths and
    empties the watch set when nothing is suspended, and changes nothing
    otherwise; resuming adds the suspended paths that exist on disk to the
    watch set and empties the suspended paths, and changes nothing when
    nothing is suspended. Neither touches the indices. *)
Theorem watching_suspend_resume (st : FolderKeeper) :
  (m_SuspendedWatchedFiles st = [] →
   m_SuspendedWatchedFiles (SuspendWatchingResources st) = files st
   ∧ m_FSWatcher (SuspendWatchingResources st) = ∅)
  ∧ (m_SuspendedWatchedFiles st ≠ [] → SuspendWatchingResources st = st)
  ∧ m_FSWatcher (ResumeWatchingResources st)
    = m_FSWatcher st
      ∪ list_to_set
          (filter (λ path, path ∈ disk st) (m_SuspendedWatchedFiles st))
  ∧ m_SuspendedWatchedFiles (ResumeWatchingResources st) = []
  ∧ (m_SuspendedWatchedFiles st = [] → ResumeWatchingResources st = st)
  ∧ m_Resources (SuspendWatchingResources st) = m_Resources st
  ∧ m_Path2Resource (SuspendWatchingResources st) = m_Path2Resource st
  ∧ m_Resources (ResumeWatchingResources st) = m_Resources st
  ∧ m_Path2Resource (ResumeWatchingResources st) = m_Path2Resource st.
Proof.
  unfold SuspendWatchingResources, ResumeWatchingResources.
  destruct (decide (m_SuspendedWatchedFiles st = [])) as [Hnone|Hsome].
  - rewrite !(bool_decide_eq_true_2 _ Hnone). simpl.
    destruct (decide (files st = [])) as [Hnofile|Hfile].
    + rewrite (bool_decide_eq_true_2 _ Hnofile). simpl.
      assert (m_FSWatcher st = ∅) as Hempty.
      { apply leibniz_equiv, elements_empty_iff. exact Hnofile. }
      rewrite Hnone, Hnofile, Hempty. simpl.
      split_and!; try done.
    + rewrite (bool_decide_eq_false_2 _ Hfile). simpl. rewrite Hnone. simpl.
      split_and!; try done.
      * intros _. split; [done|]. unfold files.
        rewrite list_to_set_elements_L. apply difference_diag_L.
      * by rewrite union_empty_r_L.
  - rewrite !(bool_decide_eq_false_2 _ Hsome). simpl.
    rewrite resume_fold. split_and!; done.
Qed.

(** ** Registered resources *)

Lemma forallb_map_to_list (m : gmap string N) (P : string * N → bool) :
  forallb P (map_to_list m) = true ↔ ∀ k p, m !! k = Some p → P (k, p) = true.
Proof.
  rewrite forallb_forall. split.
  - intros H k p Hk. apply H, list_elem_of_In, elem_of_map_to_list, Hk.
  - intros H [k p] Hin. apply H, elem_of_map_to_list, list_elem_of_In, Hin.
Qed.

Lemma registeredb_spec (st : FolderKeeper) (p : N) :
  registeredb st p = true ↔ registered st p.
Proof.
  unfold registeredb, registered. destruct (heap st !! p) as [r|]; last first.
  { split; [done|]. by intros (_ & r & [=] & _). }
  rewrite !andb_true_iff, !bool_decide_eq_true, !forallb_map_to_list.
  split.
  - intros ((((Hp & Hid) & Hrel) & Huid) & Hurel).
    split; [done|]. exists r. split_and!; try done.
    + intros id Hlook. specialize (Huid id p Hlook).
      apply bool_decide_eq_true in Huid. by apply Huid.
    + intros k Hlook. specialize (Hurel k p Hlook).
      apply bool_decide_eq_true in Hurel. by apply Hurel.
  - intros (Hp & r' & [= <-] & Hid & Hrel & Huid & Hurel).
    split_and!; try done.
    + intros id q Hlook. apply bool_decide_eq_true. simpl. intros ->.
      by apply Huid.
    + intros k q Hlook. apply bool_decide_eq_true. simpl. intros ->.
      by apply Hurel.
Qed.

(** Two registered resources that differ have different keys. *)
Lemma registered_keys_differ (st : FolderKeeper) (p q : N) (r s : Resource) :
  registered st p → registered st q → p ≠ q →
  heap st !! p = Some r → heap st !! q = Some s →
  GetIdentifier r ≠ GetIdentifier s ∧ GetRelativePath r ≠ GetRelativePath s.
Proof.
  intros (_ & r' & Hr' & Hid & Hrel & _) (_ & s' & Hs' & Hid' & Hrel' & _)
    Hpq Hr Hs.
  rewrite Hr in Hr'. rewrite Hs in Hs'.
  injection Hr' as <-. injection Hs' as <-.
  split; intros Heq; rewrite Heq in *; congruence.
Qed.

(** ** The file names in use *)

Lemma elem_of_values (st : FolderKeeper) (s : Resource) :
  s ∈ values st ↔ ∃ id q, m_Resources st !! id = Some q ∧ heap st !! q = Some s.
Proof.
  unfold values. rewrite list_elem_of_omap. split.
  - intros (q & Hq & Hs). apply list_elem_of_fmap in Hq as ([id q'] & -> & Hin).
    apply elem_of_map_to_list in Hin. by exists id, q'.
  - intros (id & q & Hid & Hs). exists q. split; [|done].
    apply list_elem_of_fmap. exists (id, q). split; [done|].
    by apply elem_of_map_to_list.
Qed.

Lemma elem_of_GetAllFilenames (st : FolderKeeper) (name : string) :
  name ∈ GetAllFilenames st
  ↔ ∃ id q s, m_Resources st !! id = Some q ∧ heap st !! q = Some s
              ∧ Filename s = name.
Proof.
  unfold GetAllFilenames. rewrite list_elem_of_fmap. split.
  - intros (s & -> & Hs). apply elem_of_values in Hs as (id & q & ? & ?).
    by exists id, q, s.
  - intros (id & q & s & ? & ? & <-). exists s. split; [done|].
    apply elem_of_values. by exists id, q.
Qed.

Lemma name_unsharedb_spec (st : FolderKeeper) (p : N) (name : string) :
  name_unsharedb st p name = true → name_unshared st p name.
Proof.
  unfold name_unsharedb. rewrite forallb_map_to_list.
  intros Htest id q s Hid Hq Hs. specialize (Htest id q Hid). simpl in Htest.
  rewrite Hs, bool_decide_eq_false_2 in Htest by done.
  by apply negb_true_iff in Htest.
Qed.

Lemma enters_unusedb_spec (st : FolderKeeper) (res : result N) :
  enters_unusedb st res = true → enters_unused st res.
Proof.
  intros Htest p st' r -> Hr. simpl in Htest. rewrite Hr in Htest.
  apply andb_true_iff in Htest as [H1 H2].
  by apply bool_decide_eq_true in H1, H2.
Qed.

(** ** Removing a resource *)

Lemma RemoveResource_state (st : FolderKeeper) (p : N) (r : Resource) :
  heap st !! p = Some r →
  RemoveResource p st
  = Some
      (mkFolderKeeper (heap st) (disk st)
         (delete (GetIdentifier r) (m_Resources st))
         (delete (GetRelativePath r) (m_Path2Resource st))
         (m_OPF st) (m_NCX st)
         (if bool_decide (GetFullPath r ∈ files st)
          then m_FSWatcher st ∖ {[GetFullPath r]}
          else m_FSWatcher st)
         (filter (λ path, path ≠ GetFullPath r) (m_SuspendedWatchedFiles st))
         (m_FullPathToMainFolder st) (m_KeyToLCP st)
         (emitted st ++ [ResourceRemoved p])).
Proof. intros H. unfold RemoveResource. by rewrite H. Qed.

(** C7, amended: after the removal of a registered resource the lookup by
    its identifier gives no resource and the lookup by its book path throws
    [ResourceDoesNotExist]; when no other resource of the registry has the
    same file name up to case, the name is not among the file names any
    more and the allocator returns it as it is; a second removal finds
    nothing and leaves both indices as they are. *)
Theorem RemoveResource_gone (st : FolderKeeper) (p : N) (r : Resource) :
  heap st !! p = Some r → registered st p →
  ∃ st', RemoveResource p st = Some st'
    ∧ GetResourceByIdentifier (GetIdentifier r) st' = NULL
    ∧ GetResourceByBookPath (GetRelativePath r) st'
      = Throws (ResourceDoesNotExist (GetRelativePath r)) st'
    ∧ (name_unshared st p (Filename r) →
       QStringList.contains_ci (GetAllFilenames st') (Filename r) = false
       ∧ GetUniqueFilenameVersion (GetAllFilenames st') (Filename r)
         = Filename r)
    ∧ ∃ st'', RemoveResource p st' = Some st''
        ∧ m_Resources st'' = m_Resources st'
        ∧ m_Path2Resource st'' = m_Path2Resource st'.
Proof.
  intros Hr (_ & r' & Hr' & _ & _ & Huid & _).
  rewrite Hr in Hr'. injection Hr' as <-.
  eexists. split; [by apply RemoveResource_state|]. split_and!.
  - unfold GetResourceByIdentifier. simpl. by rewrite lookup_delete_eq.
  - unfold GetResourceByBookPath. simpl. by rewrite lookup_delete_eq.
  - intros Hnames.
    match goal with |- ?A ∧ _ => assert A as Hout end.
    { apply not_true_is_false.
      intros (e & He & Heq)%contains_ci_spec.
      apply elem_of_GetAllFilenames in He as (id & q & s & Hid & Hs & <-).
      simpl in Hid, Hs. apply lookup_delete_Some in Hid as [Hne Hid].
      assert (q ≠ p) as Hq by (intros ->; by apply Hne, eq_sym, Huid).
      specialize (Hnames id q s Hid Hq Hs).
      apply equals_ci_spec in Heq. congruence. }
    split; [exact Hout|]. by apply GetUniqueFilenameVersion_unchanged.
  - eexists. split; [by apply RemoveResource_state|]. simpl.
    by rewrite !delete_delete_eq.
Qed.

(** C10: the removal of a registered resource leaves every other registered
    resource registered, with its entries in both indices; only the key of
    the identifier and the key of the book path of the removed resource
    leave the indices, only its full path leaves the watch set and the
    suspended paths, and no object changes. *)
Theorem RemoveResource_frame (st : FolderKeeper) (p q : N) (r s : Resource) :
  heap st !! p = Some r → heap st !! q = Some s →
  registered st p → registered st q → p ≠ q →
  ∃ st', RemoveResource p st = Some st'
    ∧ registered st' q
    ∧ m_Resources st' !! GetIdentifier s = Some q
    ∧ m_Path2Resource st' !! GetRelativePath s = Some q
    ∧ (∀ id, id ≠ GetIdentifier r →
         m_Resources st' !! id = m_Resources st !! id)
    ∧ (∀ k, k ≠ GetRelativePath r →
         m_Path2Resource st' !! k = m_Path2Resource st !! k)
    ∧ (∀ path, path ≠ GetFullPath r →
         (path ∈ m_FSWatcher st' ↔ path ∈ m_FSWatcher st)
         ∧ (path ∈ m_SuspendedWatchedFiles st'
            ↔ path ∈ m_SuspendedWatchedFiles st))
    ∧ heap st' = heap st.
Proof.
  intros Hr Hs Hp Hq Hpq.
  destruct (registered_keys_differ st p q r s Hp Hq Hpq Hr Hs) as [Hid Hrel].
  destruct Hq as (Hnull & s' & Hs' & Hqid & Hqrel & Hquid & Hqurel).
  rewrite Hs in Hs'. injection Hs' as <-.
  eexists. split; [by apply RemoveResource_state|]. simpl. split_and!.
  - split; [done|]. exists s. simpl. split_and!; try done.
    + by rewrite lookup_delete_ne.
    + by rewrite lookup_delete_ne.
    + intros id [_ Hlook]%lookup_delete_Some. by apply Hquid.
    + intros k [_ Hlook]%lookup_delete_Some. by apply Hqurel.
  - by rewrite lookup_delete_ne.
  - by rewrite lookup_delete_ne.
  - intros id Hne. by rewrite lookup_delete_ne.
  - intros k Hne. by rewrite lookup_delete_ne.
  - intros path Hne. split.
    + destruct (bool_decide _); [|done].
      rewrite elem_of_difference, elem_of_singleton. tauto.
    + rewrite list_elem_of_filter. tauto.
  - done.
Qed.

(** ** Renaming a resource *)

(** C8: when the full path of a resource, held by the path index under its
    old book path and under no other key, has changed inside the folder of
    the book, [ResourceRenamed] removes the key of the old book path and
    enters the resource under its new book path: afterwards the lookup by
    the old book path throws, the lookup by the new book path returns the
    resource, and the index holds the resource under no other key. *)
Theorem ResourceRenamed_rekeys (st : FolderKeeper) (p : N) (r : Resource)
    (old_rel new_rel : string) :
  p ≠ NULL → heap st !! p = Some r →
  m_MainFolder r = m_FullPathToMainFolder st →
  m_FullFilePath r = m_FullPathToMainFolder st +:+ "/" +:+ new_rel →
  m_Path2Resource st !! old_rel = Some p →
  (∀ k, m_Path2Resource st !! k = Some p → k = old_rel) →
  old_rel ≠ new_rel →
  ∃ st',
    ResourceRenamed p (m_FullPathToMainFolder st +:+ "/" +:+ old_rel) st
    = Some st'
    ∧ m_Path2Resource st'
      = <[new_rel := p]> (delete old_rel (m_Path2Resource st))
    ∧ GetResourceByBookPath old_rel st'
      = Throws (ResourceDoesNotExist old_rel) st'
    ∧ GetResourceByBookPath new_rel st' = Returns p st'
    ∧ (∀ k, m_Path2Resource st' !! k = Some p → k = new_rel)
    ∧ m_Resources st' = m_Resources st
    ∧ heap st' = heap st.
Proof.
  intros Hnull Hr Hmain Hpath Hold Huniq Hne.
  assert (GetRelativePath r = new_rel) as Hrel.
  { unfold GetRelativePath. rewrite Hmain, Hpath.
    apply relative_path_inside. }
  unfold ResourceRenamed. rewrite Hr, Hrel.
  rewrite relative_path_inside, Hold. simpl.
  rewrite delete_insert_eq.
  eexists. split; [done|]. simpl. split_and!; try done.
  - unfold GetResourceByBookPath. simpl.
    by rewrite lookup_insert_ne, lookup_delete_eq.
  - unfold GetResourceByBookPath. simpl. rewrite lookup_insert_eq. simpl.
    by rewrite bool_decide_eq_true_2.
  - intros k Hk. destruct (decide (k = new_rel)) as [|Hk']; [done|].
    rewrite lookup_insert_ne in Hk by done.
    apply lookup_delete_Some in Hk as [Hk1 Hk2]. by apply Huniq in Hk2.
Qed.

(** ** The invariant I1 *)

(** A new object at a new address, entered under two unused keys. *)
Lemma I1_register (st st' : FolderKeeper) (p : N) (obj : Resource) :
  I1 st → same_folder st →
  p ≠ NULL → heap st !! p = None →
  m_Resources st !! GetIdentifier obj = None →
  m_Path2Resource st !! GetRelativePath obj = None →
  m_MainFolder obj = m_FullPathToMainFolder st →
  heap st' = <[p := obj]> (heap st) →
  m_Resources st' = <[GetIdentifier obj := p]> (m_Resources st) →
  m_Path2Resource st' = <[GetRelativePath obj := p]> (m_Path2Resource st) →
  m_FullPathToMainFolder st' = m_FullPathToMainFolder st →
  I1 st' ∧ same_folder st'.
Proof.
  intros [HI1 HI2] Hfolder Hnull Hnew Hid Hrel Hmain Hheap Hres Hpath Hsame.
  assert (∀ q, registered st q → q ≠ p) as Hother.
  { intros q (_ & s & Hs & _) ->. congruence. }
  assert (∀ q, registered st q → registered st' q) as Hkeep.
  { intros q Hq. pose proof (Hother q Hq) as Hqp.
    destruct Hq as (Hq0 & s & Hs & Hsid & Hsrel & Hsuid & Hsurel).
    split; [done|]. exists s. rewrite Hheap, Hres, Hpath.
    rewrite lookup_insert_ne by done. split_and!; try done.
    - rewrite lookup_insert_ne; [done|congruence].
    - rewrite lookup_insert_ne; [done|congruence].
    - intros id [[_ ?]|[_ ?]]%lookup_insert_Some; [congruence|by apply Hsuid].
    - intros k [[_ ?]|[_ ?]]%lookup_insert_Some; [congruence|by apply Hsurel]. }
  assert (registered st' p) as Hp.
  { split; [done|]. exists obj. rewrite Hheap, Hres, Hpath.
    rewrite !lookup_insert_eq. split_and!; try done.
    - intros id [[? _]|[_ Hlook]]%lookup_insert_Some; [done|].
      by destruct (Hother p (HI1 _ _ Hlook)).
    - intros k [[? _]|[_ Hlook]]%lookup_insert_Some; [done|].
      by destruct (Hother p (HI2 _ _ Hlook)). }
  split; [split|].
  - intros id q. rewrite Hres.
    intros [[_ <-]|[_ Hlook]]%lookup_insert_Some; [done|]. by eapply Hkeep, HI1.
  - intros k q. rewrite Hpath.
    intros [[_ <-]|[_ Hlook]]%lookup_insert_Some; [done|]. by eapply Hkeep, HI2.
  - intros id q s. rewrite Hres, Hheap, Hsame.
    intros [[_ <-]|[_ Hlook]]%lookup_insert_Some.
    + rewrite lookup_insert_eq. by intros [= <-].
    + rewrite lookup_insert_ne by (by apply not_eq_sym, Hother, (HI1 id)).
      by apply (Hfolder id).
Qed.

(** The removal of a registered resource keeps the others registered. *)
Lemma RemoveResource_keeps (st st' : FolderKeeper) (p q : N) :
  registered st p → registered st q → p ≠ q →
  RemoveResource p st = Some st' → registered st' q.
Proof.
  intros Hp Hq Hpq Hrm.
  pose proof Hp as (_ & r & Hr & _). pose proof Hq as (_ & s & Hs & _).
  destruct (registered_keys_differ st p q r s Hp Hq Hpq Hr Hs) as [Hid Hrel].
  rewrite (RemoveResource_state st p r Hr) in Hrm. injection Hrm as <-.
  destruct Hq as (Hnull & s' & Hs' & Hqid & Hqrel & Hquid & Hqurel).
  rewrite Hs in Hs'. injection Hs' as <-.
  split; [done|]. exists s. simpl. split_and!; try done.
  - by rewrite lookup_delete_ne.
  - by rewrite lookup_delete_ne.
  - intros id [_ Hlook]%lookup_delete_Some. by apply Hquid.
  - intros k [_ Hlook]%lookup_delete_Some. by apply Hqurel.
Qed.

Lemma I1_remove (st st' : FolderKeeper) (p : N) :
  I1 st → same_folder st → registered st p →
  RemoveResource p st = Some st' → I1 st' ∧ same_folder st'.
Proof.
  intros [HI1 HI2] Hfolder Hp Hrm.
  pose proof Hp as (_ & r & Hr & _ & _ & Huid & Hurel).
  pose proof Hrm as Hst'. rewrite (RemoveResource_state st p r Hr) in Hst'.
  injection Hst' as Hst'.
  split; [split|].
  - intros id q Hlook. rewrite <- Hst' in Hlook. simpl in Hlook.
    apply lookup_delete_Some in Hlook as [Hne Hlook].
    apply (RemoveResource_keeps st st' p q); try done; [by eapply HI1|].
    intros <-. by apply Hne, eq_sym, Huid.
  - intros k q Hlook. rewrite <- Hst' in Hlook. simpl in Hlook.
    apply lookup_delete_Some in Hlook as [Hne Hlook].
    apply (RemoveResource_keeps st st' p q); try done; [by eapply HI2|].
    intros <-. by apply Hne, eq_sym, Hurel.
  - intros id q s. rewrite <- Hst'. simpl.
    intros [_ Hlook]%lookup_delete_Some. by apply (Hfolder id).
Qed.

Lemma I1_rename (st st' : FolderKeeper) (p : N) (new_full_path : string) :
  I1 st → same_folder st → registered st p →
  (∀ r, heap st !! p = Some r →
     m_Path2Resource st !! GetRelativePath (SetFullPath new_full_path r) = None) →
  RenameResource p new_full_path st = Some st' → I1 st' ∧ same_folder st'.
Proof.
  intros [HI1 HI2] Hfolder Hp Hunused Hrn.
  pose proof Hp as (Hnull & r & Hr & Hid & Hrel & Huid & Hurel).
  specialize (Hunused r Hr).
  set (r' := SetFullPath new_full_path r) in *.
  unfold RenameResource in Hrn. rewrite Hr in Hrn.
  unfold ResourceRenamed, MoveResource in Hrn. simpl in Hrn.
  rewrite lookup_alter_eq, Hr in Hrn. simpl in Hrn. fold r' in Hrn.
  assert (QString.right (GetFullPath r)
            (QString.size (GetFullPath r)
             - QString.size (m_FullPathToMainFolder st) - 1)
          = GetRelativePath r) as Hold.
  { unfold GetRelativePath, GetFullPath.
    by rewrite (Hfolder _ _ _ Hid Hr). }
  rewrite Hold, Hrel in Hrn. simpl in Hrn. rewrite delete_insert_eq in Hrn.
  injection Hrn as Hst'.
  assert (GetRelativePath r' ≠ GetRelativePath r) as Hne by congruence.
  assert (registered st' p) as Hp'.
  { split; [done|]. exists r'. rewrite <- Hst'. simpl.
    rewrite lookup_alter_eq, Hr, !lookup_insert_eq. split_and!; try done.
    intros k [[? _]|[_ Hlook]]%lookup_insert_Some; [done|].
    apply lookup_delete_Some in Hlook as [Hk Hlook].
    by apply Hurel in Hlook. }
  assert (∀ q, registered st q → registered st' q) as Hkeep.
  { intros q Hq. destruct (decide (q = p)) as [->|Hqp]; [done|].
    destruct Hq as (Hq0 & s & Hs & Hsid & Hsrel & Hsuid & Hsurel).
    split; [done|]. exists s. rewrite <- Hst'. simpl.
    rewrite lookup_alter_ne by done. split_and!; try done.
    - rewrite lookup_insert_ne by congruence.
      rewrite lookup_delete_ne by congruence. done.
    - intros k [[_ ?]|[_ Hlook]]%lookup_insert_Some; [congruence|].
      apply lookup_delete_Some in Hlook as [_ Hlook]. by apply Hsurel. }
  split; [split|].
  - intros id q Hlook. rewrite <- Hst' in Hlook. simpl in Hlook.
    by eapply Hkeep, HI1.
  - intros k q Hlook. rewrite <- Hst' in Hlook. simpl in Hlook.
    apply lookup_insert_Some in Hlook as [[_ <-]|[_ Hlook]]; [done|].
    apply lookup_delete_Some in Hlook as [_ Hlook]. by eapply Hkeep, HI2.
  - intros id q s. rewrite <- Hst'. simpl. intros Hlook.
    destruct (decide (p = q)) as [<-|Hqp].
    + rewrite lookup_alter_eq, Hr. intros [= <-].
      by apply (Hfolder _ _ _ Hid Hr).
    + rewrite lookup_alter_ne by done. by apply (Hfolder id).
Qed.

(** The operations that need the collaborators. *)
Section with_collaborators.

Variable env : Collaborators.

Lemma I1_add (uuid fullfilepath : string) (update_opf : bool)
    (mimetype : string) (st : FolderKeeper) :
  I1 st → same_folder st →
  enters_unused st
    (AddContentFileToFolder env uuid fullfilepath update_opf mimetype st) →
  let st' :=
    state_of
      (AddContentFileToFolder env uuid fullfilepath update_opf mimetype st) in
  I1 st' ∧ same_folder st'.
Proof.
  intros HI1 Hfolder Hunused.
  destruct (file_exists st fullfilepath) eqn:Hex; last first.
  { unfold AddContentFileToFolder. by rewrite Hex. }
  destruct (AddContentFileToFolder_returns env uuid fullfilepath update_opf
              mimetype st Hex) as (r & Hret & Hid & Hmain & _).
  simpl in Hret. rewrite Hret in *. simpl.
  destruct (new_address_spec (heap st)) as [Hnull Hnew].
  destruct (Hunused _ _ r eq_refl) as [Huid Hurel].
  { simpl. by rewrite lookup_insert_eq. }
  eapply (I1_register st _ (new_address (heap st)) r); try done.
  simpl. by rewrite Hid.
Qed.

Lemma I1_add_ncx (uuid version : string) (st : FolderKeeper) :
  I1 st → same_folder st →
  enters_unused st (AddNCXToFolder env uuid version st) →
  let st' := state_of (AddNCXToFolder env uuid version st) in
  I1 st' ∧ same_folder st'.
Proof.
  intros HI1 Hfolder Hunused. unfold AddNCXToFolder in *.
  set (obj := mkResource uuid _ _ _ _ _ _) in *. simpl.
  destruct (new_address_spec (heap st)) as [Hnull Hnew].
  destruct (Hunused _ _ obj eq_refl) as [Huid Hurel].
  { simpl. by rewrite lookup_insert_eq. }
  by eapply (I1_register st _ (new_address (heap st)) obj).
Qed.

Lemma I1_new (main : string) (files0 : gset string) (uuid : string) :
  let st := FolderKeeper_new env main files0 uuid in
  I1 st ∧ same_folder st.
Proof.
  unfold FolderKeeper_new, CreateInfrastructureFiles.
  set (st0 := CreateFolderStructure _).
  set (obj := mkResource uuid _ _ _ _ _ _). simpl.
  destruct (new_address_spec (heap st0)) as [Hnull Hnew].
  by eapply (I1_register st0 _ (new_address (heap st0)) obj).
Qed.

Lemma reachable_invariant (st : FolderKeeper) :
  reachable env st → I1 st ∧ same_folder st.
Proof.
  induction 1 as [main files0 uuid|st op st' Hreach [HI1 Hfolder] Hperm Hdo].
  - apply I1_new.
  - destruct op as [uuid path upd mt|uuid version|p|p new]; simpl in *.
    + injection Hdo as <-. by apply I1_add.
    + injection Hdo as <-. by apply I1_add_ncx.
    + by eapply I1_remove.
    + destruct Hperm as [Hp Hunused]. by eapply I1_rename.
Qed.

Lemma permittedb_spec (st : FolderKeeper) (op : Operation) :
  permittedb env st op = true → permitted env st op.
Proof.
  destruct op as [uuid path upd mt|uuid version|p|p new];
    unfold permittedb, permitted.
  - apply enters_unusedb_spec.
  - apply enters_unusedb_spec.
  - apply registeredb_spec.
  - intros [Hp Hnew]%andb_true_iff. split; [by apply registeredb_spec|].
    intros r Hr. rewrite Hr in Hnew. by apply bool_decide_eq_true in Hnew.
Qed.

(** C1, amended: in every state a new registry reaches by additions that
    enter under an unused identifier and an unused book path, removals of
    registered resources and renames of registered resources to unused book
    paths, whatever one index holds is held by the other, under the one key
    the resource itself gives. *)
Theorem indices_mirror (st : FolderKeeper) : reachable env st → I1 st.
Proof. intros Hreach. by apply reachable_invariant. Qed.

End with_collaborators.

(** ** Additions outside the metadata folder *)

(** The string holds the character. *)
Abbreviation has_char c s := (QString.contains (String c EmptyString) s).

Lemma has_char_cons (x c : ascii) (s : string) :
  has_char x (String c s) = Ascii.eqb x c || has_char x s.
Proof. simpl. destruct (Ascii.eqb x c); [by destruct s|done]. Qed.

Lemma has_char_append (x : ascii) (a b : string) :
  has_char x (a +:+ b) = has_char x a || has_char x b.
Proof.
  induction a as [|c a IH]; [done|].
  rewrite append_cons, !has_char_cons, IH. by destruct (Ascii.eqb x c).
Qed.

Lemma after_last_without (sep : ascii) (cur s : string) :
  has_char sep s = false → QString.after_last sep cur s = cur.
Proof.
  induction s as [|c s IH]; [done|]. rewrite has_char_cons.
  intros [Hc Hs]%orb_false_iff. simpl.
  rewrite Ascii.eqb_sym, Hc. by apply IH.
Qed.

Lemma after_last_append (sep : ascii) (cur a b : string) :
  QString.after_last sep cur (a +:+ String sep b) = QString.after_last sep b b.
Proof.
  revert cur. induction a as [|c a IH]; intros cur.
  - rewrite append_nil. simpl. by rewrite Ascii.eqb_refl.
  - rewrite append_cons. simpl. destruct (Ascii.eqb c sep); apply IH.
Qed.

Lemma after_last_clean (sep : ascii) (cur s : string) :
  has_char sep s = true ∨ has_char sep cur = false →
  has_char sep (QString.after_last sep cur s) = false.
Proof.
  revert cur. induction s as [|c s IH]; intros cur Hor.
  - by destruct Hor.
  - simpl. rewrite has_char_cons in Hor.
    destruct (Ascii.eqb c sep) eqn:Hc.
    + apply IH. destruct (has_char sep s); auto.
    + apply IH. rewrite Ascii.eqb_sym, Hc in Hor. exact Hor.
Qed.

Lemma fileName_clean (path : string) :
  has_char "/" (QFileInfo.fileName path) = false.
Proof.
  apply after_last_clean. destruct (has_char "/" path); auto.
Qed.

(** The file name of a path is what follows its last slash. *)
Lemma fileName_append (folder name : string) :
  has_char "/" name = false →
  QFileInfo.fileName (folder +:+ "/" +:+ name) = name.
Proof.
  intros Hname. unfold QFileInfo.fileName.
  rewrite (append_cons "/" EmptyString name), append_nil.
  rewrite after_last_append. by apply after_last_without.
Qed.

Lemma before_first_clean (x sep : ascii) (s : string) :
  has_char x s = false → has_char x (QString.before_first sep s) = false.
Proof.
  induction s as [|c s IH]; [done|]. rewrite has_char_cons.
  intros [Hc Hs]%orb_false_iff. simpl. destruct (Ascii.eqb c sep); [done|].
  rewrite has_char_cons, Hc. by apply IH.
Qed.

Lemma after_first_clean (x sep : ascii) (s : string) :
  has_char x s = false → has_char x (QString.after_first sep s) = false.
Proof.
  induction s as [|c s IH]; [done|]. rewrite has_char_cons.
  intros [Hc Hs]%orb_false_iff. simpl. destruct (Ascii.eqb c sep); [done|].
  by apply IH.
Qed.

Lemma digits_rest_clean (x : ascii) (s : string) :
  has_char x s = false → has_char x (Pattern.digits s).2 = false.
Proof.
  intros Hs. destruct (digits_spec s) as (_ & _ & Heq).
  rewrite Heq, has_char_append in Hs. by apply orb_false_iff in Hs as [_ ?].
Qed.

Lemma remove_digits_dollar_clean (x : ascii) (s : string) :
  has_char x s = false → has_char x (Pattern.remove_digits_dollar s) = false.
Proof.
  induction s as [|c s IH]; [done|]. rewrite has_char_cons.
  intros [Hc Hs]%orb_false_iff. simpl.
  destruct (QChar.isDigit c && Pattern.dollar (Pattern.digits s).2).
  - by apply digits_rest_clean.
  - rewrite has_char_cons, Hc. by apply IH.
Qed.

Lemma all_digits_clean (x : ascii) (d : string) :
  QChar.isDigit x = false → Pattern.all_digits d = true → has_char x d = false.
Proof.
  intros Hx. induction d as [|c d IH]; [done|]. simpl Pattern.all_digits.
  intros [Hc Hd]%andb_true_iff. rewrite has_char_cons, (IH Hd).
  destruct (Ascii.eqb_spec x c) as [->|]; [congruence|done].
Qed.

Lemma arg_clean (a width : Z) : has_char "/" (QString.arg a width) = false.
Proof.
  unfold QString.arg. destruct (a <? 0).
  - rewrite has_char_cons. simpl.
    by apply all_digits_clean, all_digits_zero_padded.
  - by apply all_digits_clean, all_digits_zero_padded.
Qed.

(** The allocator makes a file name from a file name. *)
Lemma GetUniqueFilenameVersion_clean (filenames : list string)
    (filename : string) :
  has_char "/" filename = false →
  has_char "/" (GetUniqueFilenameVersion filenames filename) = false.
Proof.
  intros Hname. unfold GetUniqueFilenameVersion.
  destruct (QStringList.contains_ci filenames filename); simpl; [|done].
  destruct (fold_left _ filenames (-1, -1)) as [m l].
  destruct (if m =? -1 then (0, 4) else (m, l)) as [m' l'].
  rewrite !has_char_append, arg_clean.
  rewrite remove_digits_dollar_clean
    by apply before_first_clean, fileName_clean.
  simpl. destruct (QString.isEmpty _) eqn:Hext; simpl; [done|].
  rewrite has_char_append. simpl.
  apply after_first_clean, fileName_clean.
Qed.

Lemma skip_suffix (k : nat) (s : string) : ∃ pre, s = pre +:+ QString.skip k s.
Proof.
  revert s. induction k as [|k IH]; intros s; [by exists EmptyString|].
  destruct s as [|c s]; [by exists EmptyString|].
  destruct (IH s) as [pre Hpre]. exists (String c pre).
  rewrite append_cons. simpl. by rewrite <- Hpre.
Qed.

(** [right] gives the end of the string. *)
Lemma right_suffix (s : string) (n : Z) : ∃ pre, s = pre +:+ QString.right s n.
Proof.
  unfold QString.right. destruct ((n <? 0) || (QString.size s <=? n)).
  - by exists EmptyString.
  - apply skip_suffix.
Qed.

(** The file name of a resource whose book path ends with a slash and a
    file name. *)
Lemma Filename_of_book_path (s : Resource) (folder name : string) :
  GetRelativePath s = folder +:+ "/" +:+ name → has_char "/" name = false →
  Filename s = name.
Proof.
  intros Hrel Hname. unfold Filename, GetRelativePath in *.
  destruct (right_suffix (m_FullFilePath s)
              (QString.size (m_FullFilePath s)
               - QString.size (m_MainFolder s) - 1)) as [pre Hpre].
  rewrite Hrel in Hpre. rewrite Hpre, <- append_assoc.
  by apply fileName_append.
Qed.

Lemma folder_path_inside (st : FolderKeeper) (folder name : string) :
  (m_FullPathToOEBPSFolder st +:+ "/" +:+ folder) +:+ "/" +:+ name
  = m_FullPathToMainFolder st +:+ "/" +:+ (("OEBPS/" +:+ folder) +:+ "/" +:+ name).
Proof.
  unfold m_FullPathToOEBPSFolder. rewrite !append_assoc. reflexivity.
Qed.

(** Outside the metadata folder the new file goes to one of the folders of
    the content, under the name the allocator gave. *)
Lemma placement_ordinary (st : FolderKeeper) (fullfilepath filename resdesc
    lcppath : string) :
  QString.contains FILE_EXCEPTIONS fullfilepath = false →
  ∃ folder,
    (placement st fullfilepath filename resdesc lcppath).1.1
    = m_FullPathToMainFolder st +:+ "/" +:+
        (("OEBPS/" +:+ folder) +:+ "/" +:+ filename).
Proof.
  intros Hout. unfold placement. rewrite Hout.
  repeat match goal with
         | |- context [String.eqb resdesc ?d] => destruct (String.eqb resdesc d)
         end;
    cbn [fst]; eexists; apply folder_path_inside.
Qed.

(** An addition outside the metadata folder, under a new identifier, enters
    under unused keys when the registry satisfies I1, as long as no suffix
    in use is the largest int. *)
Lemma ordinary_addition_permitted (env : Collaborators)
    (uuid fullfilepath : string) (update_opf : bool) (mimetype : string)
    (st : FolderKeeper) :
  I1 st → m_Resources st !! uuid = None →
  QString.contains FILE_EXCEPTIONS fullfilepath = false →
  (fold_left
     (scan_existing_file
        (Pattern.remove_digits_dollar
           (QFileInfo.baseName (QFileInfo.fileName (normalise fullfilepath))))
        (QFileInfo.completeSuffix
           (QFileInfo.fileName (normalise fullfilepath))))
     (GetAllFilenames st) (-1, -1)).1 < INT_MAX →
  permitted env st (addContentFile uuid fullfilepath update_opf mimetype).
Proof.
  intros [_ HI2] Hfresh Hout Hmax. unfold permitted.
  destruct (file_exists st fullfilepath) eqn:Hex; last first.
  { unfold AddContentFileToFolder. rewrite Hex. by intros ???. }
  destruct (AddContentFileToFolder_returns env uuid fullfilepath update_opf
              mimetype st Hex) as (r & Hret & Hid & Hmain & Hplace).
  simpl in Hret, Hplace. rewrite Hret.
  intros p st' r' [= <- <-] Hr'. simpl in Hr'.
  rewrite lookup_insert_eq in Hr'. injection Hr' as <-.
  rewrite Hid. split; [done|].
  set (name := GetUniqueFilenameVersion (GetAllFilenames st)
                 (QFileInfo.fileName (normalise fullfilepath))) in *.
  destruct (placement_ordinary st fullfilepath name
              (GetResourceDescFromMediaType (MTMaps env)
                 (if QString.isEmpty mimetype
                  then GetMediaTypeFromExtension (MTMaps env)
                         (QString.toLower
                            (QFileInfo.suffix (normalise fullfilepath))) ""
                  else mimetype) "Resource")
              (default ""
                 (m_KeyToLCP st
                    !! DetermineFileGroup env (normalise fullfilepath)
                         (if QString.isEmpty mimetype
                          then GetMediaTypeFromExtension (MTMaps env)
                                 (QString.toLower
                                    (QFileInfo.suffix
                                       (normalise fullfilepath))) ""
                          else mimetype))) Hout) as [folder Hfolder].
  rewrite <- Hplace in Hfolder. cbn [fst] in Hfolder.
  assert (GetRelativePath r = ("OEBPS/" +:+ folder) +:+ "/" +:+ name) as Hrel.
  { unfold GetRelativePath. rewrite Hmain, Hfolder.
    apply relative_path_inside. }
  rewrite Hrel.
  destruct (m_Path2Resource st !! _) as [q|] eqn:Hq; [exfalso|done].
  destruct (HI2 _ _ Hq) as (_ & s & Hs & Hsid & _ & _ & Huniq).
  pose proof (Huniq _ Hq) as Hsrel. symmetry in Hsrel.
  assert (has_char "/" name = false) as Hclean.
  { apply GetUniqueFilenameVersion_clean, fileName_clean. }
  pose proof (Filename_of_book_path s _ _ Hsrel Hclean) as Hname.
  assert (QStringList.contains_ci (GetAllFilenames st) name = true) as Hin.
  { apply contains_ci_spec. exists name. split; [|done].
    apply elem_of_GetAllFilenames. by exists (GetIdentifier s), q, s. }
  unfold name in Hin.
  by rewrite GetUniqueFilenameVersion_unused in Hin.
Qed.

(** ** The reading order *)

Lemma count_loop (l : list Resource) (count : Z) :
  0 ≤ count → count + Z.of_nat (length l) ≤ INT_MAX →
  fold_left
    (λ count resource,
       if bool_decide (m_Type resource = HTMLResourceType)
       then wrap_int (count + 1) else count)
    l count
  = count + Z.of_nat (length (filter (λ r, m_Type r = HTMLResourceType) l)).
Proof.
  revert count. induction l as [|r l IH]; intros count H0 Hmax.
  - simpl. lia.
  - cbn [fold_left]. rewrite filter_cons.
    cbn [length] in Hmax. unfold INT_MAX in *.
    destruct (decide (m_Type r = HTMLResourceType)) as [Hr|Hr].
    + rewrite (bool_decide_eq_true_2 _ Hr), wrap_int_id by lia.
      rewrite IH by lia. cbn [length]. lia.
    + rewrite (bool_decide_eq_false_2 _ Hr). rewrite IH by lia. lia.
Qed.

Lemma length_values (st : FolderKeeper) :
  (length (values st) ≤ size (m_Resources st))%nat.
Proof.
  unfold values. rewrite <- length_map_to_list.
  rewrite <- (length_fmap snd (map_to_list (m_Resources st))).
  generalize ((map_to_list (m_Resources st)).*2). intros l.
  induction l as [|p l IH]; [done|]. cbn [omap list_omap length].
  destruct (heap st !! p); cbn [length]; lia.
Qed.

Lemma filter_values (h : gmap N Resource) (l : list (string * N)) :
  length (filter (λ r, m_Type r = HTMLResourceType)
            (omap (λ p, h !! p) l.*2))
  = length (filter
              (λ kv : string * N, m_Type <$> h !! kv.2 = Some HTMLResourceType)
              l).
Proof.
  induction l as [|[id p] l IH]; [done|].
  rewrite fmap_cons. cbn [omap list_omap snd]. rewrite (filter_cons _ (id, p)).
  cbn [snd]. destruct (h !! p) as [r|].
  - rewrite filter_cons. change (m_Type <$> Some r) with (Some (m_Type r)).
    destruct (decide (m_Type r = HTMLResourceType)) as [Hr|Hr].
    + rewrite decide_True by (by rewrite Hr). cbn [length]. by rewrite IH.
    + rewrite decide_False by congruence. exact IH.
  - rewrite decide_False by (intros Hnone; inversion Hnone). exact IH.
Qed.

Lemma size_filter_map_to_list (P : string * N → Prop)
    `{!∀ kv, Decision (P kv)} (m : gmap string N) :
  size (filter P m) = length (filter P (map_to_list m)).
Proof.
  induction m as [|k x m Hk Hfirst IH] using map_first_key_ind.
  - by rewrite map_filter_empty, map_to_list_empty.
  - rewrite map_to_list_insert_first_key by done. rewrite filter_cons.
    destruct (decide (P (k, x))) as [HP|HP].
    + rewrite map_filter_insert_True by done.
      rewrite map_size_insert_None; [simpl; by rewrite IH|].
      apply map_lookup_filter_None. by left.
    + rewrite map_filter_insert_False by done.
      by rewrite delete_id.
Qed.

(** The count the loop makes is the number of registered HTML resources. *)
Lemma GetHighestReadingOrder_html_count (st : FolderKeeper) :
  Z.of_nat (size (m_Resources st)) ≤ INT_MAX →
  GetHighestReadingOrder st = html_count st - 1.
Proof.
  intros Hsize. unfold GetHighestReadingOrder.
  pose proof (length_values st) as Hlen.
  rewrite count_loop by (unfold INT_MAX in *; lia).
  unfold values at 1. rewrite filter_values.
  rewrite <- size_filter_map_to_list. fold (html_count st).
  unfold html_count in *.
  pose proof (map_size_filter
    (λ kv : string * N, m_Type <$> heap st !! kv.2 = Some HTMLResourceType)
    (m_Resources st)).
  apply wrap_int_id. unfold INT_MAX in *. lia.
Qed.

(** A registration under a new identifier adds one to the number when the
    resource is of the HTML kind, and nothing otherwise. *)
Lemma html_count_add (env : Collaborators) (uuid fullfilepath : string)
    (update_opf : bool) (mimetype : string) (st st' : FolderKeeper) (p : N) :
  addresses_valid st → m_Resources st !! uuid = None →
  AddContentFileToFolder env uuid fullfilepath update_opf mimetype st
  = Returns p st' →
  html_count st'
  = html_count st
    + (if bool_decide (m_Type <$> heap st' !! p = Some HTMLResourceType)
       then 1 else 0)
  ∧ addresses_valid st'
  ∧ m_Resources st' = <[uuid := p]> (m_Resources st).
Proof.
  intros Hvalid Hfresh Hadd.
  destruct (file_exists st fullfilepath) eqn:Hex; last first.
  { unfold AddContentFileToFolder in Hadd. by rewrite Hex in Hadd. }
  destruct (AddContentFileToFolder_returns env uuid fullfilepath update_opf
              mimetype st Hex) as (r & Hret & _).
  simpl in Hret. rewrite Hret in Hadd. injection Hadd as <- <-.
  destruct (new_address_spec (heap st)) as [Hnull Hnew].
  set (p := new_address (heap st)) in *. simpl.
  rewrite lookup_insert_eq. simpl. split_and!; [| |done].
  - unfold html_count. simpl.
    assert (filter
              (λ kv : string * N,
                 m_Type <$> <[p:=r]> (heap st) !! kv.2 = Some HTMLResourceType)
              (m_Resources st)
            = filter
                (λ kv : string * N,
                   m_Type <$> heap st !! kv.2 = Some HTMLResourceType)
                (m_Resources st)) as Hsame.
    { apply map_filter_ext. intros id q Hq. simpl.
      destruct (Hvalid id q Hq) as [s Hs].
      rewrite lookup_insert_ne; [done|]. intros <-. congruence. }
    destruct (decide (m_Type r = HTMLResourceType)) as [Hr|Hr].
    + rewrite bool_decide_eq_true_2 by (by rewrite Hr).
      rewrite map_filter_insert_True
        by (simpl; by rewrite lookup_insert_eq, <- Hr).
      rewrite Hsame, map_size_insert_None; [lia|].
      apply map_lookup_filter_None. by left.
    + rewrite bool_decide_eq_false_2 by congruence.
      rewrite map_filter_insert_False; last first.
      { simpl. rewrite lookup_insert_eq. simpl. congruence. }
      rewrite delete_id by done. rewrite Hsame. lia.
  - intros id q Hq. simpl in *.
    apply lookup_insert_Some in Hq as [[_ <-]|[_ Hq]].
    + rewrite lookup_insert_eq. by eexists.
    + destruct (Hvalid id q Hq) as [s Hs]. exists s.
      rewrite lookup_insert_ne; [done|]. intros <-. congruence.
Qed.

Lemma register_all_count (env : Collaborators)
    (requests : list (string * string * bool * string)) (st : FolderKeeper) :
  addresses_valid st →
  NoDup (requests.*1.*1.*1) →
  (∀ uuid, uuid ∈ requests.*1.*1.*1 → m_Resources st !! uuid = None) →
  html_count (register_all env requests st).1
  = html_count st + (register_all env requests st).2
  ∧ (size (m_Resources (register_all env requests st).1)
     ≤ size (m_Resources st) + length requests)%nat.
Proof.
  revert st. induction requests as [|[[[uuid path] upd] mt] rest IH];
    intros st Hvalid Hdup Hfresh.
  { simpl. split; lia. }
  rewrite !fmap_cons in Hdup, Hfresh. cbn [fst] in Hdup, Hfresh.
  apply NoDup_cons in Hdup as [Hhead Hdup].
  cbn [register_all].
  destruct (AddContentFileToFolder env uuid path upd mt st) as [p st'|e st']
    eqn:Hadd.
  - destruct (html_count_add env uuid path upd mt st st' p Hvalid)
      as (Hcount & Hvalid' & Hres); [apply Hfresh; by left|done|].
    destruct (IH st' Hvalid' Hdup) as [IH1 IH2].
    { intros u Hu. rewrite Hres, lookup_insert_ne; [|by intros ->].
      apply Hfresh. by right. }
    destruct (register_all env rest st') as [st'' k]. simpl in *.
    split; [lia|].
    rewrite Hres, map_size_insert_None in IH2 by (apply Hfresh; by left). lia.
  - destruct (AddContentFileToFolder_throws _ _ _ _ _ _ _ _ Hadd) as (_ & _ & ->).
    destruct (IH st Hvalid Hdup) as [IH1 IH2].
    { intros u Hu. apply Hfresh. by right. }
    split; [done|]. simpl. lia.
Qed.

Lemma I1_addresses_valid (st : FolderKeeper) : I1 st → addresses_valid st.
Proof.
  intros [HI1 _] id p Hp. destruct (HI1 id p Hp) as (_ & r & Hr & _).
  by exists r.
Qed.

Lemma reachable_addresses_valid (env : Collaborators) (st : FolderKeeper) :
  reachable env st → addresses_valid st.
Proof. intros Hreach. by apply I1_addresses_valid, (reachable_invariant env). Qed.

(** C6: with less than 2^31 resources in the registry, which a hash of Qt
    cannot exceed, [GetHighestReadingOrder] is the number of registered
    resources of the HTML kind minus one, so -1 without one; and after a
    run of registrations under new identifiers it is the number before,
    plus the number of HTML resources the run registered, minus one. *)
Theorem GetHighestReadingOrder_counts (env : Collaborators)
    (requests : list (string * string * bool * string)) (st : FolderKeeper) :
  addresses_valid st →
  NoDup (requests.*1.*1.*1) →
  (∀ uuid, uuid ∈ requests.*1.*1.*1 → m_Resources st !! uuid = None) →
  Z.of_nat (size (m_Resources st) + length requests) ≤ INT_MAX →
  GetHighestReadingOrder st = html_count st - 1
  ∧ (html_count st = 0 → GetHighestReadingOrder st = -1)
  ∧ GetHighestReadingOrder (register_all env requests st).1
    = html_count st + (register_all env requests st).2 - 1.
Proof.
  intros Hvalid Hdup Hfresh Hsize.
  assert (GetHighestReadingOrder st = html_count st - 1) as Hnow.
  { apply GetHighestReadingOrder_html_count. lia. }
  split; [done|]. split; [intros H0; rewrite Hnow; lia|].
  destruct (register_all_count env requests st Hvalid Hdup Hfresh)
    as [Hcount Hbound].
  rewrite GetHighestReadingOrder_html_count by lia. lia.
Qed.

(** * The theorems at concrete inputs *)

(** The entries of a concrete index, listed. *)
Ltac list_entries H :=
  apply elem_of_map_to_list in H;
  match type of H with
  | _ ∈ ?l =>
      let l' := eval vm_compute in l in
      replace l with l' in H by (vm_compute; reflexivity)
  end.

(** A concrete registry holds a resource as the test says. *)
Ltac registered_by_test := apply registeredb_spec; vm_compute; reflexivity.

(** A concrete operation is permitted as the test says. *)
Ltac permitted_by_test := apply permittedb_spec; vm_compute; reflexivity.

(** ** The allocator *)

(** C2, at the input where the code breaks it: with the largest suffix an
    int holds in use, the addition of one wraps around and the name that is
    returned is one of the existing names. *)
Theorem GetUniqueFilenameVersion_overflow :
  GetUniqueFilenameVersion Example.names_at_limit "a2147483647.txt"
  = "a-2147483648.txt"
  ∧ QStringList.contains_ci Example.names_at_limit
      (GetUniqueFilenameVersion Example.names_at_limit "a2147483647.txt")
    = true.
Proof. split; vm_compute; reflexivity. Qed.

(** The two examples of the specification. *)
Lemma GetUniqueFilenameVersion_allocate_witness :
  GetUniqueFilenameVersion ["Section0001.xhtml"; "Section0099.xhtml"]
    "Section0001.xhtml" = "Section0100.xhtml"
  ∧ GetUniqueFilenameVersion ["chapter.xhtml"] "chapter.xhtml"
    = "chapter0001.xhtml".
Proof.
  split.
  - rewrite (GetUniqueFilenameVersion_allocate
               ["Section0001.xhtml"; "Section0099.xhtml"] "Section0001.xhtml");
      vm_compute; reflexivity.
  - rewrite (GetUniqueFilenameVersion_allocate
               ["chapter.xhtml"] "chapter.xhtml");
      vm_compute; reflexivity.
Defined.

(** A suffix beyond the largest int is not counted, and a line feed at
    the end of the base name changes the prefix. *)
Lemma allocate_diverges :
  GetUniqueFilenameVersion Example.names_beyond_limit "a.txt"
  ≠ Spec.allocate Spec.numeric "a.txt" Example.names_beyond_limit
  ∧ GetUniqueFilenameVersion [Example.name_with_line_feed]
      Example.name_with_line_feed
    ≠ Spec.allocate Spec.numeric Example.name_with_line_feed
        [Example.name_with_line_feed].
Proof. split; vm_compute; discriminate. Qed.

(** ** The reading order *)

(** An empty book, and two documents among three registrations. *)
Lemma GetHighestReadingOrder_counts_witness :
  GetHighestReadingOrder Example.book0 = -1
  ∧ GetHighestReadingOrder
      (register_all Example.env Example.requests Example.book0).1 = 1.
Proof.
  destruct (GetHighestReadingOrder_counts Example.env Example.requests
              Example.book0) as (Hnow & _ & Hafter).
  - intros id p Hp. list_entries Hp.
    repeat (apply elem_of_cons in Hp as [[= -> ->]|Hp];
            [vm_compute; by eexists|]).
    by apply elem_of_nil in Hp.
  - apply (bool_decide_unpack _). vm_compute. exact I.
  - intros uuid Hin. vm_compute in Hin.
    repeat (apply elem_of_cons in Hin as [->|Hin]; [by vm_compute|]).
    by apply elem_of_nil in Hin.
  - vm_compute. discriminate.
  - split; [rewrite Hnow|rewrite Hafter]; vm_compute; reflexivity.
Defined.

(** ** The indices *)

Lemma reachable_book4 : reachable Example.env Example.book4.
Proof.
  assert (reachable Example.env Example.book1) as H1.
  { apply (reachable_step _ Example.book0
             (addContentFile "u1" "/in/a.xhtml" true ""));
      [apply reachable_new|permitted_by_test|vm_compute; reflexivity]. }
  assert (reachable Example.env Example.book2) as H2.
  { apply (reachable_step _ Example.book1
             (addContentFile "u2" "/in/b.css" true ""));
      [exact H1|permitted_by_test|vm_compute; reflexivity]. }
  assert (reachable Example.env Example.book3) as H3.
  { apply (reachable_step _ Example.book2
             (resourceRenamed 2 "/tmp/book/OEBPS/Text/c.xhtml"));
      [exact H2|permitted_by_test|vm_compute; reflexivity]. }
  apply (reachable_step _ Example.book3 (removeResource 3));
    [exact H3|permitted_by_test|vm_compute; reflexivity].
Defined.

(** The book after an addition, a rename and a removal. *)
Lemma indices_mirror_witness : I1 Example.book4.
Proof. apply (indices_mirror Example.env), reachable_book4. Defined.

(** After the second addition of the same file of the metadata folder the
    path index holds the second resource only. *)
Lemma indices_differ :
  perform_all Example.env Example.twice Example.book0
  = Some Example.added_twice
  ∧ ¬ I1 Example.added_twice.
Proof.
  split; [vm_compute; reflexivity|]. intros [HI1 _].
  assert (registered Example.added_twice 2) as Hreg.
  { apply (HI1 "u1"). vm_compute. reflexivity. }
  apply registeredb_spec in Hreg. vm_compute in Hreg. discriminate.
Qed.

(** ** Adding a file *)

(** A file with an unknown extension goes to the Misc folder. *)
Lemma AddContentFileToFolder_registers_witness :
  ∃ p st' r,
    AddContentFileToFolder Example.env "u1" "/in/x.zzz" true "" Example.book0
    = Returns p st'
    ∧ heap st' !! p = Some r
    ∧ m_Resources st' !! "u1" = Some p
    ∧ m_Path2Resource st' !! "OEBPS/Misc/x.zzz" = Some p
    ∧ m_Type r = GenericResourceType
    ∧ m_FullFilePath r = "/tmp/book/OEBPS/Misc/x.zzz".
Proof.
  destruct (AddContentFileToFolder_registers Example.env "u1" "/in/x.zzz"
              true "" Example.book0)
    as (p & st' & r & Hret & _ & Hr & _ & Hid & Hrel & Hmisc & _);
    [vm_compute; reflexivity|].
  destruct Hmisc as (Htype & Hpath & Hbook); [vm_compute; reflexivity..|].
  exists p, st', r. rewrite Hbook in Hrel. split_and!; try done.
Defined.

(** A file of the metadata folder with an unknown extension does not. *)
Lemma metadata_file_not_under_misc :
  file_exists Example.book0 "/tmp/orig/META-INF/x.zzz" = true
  ∧ m_ExtToMType (MTMaps Example.env) !! "zzz" = None
  ∧ m_MTypeToRDesc (MTMaps Example.env) !! "" = None
  ∧ ∃ p st' r,
      AddContentFileToFolder Example.env "u1" "/tmp/orig/META-INF/x.zzz"
        true "" Example.book0 = Returns p st'
      ∧ heap st' !! p = Some r
      ∧ m_FullFilePath r = "/tmp/book/META-INF/x.zzz"
      ∧ QString.strip_prefix (m_FullPathToMiscFolder Example.book0)
          (m_FullFilePath r) = None.
Proof.
  split_and!; [vm_compute; reflexivity..|].
  exists 2%N,
    (state_of
       (AddContentFileToFolder Example.env "u1" "/tmp/orig/META-INF/x.zzz"
          true "" Example.book0)),
    (mkResource "u1" "/tmp/book" "/tmp/book/META-INF/x.zzz"
       GenericResourceType "" "2.0" "/tmp/book/").
  split_and!; vm_compute; reflexivity.
Qed.

(** ** Removing and renaming *)

(** The style sheet of the book is removed. *)
Lemma RemoveResource_gone_witness :
  name_unshared Example.book2 3 "b.css"
  ∧ ∃ st', RemoveResource 3 Example.book2 = Some st'
    ∧ GetResourceByIdentifier "u2" st' = NULL
    ∧ GetResourceByBookPath "OEBPS/Styles/b.css" st'
      = Throws (ResourceDoesNotExist "OEBPS/Styles/b.css") st'
    ∧ (name_unshared Example.book2 3 "b.css" →
       QStringList.contains_ci (GetAllFilenames st') "b.css" = false
       ∧ GetUniqueFilenameVersion (GetAllFilenames st') "b.css" = "b.css")
    ∧ ∃ st'', RemoveResource 3 st' = Some st''
        ∧ m_Resources st'' = m_Resources st'
        ∧ m_Path2Resource st'' = m_Path2Resource st'.
Proof.
  pose proof (RemoveResource_gone Example.book2 3
                (mkResource "u2" "/tmp/book" "/tmp/book/OEBPS/Styles/b.css"
                   CSSResourceType "text/css" "2.0" "/tmp/book/OEBPS/Styles/"))
    as Hgone.
  change (GetIdentifier (mkResource "u2" _ _ _ _ _ _)) with "u2" in Hgone.
  change (GetRelativePath (mkResource "u2" _ _ _ _ _ _))
    with "OEBPS/Styles/b.css" in Hgone.
  change (Filename (mkResource "u2" _ _ _ _ _ _)) with "b.css" in Hgone.
  split; [apply name_unsharedb_spec; vm_compute; reflexivity|].
  apply Hgone.
  - vm_compute. reflexivity.
  - registered_by_test.
Defined.

(** With a file of the same name in the metadata folder the name stays
    in use. *)
Lemma same_name_stays :
  registered Example.with_same_name 2
  ∧ ∃ r st',
      heap Example.with_same_name !! 2%N = Some r
      ∧ RemoveResource 2 Example.with_same_name = Some st'
      ∧ Filename r = "x.zzz"
      ∧ QStringList.contains_ci (GetAllFilenames st') (Filename r) = true
      ∧ GetUniqueFilenameVersion (GetAllFilenames st') (Filename r)
        = "x0001.zzz".
Proof.
  split; [registered_by_test|].
  exists (mkResource "u1" "/tmp/book" "/tmp/book/OEBPS/Misc/x.zzz"
            GenericResourceType "" "2.0" "/tmp/book/OEBPS/Misc/"),
    (default Example.with_same_name
       (RemoveResource 2 Example.with_same_name)).
  split_and!; vm_compute; reflexivity.
Qed.

(** The document of the book is renamed. *)
Lemma ResourceRenamed_rekeys_witness :
  ∃ st',
    ResourceRenamed 2
      (m_FullPathToMainFolder Example.moved +:+ "/" +:+ "OEBPS/Text/a.xhtml")
      Example.moved = Some st'
    ∧ m_Path2Resource st'
      = <["OEBPS/Text/c.xhtml" := 2%N]>
          (delete "OEBPS/Text/a.xhtml" (m_Path2Resource Example.moved))
    ∧ GetResourceByBookPath "OEBPS/Text/a.xhtml" st'
      = Throws (ResourceDoesNotExist "OEBPS/Text/a.xhtml") st'
    ∧ GetResourceByBookPath "OEBPS/Text/c.xhtml" st' = Returns 2%N st'
    ∧ (∀ k, m_Path2Resource st' !! k = Some 2%N → k = "OEBPS/Text/c.xhtml")
    ∧ m_Resources st' = m_Resources Example.moved
    ∧ heap st' = heap Example.moved.
Proof.
  apply (ResourceRenamed_rekeys Example.moved 2
           (mkResource "u1" "/tmp/book" "/tmp/book/OEBPS/Text/c.xhtml"
              HTMLResourceType "application/xhtml+xml" "2.0"
              "/tmp/book/OEBPS/Text/")
           "OEBPS/Text/a.xhtml" "OEBPS/Text/c.xhtml").
  - discriminate.
  - vm_compute. reflexivity.
  - vm_compute. reflexivity.
  - vm_compute. reflexivity.
  - vm_compute. reflexivity.
  - intros k Hk. list_entries Hk.
    repeat (apply elem_of_cons in Hk as [Heq|Hk];
            [first [discriminate Heq|by injection Heq as ->]|]).
    by apply elem_of_nil in Hk.
  - discriminate.
Defined.

(** The removal of the style sheet leaves the document. *)
Lemma RemoveResource_frame_witness :
  ∃ st', RemoveResource 3 Example.book2 = Some st'
    ∧ registered st' 2
    ∧ m_Resources st' !! "u1" = Some 2%N
    ∧ m_Path2Resource st' !! "OEBPS/Text/a.xhtml" = Some 2%N
    ∧ (∀ id, id ≠ "u2" →
         m_Resources st' !! id = m_Resources Example.book2 !! id)
    ∧ (∀ k, k ≠ "OEBPS/Styles/b.css" →
         m_Path2Resource st' !! k = m_Path2Resource Example.book2 !! k)
    ∧ (∀ path, path ≠ "/tmp/book/OEBPS/Styles/b.css" →
         (path ∈ m_FSWatcher st' ↔ path ∈ m_FSWatcher Example.book2)
         ∧ (path ∈ m_SuspendedWatchedFiles st'
            ↔ path ∈ m_SuspendedWatchedFiles Example.book2))
    ∧ heap st' = heap Example.book2.
Proof.
  pose proof (RemoveResource_frame Example.book2 3 2
                (mkResource "u2" "/tmp/book" "/tmp/book/OEBPS/Styles/b.css"
                   CSSResourceType "text/css" "2.0" "/tmp/book/OEBPS/Styles/")
                (mkResource "u1" "/tmp/book" "/tmp/book/OEBPS/Text/a.xhtml"
                   HTMLResourceType "application/xhtml+xml" "2.0"
                   "/tmp/book/OEBPS/Text/")) as Hframe.
  change (GetIdentifier (mkResource "u2" _ _ _ _ _ _)) with "u2" in Hframe.
  change (GetIdentifier (mkResource "u1" _ _ _ _ _ _)) with "u1" in Hframe.
  change (GetFullPath (mkResource _ _ ?path _ _ _ _)) with path in Hframe.
  change (GetRelativePath (mkResource "u2" _ _ _ _ _ _))
    with "OEBPS/Styles/b.css" in Hframe.
  change (GetRelativePath (mkResource "u1" _ _ _ _ _ _))
    with "OEBPS/Text/a.xhtml" in Hframe.
  apply Hframe.
  - vm_compute. reflexivity.
  - vm_compute. reflexivity.
  - registered_by_test.
  - registered_by_test.
  - discriminate.
Defined.

(** * Further properties of the registry *)

(** ** The allocator: names that are new, and the extension *)

Lemma scan_attained (p ext : string) (names : list string) (acc : Z * Z) :
  (fold_left (scan_existing_file p ext) names acc).1 = acc.1
  ∨ ∃ e c, e ∈ names ∧ Pattern.filename_search p ext e = Some c
           ∧ Pattern.toInt c
             = Some (fold_left (scan_existing_file p ext) names acc).1.
Proof.
  revert acc. induction names as [|e names IH]; intros acc; [by left|].
  cbn [fold_left].
  destruct (IH (scan_existing_file p ext acc e)) as [Heq|(e' & c & ? & ? & ?)].
  - rewrite Heq. unfold scan_existing_file. destruct acc as [m l].
    destruct (Pattern.filename_search p ext e) as [c|] eqn:Hc; [|by left].
    destruct (Pattern.toInt c) as [n|] eqn:Hn; [|by left].
    destruct (n >? m); [|by left].
    right. exists e, c. split; [apply elem_of_cons; by left|].
    split; [done|]. by rewrite Hn.
  - right. exists e', c. split; [apply elem_of_cons; by right|done].
Qed.

Lemma toInt_bound (c : string) (n : Z) : Pattern.toInt c = Some n → n ≤ INT_MAX.
Proof.
  unfold Pattern.toInt. destruct (QString.isEmpty c); [done|].
  destruct (NilEmpty.uint_of_string c); [|done].
  destruct (Z.leb_spec (Z.of_N (N.of_uint u)) INT_MAX); [|done].
  by intros [= <-].
Qed.

Lemma max_num_below (filenames : list string) (filename : string) :
  (∀ e c, e ∈ filenames →
     Pattern.filename_search
       (Pattern.remove_digits_dollar (QFileInfo.baseName filename))
       (QFileInfo.completeSuffix filename) e = Some c →
     Pattern.toInt c ≠ Some INT_MAX) →
  max_num filenames filename < INT_MAX.
Proof.
  intros Hno. unfold max_num.
  destruct (scan_attained
              (Pattern.remove_digits_dollar (QFileInfo.baseName filename))
              (QFileInfo.completeSuffix filename) filenames (-1, -1))
    as [->|(e & c & He & Hc & Hn)]; [done|].
  pose proof (toInt_bound _ _ Hn) as Hle.
  specialize (Hno e c He Hc).
  destruct (decide ((fold_left
     (scan_existing_file
        (Pattern.remove_digits_dollar (QFileInfo.baseName filename))
        (QFileInfo.completeSuffix filename)) filenames (-1, -1)).1 = INT_MAX))
    as [Heq|Hne]; [|lia].
  rewrite Heq in Hn. done.
Qed.

(** X1: when no existing name that matches the search pattern carries the
    suffix INT_MAX, the name [GetUniqueFilenameVersion] returns is equal,
    up to case, to none of the existing names, and it is the name asked for
    exactly when that name is free. *)
Theorem GetUniqueFilenameVersion_new (filenames : list string)
    (filename : string) :
  (∀ e c, e ∈ filenames →
     Pattern.filename_search
       (Pattern.remove_digits_dollar (QFileInfo.baseName filename))
       (QFileInfo.completeSuffix filename) e = Some c →
     Pattern.toInt c ≠ Some INT_MAX) →
  QStringList.contains_ci filenames
    (GetUniqueFilenameVersion filenames filename) = false
  ∧ (GetUniqueFilenameVersion filenames filename = filename
     ↔ QStringList.contains_ci filenames filename = false).
Proof.
  intros Hno. pose proof (max_num_below _ _ Hno) as Hmax.
  pose proof (GetUniqueFilenameVersion_unused filenames filename Hmax) as Hnew.
  split; [done|]. split.
  - intros Heq. by rewrite Heq in Hnew.
  - apply GetUniqueFilenameVersion_unchanged.
Qed.

Lemma GetUniqueFilenameVersion_new_witness :
  QStringList.contains_ci ["Section0001.xhtml"; "SECTION0002.xhtml"]
    (GetUniqueFilenameVersion ["Section0001.xhtml"; "SECTION0002.xhtml"]
       "section0001.xhtml") = false
  ∧ (GetUniqueFilenameVersion ["Section0001.xhtml"; "SECTION0002.xhtml"]
       "section0001.xhtml" = "section0001.xhtml"
     ↔ QStringList.contains_ci ["Section0001.xhtml"; "SECTION0002.xhtml"]
         "section0001.xhtml" = false).
Proof.
  apply GetUniqueFilenameVersion_new.
  intros e c He Hc Hn.
  apply elem_of_cons in He as [->|He];
    [|apply elem_of_cons in He as [->|He]; [|by apply elem_of_nil in He]];
    vm_compute in Hc; injection Hc as <-; vm_compute in Hn; discriminate Hn.
Defined.

Lemma split_at_first (sep : ascii) (s : string) :
  has_char sep s = true →
  s = QString.before_first sep s +:+ String sep (QString.after_first sep s).
Proof.
  induction s as [|c s IH]; [done|].
  rewrite has_char_cons. simpl. rewrite (Ascii.eqb_sym sep c).
  destruct (Ascii.eqb_spec c sep) as [->|_]; simpl.
  - intros _. by rewrite append_nil.
  - intros Hs. rewrite append_cons. f_equal. by apply IH.
Qed.

Lemma before_first_without (sep : ascii) (s : string) :
  has_char sep (QString.before_first sep s) = false.
Proof.
  induction s as [|c s IH]; [done|]. simpl.
  destruct (Ascii.eqb_spec c sep) as [->|Hne]; [done|].
  rewrite has_char_cons, IH. rewrite (Ascii.eqb_sym sep c).
  by destruct (Ascii.eqb_spec c sep).
Qed.

Lemma after_first_without (sep : ascii) (s : string) :
  has_char sep s = false → QString.after_first sep s = EmptyString.
Proof.
  induction s as [|c s IH]; [done|].
  rewrite has_char_cons. simpl. rewrite (Ascii.eqb_sym sep c).
  destruct (Ascii.eqb c sep); simpl; [done|]. apply IH.
Qed.

Lemma after_first_append (sep : ascii) (a b : string) :
  has_char sep a = false →
  QString.after_first sep (a +:+ String sep b) = b.
Proof.
  induction a as [|c a IH].
  - intros _. rewrite append_nil. simpl. by rewrite Ascii.eqb_refl.
  - rewrite has_char_cons, append_cons. simpl. rewrite (Ascii.eqb_sym sep c).
    destruct (Ascii.eqb c sep); simpl; [done|]. apply IH.
Qed.

Lemma arg_without (x : ascii) (a width : Z) :
  QChar.isDigit x = false → x ≠ "-"%char →
  has_char x (QString.arg a width) = false.
Proof.
  intros Hx Hminus. unfold QString.arg. destruct (a <? 0).
  - rewrite has_char_cons.
    destruct (Ascii.eqb_spec x "-"); [done|]. simpl.
    by apply all_digits_clean, all_digits_zero_padded.
  - by apply all_digits_clean, all_digits_zero_padded.
Qed.

Lemma suffix_of_parts (a ext : string) :
  has_char "/" (a +:+ String "." ext) = false →
  QFileInfo.suffix (a +:+ String "." ext)
  = QString.after_last "."%char ext ext.
Proof.
  intros Hclean. unfold QFileInfo.suffix, QFileInfo.fileName.
  rewrite (after_last_without "/") by done.
  change (QString.contains "." (a +:+ String "." ext))
    with (has_char "." (a +:+ String "." ext)).
  rewrite has_char_append, has_char_cons, Ascii.eqb_refl, orb_true_r.
  apply after_last_append.
Qed.

Lemma completeSuffix_of_parts (a ext : string) :
  has_char "/" (a +:+ String "." ext) = false → has_char "." a = false →
  QFileInfo.completeSuffix (a +:+ String "." ext) = ext.
Proof.
  intros Hclean Ha. unfold QFileInfo.completeSuffix, QFileInfo.fileName.
  rewrite (after_last_without "/") by done. by apply after_first_append.
Qed.

Lemma suffix_of_completeSuffix (path : string) :
  QFileInfo.suffix path
  = QString.after_last "."%char (QFileInfo.completeSuffix path)
      (QFileInfo.completeSuffix path).
Proof.
  unfold QFileInfo.suffix, QFileInfo.completeSuffix.
  set (f := QFileInfo.fileName path).
  change (QString.contains "." f) with (has_char "." f).
  destruct (has_char "." f) eqn:Hdot.
  - rewrite (split_at_first "." f Hdot) at 1 2. apply after_last_append.
  - by rewrite after_first_without.
Qed.

(** X2: the name [GetUniqueFilenameVersion] returns has the complete
    suffix and the suffix of the name asked for, whatever the existing
    names are: a new version of a name keeps its extension. *)
Theorem GetUniqueFilenameVersion_suffix (filenames : list string)
    (filename : string) :
  QFileInfo.completeSuffix (GetUniqueFilenameVersion filenames filename)
  = QFileInfo.completeSuffix filename
  ∧ QFileInfo.suffix (GetUniqueFilenameVersion filenames filename)
    = QFileInfo.suffix filename.
Proof.
  assert (QFileInfo.completeSuffix
            (GetUniqueFilenameVersion filenames filename)
          = QFileInfo.completeSuffix filename) as Hcomplete; last first.
  { split; [done|]. by rewrite !suffix_of_completeSuffix, Hcomplete. }
  unfold GetUniqueFilenameVersion.
  destruct (QStringList.contains_ci filenames filename); simpl; [|done].
  destruct (fold_left _ filenames (-1, -1)) as [m l].
  destruct (if m =? -1 then (0, 4) else (m, l)) as [m' l'].
  set (p := Pattern.remove_digits_dollar (QFileInfo.baseName filename)).
  set (ext := QFileInfo.completeSuffix filename).
  set (a := p +:+ QString.arg (wrap_int (m' + 1)) l').
  assert (has_char "/" a = false) as Hslash.
  { unfold a, p. rewrite has_char_append, arg_clean.
    by rewrite remove_digits_dollar_clean
      by apply before_first_clean, fileName_clean. }
  assert (has_char "." a = false) as Hdot.
  { unfold a, p. rewrite has_char_append, arg_without by done.
    by rewrite remove_digits_dollar_clean by apply before_first_without. }
  assert (has_char "/" ext = false) as Hext
    by apply after_first_clean, fileName_clean.
  clearbody ext. destruct ext as [|c e]; simpl.
  - rewrite append_empty_r. unfold QFileInfo.completeSuffix, QFileInfo.fileName.
    rewrite (after_last_without "/") by done. by apply after_first_without.
  - rewrite append_cons, append_nil. apply completeSuffix_of_parts; [|done].
    rewrite has_char_append, has_char_cons, Hslash. simpl. exact Hext.
Qed.

(** ** Ordinary additions *)

Lemma placement_folder (st : FolderKeeper) (fullfilepath filename resdesc
    lcppath : string) :
  QString.contains FILE_EXCEPTIONS fullfilepath = false →
  ∃ folder,
    (placement st fullfilepath filename resdesc lcppath).1.1
    = m_FullPathToMainFolder st +:+ "/" +:+
        (("OEBPS/" +:+ folder) +:+ "/" +:+ filename)
    ∧ folder ∈ [ MISC_FOLDER_NAME; AUDIO_FOLDER_NAME; VIDEO_FOLDER_NAME;
                 IMAGE_FOLDER_NAME; FONT_FOLDER_NAME; TEXT_FOLDER_NAME;
                 STYLE_FOLDER_NAME ].
Proof.
  intros Hout. unfold placement. rewrite Hout.
  repeat match goal with
         | |- context [String.eqb resdesc ?d] => destruct (String.eqb resdesc d)
         end;
    cbn [fst]; eexists; (split; [apply folder_path_inside|]);
    apply list_elem_of_In; simpl; auto 10.
Qed.

Lemma AddContentFileToFolder_ordinary (env : Collaborators)
    (uuid fullfilepath : string) (update_opf : bool) (mimetype : string)
    (st : FolderKeeper) :
  file_exists st fullfilepath = true →
  QString.contains FILE_EXCEPTIONS fullfilepath = false →
  ∃ r folder,
    AddContentFileToFolder env uuid fullfilepath update_opf mimetype st
    = Returns (new_address (heap st))
        (mkFolderKeeper (<[new_address (heap st) := r]> (heap st))
           ({[m_FullFilePath r]} ∪ disk st)
           (<[uuid := new_address (heap st)]> (m_Resources st))
           (<[GetRelativePath r := new_address (heap st)]>
              (m_Path2Resource st))
           (m_OPF st) (m_NCX st) (m_FSWatcher st)
           (m_SuspendedWatchedFiles st) (m_FullPathToMainFolder st)
           (m_KeyToLCP st)
           (if update_opf
            then emitted st ++ [ResourceAdded (new_address (heap st))]
            else emitted st))
    ∧ GetIdentifier r = uuid
    ∧ m_MainFolder r = m_FullPathToMainFolder st
    ∧ folder ∈ [ MISC_FOLDER_NAME; AUDIO_FOLDER_NAME; VIDEO_FOLDER_NAME;
                 IMAGE_FOLDER_NAME; FONT_FOLDER_NAME; TEXT_FOLDER_NAME;
                 STYLE_FOLDER_NAME ]
    ∧ GetFullPath r
      = (m_FullPathToOEBPSFolder st +:+ "/" +:+ folder) +:+ "/" +:+
          GetUniqueFilenameVersion (GetAllFilenames st)
            (QFileInfo.fileName (normalise fullfilepath))
    ∧ GetRelativePath r
      = ("OEBPS/" +:+ folder) +:+ "/" +:+
          GetUniqueFilenameVersion (GetAllFilenames st)
            (QFileInfo.fileName (normalise fullfilepath))
    ∧ Filename r
      = GetUniqueFilenameVersion (GetAllFilenames st)
          (QFileInfo.fileName (normalise fullfilepath)).
Proof.
  intros Hex Hout.
  destruct (AddContentFileToFolder_returns env uuid fullfilepath update_opf
              mimetype st Hex) as (r & Hret & Hid & Hmain & Hplace).
  simpl in Hret, Hplace.
  set (name := GetUniqueFilenameVersion (GetAllFilenames st)
                 (QFileInfo.fileName (normalise fullfilepath))) in *.
  destruct (placement_folder st fullfilepath name
              (GetResourceDescFromMediaType (MTMaps env)
                 (if QString.isEmpty mimetype
                  then GetMediaTypeFromExtension (MTMaps env)
                         (QString.toLower
                            (QFileInfo.suffix (normalise fullfilepath))) ""
                  else mimetype) "Resource")
              (default ""
                 (m_KeyToLCP st
                    !! DetermineFileGroup env (normalise fullfilepath)
                         (if QString.isEmpty mimetype
                          then GetMediaTypeFromExtension (MTMaps env)
                                 (QString.toLower
                                    (QFileInfo.suffix
                                       (normalise fullfilepath))) ""
                          else mimetype))) Hout) as (folder & Hfolder & Hin).
  rewrite <- Hplace in Hfolder. cbn [fst] in Hfolder.
  assert (GetRelativePath r = ("OEBPS/" +:+ folder) +:+ "/" +:+ name) as Hrel.
  { unfold GetRelativePath. rewrite Hmain, Hfolder.
    apply relative_path_inside. }
  exists r, folder. split_and!; try done.
  - unfold GetFullPath. rewrite Hfolder. symmetry. apply folder_path_inside.
  - eapply Filename_of_book_path; [exact Hrel|].
    apply GetUniqueFilenameVersion_clean, fileName_clean.
Qed.

Lemma equals_ci_sym (a b : string) :
  QString.equals_ci a b = QString.equals_ci b a.
Proof. unfold QString.equals_ci. apply String.eqb_sym. Qed.

Lemma contains_ci_false (l : list string) (s e : string) :
  QStringList.contains_ci l s = false → e ∈ l → QString.equals_ci s e = false.
Proof.
  intros Hno He. apply not_true_is_false. intros Heq.
  apply equals_ci_spec in Heq.
  assert (QStringList.contains_ci l s = true) as Hin
    by (apply contains_ci_spec; by exists e).
  by rewrite Hno in Hin.
Qed.

Lemma names_distinct_add (env : Collaborators) (uuid fullfilepath : string)
    (update_opf : bool) (mimetype : string) (st : FolderKeeper) :
  names_distinct st → addresses_valid st →
  QString.contains FILE_EXCEPTIONS fullfilepath = false →
  max_num (GetAllFilenames st) (QFileInfo.fileName (normalise fullfilepath))
  < INT_MAX →
  let st' :=
    state_of
      (AddContentFileToFolder env uuid fullfilepath update_opf mimetype st) in
  names_distinct st' ∧ addresses_valid st'.
Proof.
  intros Hdist Hvalid Hout Hmax.
  destruct (file_exists st fullfilepath) eqn:Hex; last first.
  { unfold AddContentFileToFolder. by rewrite Hex. }
  destruct (AddContentFileToFolder_ordinary env uuid fullfilepath update_opf
              mimetype st Hex Hout)
    as (r & folder & Hret & Hid & Hmain & _ & _ & _ & Hname).
  rewrite Hret. cbn [state_of].
  destruct (new_address_spec (heap st)) as [Hnull Hnew].
  set (new := new_address (heap st)) in *.
  pose proof (GetUniqueFilenameVersion_unused (GetAllFilenames st)
                (QFileInfo.fileName (normalise fullfilepath)) Hmax) as Hfree.
  rewrite <- Hname in Hfree.
  assert (∀ id q s, id ≠ uuid →
            <[uuid := new]> (m_Resources st) !! id = Some q →
            <[new := r]> (heap st) !! q = Some s →
            m_Resources st !! id = Some q ∧ heap st !! q = Some s
            ∧ QString.equals_ci (Filename r) (Filename s) = false) as Hold.
  { intros id q s Hne Hq Hs. rewrite lookup_insert_ne in Hq by done.
    destruct (Hvalid _ _ Hq) as [s' Hs'].
    rewrite lookup_insert_ne in Hs by (intros <-; by rewrite Hnew in Hs').
    split_and!; [done..|].
    apply (contains_ci_false _ _ _ Hfree), elem_of_GetAllFilenames.
    by exists id, q, s. }
  split.
  - intros id1 id2 p q s1 s2 Hne Hp Hq Hs1 Hs2. cbn in Hp, Hq, Hs1, Hs2.
    destruct (decide (id1 = uuid)) as [->|Hne1];
      destruct (decide (id2 = uuid)) as [->|Hne2]; [done|..].
    + rewrite lookup_insert_eq in Hp. injection Hp as <-.
      rewrite lookup_insert_eq in Hs1. injection Hs1 as <-.
      by destruct (Hold _ _ _ Hne2 Hq Hs2) as (_ & _ & ?).
    + rewrite lookup_insert_eq in Hq. injection Hq as <-.
      rewrite lookup_insert_eq in Hs2. injection Hs2 as <-.
      rewrite equals_ci_sym.
      by destruct (Hold _ _ _ Hne1 Hp Hs1) as (_ & _ & ?).
    + destruct (Hold _ _ _ Hne1 Hp Hs1) as (Hp' & Hs1' & _).
      destruct (Hold _ _ _ Hne2 Hq Hs2) as (Hq' & Hs2' & _).
      exact (Hdist id1 id2 p q s1 s2 Hne Hp' Hq' Hs1' Hs2').
  - intros id q Hq. cbn in Hq |- *.
    destruct (decide (id = uuid)) as [->|Hne].
    + rewrite lookup_insert_eq in Hq. injection Hq as <-.
      by rewrite lookup_insert_eq.
    + rewrite lookup_insert_ne in Hq by done.
      destruct (Hvalid _ _ Hq) as [s' Hs'].
      rewrite lookup_insert_ne by (intros <-; by rewrite Hnew in Hs'). done.
Qed.

Lemma register_all_state (env : Collaborators) (uuid fullfilepath : string)
    (update_opf : bool) (mimetype : string)
    (rest : list (string * string * bool * string)) (st : FolderKeeper) :
  (register_all env ((uuid, fullfilepath, update_opf, mimetype) :: rest) st).1
  = (register_all env rest
       (state_of
          (AddContentFileToFolder env uuid fullfilepath update_opf mimetype
             st))).1.
Proof.
  cbn [register_all].
  destruct (AddContentFileToFolder _ _ _ _ _ _) as [p st'|e st']; [|done].
  cbn [state_of]. by destruct (register_all env rest st').
Qed.

Lemma names_distinct_new (env : Collaborators) (main : string)
    (files0 : gset string) (uuid : string) :
  names_distinct (FolderKeeper_new env main files0 uuid).
Proof.
  intros id1 id2 p q r s Hne Hp Hq _ _. cbn in Hp, Hq.
  apply lookup_insert_Some in Hp as [[<- _]|[_ Hp]]; [|done].
  apply lookup_insert_Some in Hq as [[<- _]|[_ Hq]]; done.
Qed.

(** X3: file names stay distinct up to case (I3). In a registry whose
    file names are distinct up to case and whose addresses hold objects, a
    run of additions of files outside the metadata folder, none of which
    meets existing names with the suffix INT_MAX, leads to a registry with
    the same two properties. *)
Theorem register_all_names_distinct (env : Collaborators)
    (requests : list (string * string * bool * string)) (st : FolderKeeper) :
  names_distinct st → addresses_valid st → ordinary env requests st →
  names_distinct (register_all env requests st).1
  ∧ addresses_valid (register_all env requests st).1.
Proof.
  revert st.
  induction requests as [|[[[uuid path] upd] mt] rest IH];
    intros st Hdist Hvalid Hrun; [done|].
  rewrite register_all_state. destruct Hrun as (Hout & Hmax & Hrest).
  destruct (names_distinct_add env uuid path upd mt st Hdist Hvalid Hout Hmax)
    as [Hdist' Hvalid'].
  by apply IH.
Qed.

Lemma register_all_names_distinct_witness :
  names_distinct
    (register_all Example.env Example.requests Example.book0).1
  ∧ addresses_valid
      (register_all Example.env Example.requests Example.book0).1.
Proof.
  apply register_all_names_distinct.
  - apply names_distinct_new.
  - apply I1_addresses_valid, I1_new.
  - vm_compute. repeat split.
Defined.


Lemma fileName_normalise_plain (fullfilepath : string) :
  QString.left (QFileInfo.fileName fullfilepath) 1 ≠ "." →
  normalise fullfilepath = fullfilepath.
Proof.
  intros Hname. unfold normalise. cbn zeta.
  by destruct (String.eqb_spec (QString.left (QFileInfo.fileName fullfilepath) 1) ".").
Qed.







(** ** The constructor *)

Lemma KeyToLCP_filled (st : FolderKeeper) :
  m_KeyToLCP st = ∅ →
  m_KeyToLCP (CreateKeyToLCPMap st)
  = <["other" := m_FullPathToMainFolder st +:+ "/"]>
     (<["opf" := m_FullPathToMainFolder st +:+ "/OEBPS/"]>
     (<["ncx" := m_FullPathToMainFolder st +:+ "/OEBPS/"]>
     (<["misc" := m_FullPathToMainFolder st +:+ "/OEBPS/Misc/"]>
     (<["video" := m_FullPathToMainFolder st +:+ "/OEBPS/Video/"]>
     (<["audio" := m_FullPathToMainFolder st +:+ "/OEBPS/Audio/"]>
     (<["fonts" := m_FullPathToMainFolder st +:+ "/OEBPS/Fonts/"]>
     (<["images" := m_FullPathToMainFolder st +:+ "/OEBPS/Images/"]>
     (<["styles" := m_FullPathToMainFolder st +:+ "/OEBPS/Styles/"]>
     (<["text" := m_FullPathToMainFolder st +:+ "/OEBPS/Text/"]> ∅)))))))))
    ∧ m_FullPathToMainFolder (CreateKeyToLCPMap st) = m_FullPathToMainFolder st.
Proof.
  intros Hempty. unfold CreateKeyToLCPMap.
  rewrite bool_decide_eq_true_2 by done. cbn. by rewrite Hempty.
Qed.

Lemma KeyToLCP_kept (st : FolderKeeper) :
  m_KeyToLCP st ≠ ∅ → CreateKeyToLCPMap st = st.
Proof.
  intros Hfilled. unfold CreateKeyToLCPMap.
  by rewrite bool_decide_eq_false_2.
Qed.

Lemma KeyToLCP_not_empty (st : FolderKeeper) :
  m_KeyToLCP (CreateKeyToLCPMap st) ≠ ∅.
Proof.
  destruct (decide (m_KeyToLCP st = ∅)) as [Hempty|Hfilled].
  - destruct (KeyToLCP_filled st Hempty) as [-> _]. apply insert_non_empty.
  - by rewrite KeyToLCP_kept.
Qed.

Lemma KeyToLCP_entry (st : FolderKeeper) (key v : string) :
  m_KeyToLCP st = ∅ →
  m_KeyToLCP (CreateKeyToLCPMap st) !! key = Some v →
  key ∈ [ "text"; "styles"; "images"; "fonts"; "audio"; "video"; "misc";
          "ncx"; "opf"; "other" ]
  ∧ ∃ mid, v = m_FullPathToMainFolder st +:+ mid +:+ "/".
Proof.
  intros Hempty. destruct (KeyToLCP_filled st Hempty) as [-> _].
  intros Hv.
  repeat (apply lookup_insert_Some in Hv as [[<- <-]|[_ Hv]];
          [split; [apply list_elem_of_In; simpl; auto 12|]|]);
    [..|done].
  - by exists "".
  - by exists "/OEBPS".
  - by exists "/OEBPS".
  - by exists "/OEBPS/Misc".
  - by exists "/OEBPS/Video".
  - by exists "/OEBPS/Audio".
  - by exists "/OEBPS/Fonts".
  - by exists "/OEBPS/Images".
  - by exists "/OEBPS/Styles".
  - by exists "/OEBPS/Text".
Qed.

Lemma KeyToLCP_key (st : FolderKeeper) (key : string) :
  m_KeyToLCP st = ∅ →
  key ∈ [ "text"; "styles"; "images"; "fonts"; "audio"; "video"; "misc";
          "ncx"; "opf"; "other" ] →
  is_Some (m_KeyToLCP (CreateKeyToLCPMap st) !! key).
Proof.
  intros Hempty Hkey. destruct (KeyToLCP_filled st Hempty) as [-> _].
  repeat (apply elem_of_cons in Hkey as [->|Hkey];
          [by repeat (first [rewrite lookup_insert_eq
                            |rewrite lookup_insert_ne by done])|]).
  by apply elem_of_nil in Hkey.
Qed.

(** X7: the longest common paths. [GetLongestCommonPathForKey] fills the
    map once: a second call returns the same path and changes nothing, and
    a map that is not empty is left as it is. After the map was filled
    from empty, exactly the ten keys text, styles, images, fonts, audio,
    video, misc, ncx, opf and other have a path, each path is the main
    folder followed by a text that ends with a slash, and any other key
    gives the empty string. *)
Theorem GetLongestCommonPathForKey_once (key : string) (st : FolderKeeper) :
  GetLongestCommonPathForKey key (GetLongestCommonPathForKey key st).2
  = GetLongestCommonPathForKey key st
  ∧ (m_KeyToLCP st ≠ ∅ → (GetLongestCommonPathForKey key st).2 = st)
  ∧ (m_KeyToLCP st = ∅ →
     (key ∈ [ "text"; "styles"; "images"; "fonts"; "audio"; "video"; "misc";
              "ncx"; "opf"; "other" ] →
      ∃ mid, (GetLongestCommonPathForKey key st).1
             = m_FullPathToMainFolder st +:+ mid +:+ "/")
     ∧ (key ∉ [ "text"; "styles"; "images"; "fonts"; "audio"; "video";
                "misc"; "ncx"; "opf"; "other" ] →
        (GetLongestCommonPathForKey key st).1 = EmptyString)).
Proof.
  unfold GetLongestCommonPathForKey. cbn [fst snd]. split_and!.
  - by rewrite (KeyToLCP_kept (CreateKeyToLCPMap st))
      by apply KeyToLCP_not_empty.
  - apply KeyToLCP_kept.
  - intros Hempty. split.
    + intros Hkey. destruct (KeyToLCP_key st key Hempty Hkey) as [v Hv].
      rewrite Hv. cbn. by destruct (KeyToLCP_entry st key v Hempty Hv).
    + intros Hkey.
      destruct (m_KeyToLCP (CreateKeyToLCPMap st) !! key) as [v|] eqn:Hv;
        [|done].
      by destruct (KeyToLCP_entry st key v Hempty Hv).
Qed.

(** ** What the operations keep *)

Lemma perform_keeps (env : Collaborators) (op : Operation)
    (st st' : FolderKeeper) :
  perform env op st = Some st' →
  m_FullPathToMainFolder st' = m_FullPathToMainFolder st
  ∧ disk st ⊆ disk st'
  ∧ (is_Some (m_KeyToLCP st !! "ncx") → m_KeyToLCP st' = m_KeyToLCP st).
Proof.
  destruct op as [uuid path upd mt|uuid version|p|p new]; cbn [perform].
  - intros [= <-]. unfold AddContentFileToFolder.
    destruct (file_exists st path); cbn [negb state_of]; [|done].
    destruct (placement _ _ _ _ _) as [[new_file_path type] lcppath].
    cbn. split_and!; [done| |done]. apply union_subseteq_r.
  - intros [= <-]. cbn. split_and!; [done..|]. by intros [v ->].
  - unfold RemoveResource. destruct (heap st !! p); [|done].
    intros [= <-]. by cbn.
  - unfold RenameResource. destruct (heap st !! p) as [object|] eqn:Hp;
      [|done].
    unfold ResourceRenamed, MoveResource. cbn.
    destruct (alter _ p (heap st) !! p); [|done].
    intros [= <-]. by cbn.
Qed.

Lemma CreateKeyToLCPMap_main (st : FolderKeeper) :
  m_FullPathToMainFolder (CreateKeyToLCPMap st) = m_FullPathToMainFolder st.
Proof. unfold CreateKeyToLCPMap. by destruct (bool_decide _). Qed.

Lemma FolderKeeper_new_table (env : Collaborators) (main : string)
    (files0 : gset string) (uuid : string) :
  ∃ st0, m_KeyToLCP st0 = ∅
    ∧ m_FullPathToMainFolder st0
      = m_FullPathToMainFolder (FolderKeeper_new env main files0 uuid)
    ∧ m_KeyToLCP (FolderKeeper_new env main files0 uuid)
      = m_KeyToLCP (CreateKeyToLCPMap st0).
Proof.
  unfold FolderKeeper_new.
  match goal with
  | |- context [CreateKeyToLCPMap ?st] => exists st; set (st0 := st)
  end.
  split; [done|]. unfold CreateInfrastructureFiles, CreateFolderStructure.
  cbn [m_KeyToLCP m_FullPathToMainFolder].
  rewrite CreateKeyToLCPMap_main. split; [done|].
  destruct (KeyToLCP_key st0 "opf" eq_refl) as [v Hv].
  { apply list_elem_of_In; simpl; auto 12. }
  by rewrite Hv.
Qed.

Lemma reachable_KeyToLCP (env : Collaborators) (st : FolderKeeper) :
  reachable env st →
  ∃ st0, m_KeyToLCP st0 = ∅
    ∧ m_FullPathToMainFolder st0 = m_FullPathToMainFolder st
    ∧ m_KeyToLCP st = m_KeyToLCP (CreateKeyToLCPMap st0).
Proof.
  induction 1
    as [main files0 uuid|st op st' Hreach (st0 & Hempty & Hfolder & IH)
          Hperm Hdo].
  - apply FolderKeeper_new_table.
  - destruct (perform_keeps env op st st' Hdo) as (Hmain & _ & Hkeep).
    exists st0. rewrite Hmain, Hkeep; [done|]. rewrite IH.
    apply KeyToLCP_key; [done|]. apply list_elem_of_In; simpl; auto 12.
Qed.



Lemma skeleton_new (env : Collaborators) (main : string)
    (files0 : gset string) (uuid : string) (path : string) :
  path ∈ skeleton (FolderKeeper_new env main files0 uuid) →
  path ∈ disk (FolderKeeper_new env main files0 uuid).
Proof.
  unfold FolderKeeper_new, CreateInfrastructureFiles, CreateFolderStructure,
    skeleton, m_FullPathToAudioFolder, m_FullPathToVideoFolder,
    m_FullPathToImagesFolder, m_FullPathToFontsFolder,
    m_FullPathToTextFolder, m_FullPathToStylesFolder, m_FullPathToMiscFolder,
    m_FullPathToOEBPSFolder, m_FullPathToMetaInfFolder.
  cbn [disk m_FullPathToMainFolder]. rewrite !CreateKeyToLCPMap_main.
  cbn [m_FullPathToMainFolder].
  rewrite !append_assoc. intros Hpath.
  apply elem_of_union.
  repeat (apply elem_of_cons in Hpath as [->|Hpath];
          [first [by left; apply elem_of_singleton
                 |right; apply elem_of_union_l, elem_of_list_to_set,
                    list_elem_of_In; simpl; auto 12]|]).
  by apply elem_of_nil in Hpath.
Qed.

(** X9: the folders stay (I4). In every state a new [FolderKeeper]
    reaches by permitted operations, the metadata folder, the OEBPS folder,
    its seven subfolders and container.xml exist. *)
Theorem reachable_skeleton (env : Collaborators) (st : FolderKeeper)
    (path : string) :
  reachable env st → path ∈ skeleton st → file_exists st path = true.
Proof.
  intros Hreach. revert path.
  induction Hreach as [main files0 uuid|st op st' Hreach IH Hperm Hdo];
    intros path Hpath; apply bool_decide_eq_true.
  - by apply skeleton_new.
  - destruct (perform_keeps env op st st' Hdo) as (Hmain & Hdisk & _).
    apply Hdisk. specialize (IH path).
    unfold file_exists in IH. rewrite bool_decide_eq_true in IH. apply IH.
    unfold skeleton, m_FullPathToAudioFolder, m_FullPathToVideoFolder,
      m_FullPathToImagesFolder, m_FullPathToFontsFolder,
      m_FullPathToTextFolder, m_FullPathToStylesFolder,
      m_FullPathToMiscFolder, m_FullPathToOEBPSFolder,
      m_FullPathToMetaInfFolder in *.
    by rewrite <- Hmain.
Qed.

Lemma reachable_skeleton_witness :
  file_exists Example.book4 "/tmp/book/OEBPS/Text" = true.
Proof.
  apply (reachable_skeleton Example.env); [apply reachable_book4|].
  apply list_elem_of_In. vm_compute. auto 12.
Defined.

Lemma oebps_path_inside (st : FolderKeeper) (name : string) :
  m_FullPathToOEBPSFolder st +:+ "/" +:+ name
  = m_FullPathToMainFolder st +:+ "/" +:+ ("OEBPS/" +:+ name).
Proof. unfold m_FullPathToOEBPSFolder. rewrite !append_assoc. reflexivity. Qed.

(** X10: a new [FolderKeeper] holds the OPF and nothing else. The OPF is
    at OEBPS/content.opf under the main folder, it is registered in both
    indices, both lookups find it, the lists of resources, of book paths
    and of file names have this one entry, there is no NCX, no HTML
    resource, no watched file and no signal. *)
Theorem FolderKeeper_new_OPF (env : Collaborators) (main : string)
    (files0 : gset string) (uuid : string) :
  let st := FolderKeeper_new env main files0 uuid in
  GetOPF st ≠ NULL
  ∧ GetNCX st = NULL
  ∧ heap st !! GetOPF st
    = Some (mkResource uuid main (main +:+ "/OEBPS/content.opf")
              OPFResourceType "" (defaultVersion env)
              (main +:+ "/OEBPS/"))
  ∧ registered st (GetOPF st)
  ∧ GetResourceByIdentifier uuid st = GetOPF st
  ∧ GetResourceByBookPath "OEBPS/content.opf" st = Returns (GetOPF st) st
  ∧ GetResourceList st = [GetOPF st]
  ∧ GetAllBookPaths st = ["OEBPS/content.opf"]
  ∧ GetAllFilenames st = ["content.opf"]
  ∧ GetHighestReadingOrder st = -1
  ∧ m_FSWatcher st = ∅
  ∧ emitted st = [].
Proof.
  intros st.
  destruct (I1_new env main files0 uuid) as [[HI1 _] _]. fold st in HI1.
  assert (registered st (m_OPF st)) as Hreg.
  { apply (HI1 uuid). unfold st, FolderKeeper_new, CreateInfrastructureFiles.
    cbn [m_Resources m_OPF GetIdentifier m_Identifier].
    apply lookup_insert_eq. }
  clear HI1. revert Hreg.
  unfold st, FolderKeeper_new, CreateInfrastructureFiles. clear st.
  set (st0 := CreateFolderStructure _).
  assert (m_FullPathToMainFolder st0 = main) as Hmain.
  { unfold st0, CreateFolderStructure. cbn [m_FullPathToMainFolder].
    by rewrite CreateKeyToLCPMap_main. }
  assert (m_KeyToLCP st0 !! "opf" = Some (main +:+ "/OEBPS/")) as Hopf.
  { unfold st0, CreateFolderStructure. cbn [m_KeyToLCP].
    match goal with
    | |- context [CreateKeyToLCPMap ?s] =>
        destruct (KeyToLCP_filled s eq_refl) as [-> _]
    end.
    by rewrite lookup_insert_ne, lookup_insert_eq by done. }
  assert (heap st0 = ∅ ∧ m_Resources st0 = ∅ ∧ m_Path2Resource st0 = ∅
          ∧ m_NCX st0 = NULL ∧ m_FSWatcher st0 = ∅ ∧ emitted st0 = [])
    as (Hheap & Hres & Hpath & Hncx & Hwatch & Hsig).
  { unfold st0, CreateFolderStructure, CreateKeyToLCPMap.
    by destruct (bool_decide _). }
  destruct (new_address_spec (heap st0)) as [Hnull _].
  set (opf := new_address (heap st0)) in *.
  assert (m_FullPathToOEBPSFolder st0 +:+ "/" +:+ OPF_FILE_NAME
          = main +:+ "/OEBPS/content.opf") as Hfull.
  { unfold m_FullPathToOEBPSFolder. rewrite Hmain, !append_assoc.
    reflexivity. }
  rewrite Hfull, Hopf, Hmain.
  set (object := mkResource uuid main _ _ _ _ _).
  assert (GetRelativePath object = "OEBPS/content.opf") as Hrel.
  { unfold GetRelativePath, object. cbn [m_FullFilePath m_MainFolder].
    apply (relative_path_inside main "OEBPS/content.opf"). }
  assert (Filename object = "content.opf") as Hname.
  { apply (Filename_of_book_path object "OEBPS" "content.opf"); [|done].
    by rewrite Hrel. }
  match goal with
  | |- context [registered ?s _] => set (st1 := s)
  end.
  intros Hreg.
  assert (values st1 = [object]) as Hvalues.
  { unfold values, st1. cbn [m_Resources heap].
    rewrite Hres, insert_empty, map_to_list_singleton.
    cbn [fmap list_fmap snd omap list_omap]. by rewrite lookup_insert_eq. }
  unfold GetOPF, GetNCX, GetResourceByIdentifier, GetResourceByBookPath,
    GetResourceList, GetAllBookPaths, GetAllFilenames, GetHighestReadingOrder.
  rewrite Hvalues.
  split_and!.
  - done.
  - done.
  - cbn. by rewrite lookup_insert_eq.
  - exact Hreg.
  - cbn. by rewrite lookup_insert_eq.
  - cbn [st1 m_Path2Resource]. rewrite Hrel, lookup_insert_eq.
    cbn [default]. by rewrite bool_decide_eq_true_2.
  - cbn [st1 m_Resources]. by rewrite Hres, insert_empty, map_to_list_singleton.
  - cbn [fmap list_fmap]. by rewrite Hrel.
  - cbn [fmap list_fmap]. by rewrite Hname.
  - done.
  - done.
  - done.
Qed.

(** ** The navigation resource *)

(** X11: [AddNCXToFolder] registers the NCX at OEBPS/toc.ncx in both
    indices and makes it the NCX of the registry; when its identifier and
    its book path were keys of neither index, [RemoveNCXFromFolder] gives
    back both indices and leaves the registry without an NCX, and a second
    [RemoveNCXFromFolder] changes nothing. *)
Theorem AddNCXToFolder_RemoveNCXFromFolder (env : Collaborators)
    (uuid version : string) (st : FolderKeeper) :
  m_Resources st !! uuid = None →
  m_Path2Resource st !! "OEBPS/toc.ncx" = None →
  ∃ ncx st1 st2,
    AddNCXToFolder env uuid version st = Returns ncx st1
    ∧ ncx ≠ NULL
    ∧ GetNCX st1 = ncx
    ∧ heap st1 !! ncx
      = Some (mkResource uuid (m_FullPathToMainFolder st)
                (m_FullPathToMainFolder st +:+ "/OEBPS/toc.ncx")
                NCXResourceType "" version
                (default "" (m_KeyToLCP st !! "ncx")))
    ∧ GetResourceByIdentifier uuid st1 = ncx
    ∧ GetResourceByBookPath "OEBPS/toc.ncx" st1 = Returns ncx st1
    ∧ GetOPF st1 = GetOPF st
    ∧ RemoveNCXFromFolder st1 = Some st2
    ∧ GetNCX st2 = NULL
    ∧ m_Resources st2 = m_Resources st
    ∧ m_Path2Resource st2 = m_Path2Resource st
    ∧ GetResourceByBookPath "OEBPS/toc.ncx" st2
      = Throws (ResourceDoesNotExist "OEBPS/toc.ncx") st2
    ∧ RemoveNCXFromFolder st2 = Some st2.
Proof.
  intros Huuid Hpath. unfold AddNCXToFolder.
  destruct (new_address_spec (heap st)) as [Hnull Hnew].
  set (ncx := new_address (heap st)) in *.
  rewrite (oebps_path_inside st NCX_FILE_NAME).
  change ("OEBPS/" +:+ NCX_FILE_NAME) with "OEBPS/toc.ncx".
  set (object := mkResource uuid _ _ _ _ _ _).
  assert (GetRelativePath object = "OEBPS/toc.ncx") as Hrel.
  { unfold GetRelativePath, object. cbn [m_FullFilePath m_MainFolder].
    apply relative_path_inside. }
  rewrite Hrel. change (GetIdentifier object) with uuid.
  set (st1 := mkFolderKeeper (<[ncx := object]> (heap st)) _ _ _ _ _ _ _ _ _ _).
  assert (RemoveResource ncx st1
          = Some
              (mkFolderKeeper (heap st1) (disk st1)
                 (delete (GetIdentifier object) (m_Resources st1))
                 (delete (GetRelativePath object) (m_Path2Resource st1))
                 (m_OPF st1) (m_NCX st1)
                 (if bool_decide (GetFullPath object ∈ files st1)
                  then m_FSWatcher st1 ∖ {[GetFullPath object]}
                  else m_FSWatcher st1)
                 (filter (λ path, path ≠ GetFullPath object)
                    (m_SuspendedWatchedFiles st1))
                 (m_FullPathToMainFolder st1) (m_KeyToLCP st1)
                 (emitted st1 ++ [ResourceRemoved ncx]))) as Hremove.
  { apply RemoveResource_state. cbn. by rewrite lookup_insert_eq. }
  eexists ncx, st1, _. split; [done|]. split; [done|]. split; [done|].
  split. { cbn. by rewrite lookup_insert_eq. }
  split. { unfold GetResourceByIdentifier. cbn. by rewrite lookup_insert_eq. }
  split. { unfold GetResourceByBookPath. cbn [st1 m_Path2Resource].
           rewrite lookup_insert_eq. cbn [default].
           by rewrite bool_decide_eq_true_2. }
  split; [done|].
  split. { unfold RemoveNCXFromFolder. cbn [st1 m_NCX].
           rewrite bool_decide_eq_false_2 by done. fold st1.
           rewrite Hremove. reflexivity. }
  rewrite Hrel. change (GetIdentifier object) with uuid.
  unfold GetResourceByBookPath, RemoveNCXFromFolder, GetNCX.
  cbn [st1 m_NCX m_Resources m_Path2Resource].
  rewrite !delete_insert_eq, !delete_id by done. rewrite Hpath.
  cbn [default].
  rewrite (bool_decide_eq_false_2 (NULL ≠ NULL)) by (intros H; by apply H).
  by rewrite (bool_decide_eq_true_2 (NULL = NULL)).
Qed.

Lemma AddNCXToFolder_RemoveNCXFromFolder_witness :
  ∃ ncx st1 st2,
    AddNCXToFolder Example.env "ncx" "2.0" Example.book2 = Returns ncx st1
    ∧ ncx ≠ NULL
    ∧ GetNCX st1 = ncx
    ∧ heap st1 !! ncx
      = Some (mkResource "ncx" (m_FullPathToMainFolder Example.book2)
                (m_FullPathToMainFolder Example.book2 +:+ "/OEBPS/toc.ncx")
                NCXResourceType "" "2.0"
                (default "" (m_KeyToLCP Example.book2 !! "ncx")))
    ∧ GetResourceByIdentifier "ncx" st1 = ncx
    ∧ GetResourceByBookPath "OEBPS/toc.ncx" st1 = Returns ncx st1
    ∧ GetOPF st1 = GetOPF Example.book2
    ∧ RemoveNCXFromFolder st1 = Some st2
    ∧ GetNCX st2 = NULL
    ∧ m_Resources st2 = m_Resources Example.book2
    ∧ m_Path2Resource st2 = m_Path2Resource Example.book2
    ∧ GetResourceByBookPath "OEBPS/toc.ncx" st2
      = Throws (ResourceDoesNotExist "OEBPS/toc.ncx") st2
    ∧ RemoveNCXFromFolder st2 = Some st2.
Proof.
  apply AddNCXToFolder_RemoveNCXFromFolder; vm_compute; reflexivity.
Defined.

(** ** The queries *)

Lemma elem_of_GetResourceList (st : FolderKeeper) (p : N) :
  p ∈ GetResourceList st ↔ ∃ id, m_Resources st !! id = Some p.
Proof.
  unfold GetResourceList. rewrite list_elem_of_fmap. split.
  - intros ([id q] & -> & Hin). exists id. by apply elem_of_map_to_list.
  - intros [id Hid]. exists (id, p). split; [done|].
    by apply elem_of_map_to_list.
Qed.

Lemma NoDup_GetResourceList (st : FolderKeeper) :
  I1 st → NoDup (GetResourceList st).
Proof.
  intros [HI1 _]. unfold GetResourceList.
  apply NoDup_fmap_2_strong; [|apply NoDup_map_to_list].
  intros [id1 p] [id2 q] Hp Hq Heq. cbn in Heq. subst q.
  apply elem_of_map_to_list in Hp, Hq.
  destruct (HI1 _ _ Hp) as (_ & r & _ & _ & _ & Huniq & _).
  by rewrite (Huniq _ Hp), (Huniq _ Hq).
Qed.

(** X12: under I1, [GetResourceList] lists every registered resource
    once and nothing else: the list has no duplicates, it holds exactly the
    registered addresses, never NULL, and it is as long as the index by
    identifier is large. *)
Theorem GetResourceList_registered (st : FolderKeeper) :
  I1 st →
  NoDup (GetResourceList st)
  ∧ (∀ p, p ∈ GetResourceList st ↔ registered st p)
  ∧ (NULL ∉ GetResourceList st)
  ∧ length (GetResourceList st) = size (m_Resources st).
Proof.
  intros HI1. split; [by apply NoDup_GetResourceList|].
  assert (∀ p, p ∈ GetResourceList st ↔ registered st p) as Hiff.
  { intros p. rewrite elem_of_GetResourceList. split.
    - intros [id Hid]. by apply (proj1 HI1 id).
    - intros (_ & r & _ & Hid & _). by exists (GetIdentifier r). }
  split; [done|]. split.
  - intros Hin. apply Hiff in Hin. by destruct Hin as [Hnull _].
  - unfold GetResourceList. by rewrite length_fmap, length_map_to_list.
Qed.

Lemma GetResourceList_registered_witness :
  NoDup (GetResourceList Example.book4)
  ∧ (∀ p, p ∈ GetResourceList Example.book4 ↔ registered Example.book4 p)
  ∧ (NULL ∉ GetResourceList Example.book4)
  ∧ length (GetResourceList Example.book4) = size (m_Resources Example.book4).
Proof.
  apply GetResourceList_registered.
  apply (reachable_invariant Example.env), reachable_book4.
Defined.

Lemma length_filter_snd (h : gmap N Resource) (type : ResourceType)
    (l : list (string * N)) :
  length (filter (λ p, m_Type <$> h !! p = Some type) l.*2)
  = length (filter (λ kv : string * N, m_Type <$> h !! kv.2 = Some type) l).
Proof.
  induction l as [|[id p] l IH]; [done|].
  rewrite fmap_cons, !filter_cons. cbn [snd].
  destruct (decide (m_Type <$> h !! p = Some type)); cbn [length];
    by rewrite IH.
Qed.

(** X13: [GetResourceListByType] holds exactly the addresses of the index
    by identifier whose object is of the type asked for, and, as long as
    the index has at most INT_MAX entries, [GetHighestReadingOrder] is the
    length of the list of the HTML resources minus one. *)
Theorem GetResourceListByType_counts (type : ResourceType)
    (st : FolderKeeper) :
  Z.of_nat (size (m_Resources st)) ≤ INT_MAX →
  (∀ p, p ∈ GetResourceListByType type st
        ↔ ∃ id r, m_Resources st !! id = Some p ∧ heap st !! p = Some r
                  ∧ m_Type r = type)
  ∧ GetHighestReadingOrder st
    = Z.of_nat (length (GetResourceListByType HTMLResourceType st)) - 1.
Proof.
  intros Hsize. split.
  - intros p. unfold GetResourceListByType.
    rewrite list_elem_of_filter, elem_of_GetResourceList. split.
    + intros [Htype [id Hid]]. destruct (heap st !! p) as [r|]; [|done].
      exists id, r. injection Htype as <-. done.
    + intros (id & r & Hid & Hr & <-). rewrite Hr. split; [done|by exists id].
  - rewrite GetHighestReadingOrder_html_count by done.
    unfold html_count, GetResourceListByType, GetResourceList.
    by rewrite size_filter_map_to_list, length_filter_snd.
Qed.

Lemma GetResourceListByType_counts_witness :
  (∀ p, p ∈ GetResourceListByType HTMLResourceType Example.book2
        ↔ ∃ id r, m_Resources Example.book2 !! id = Some p
                  ∧ heap Example.book2 !! p = Some r
                  ∧ m_Type r = HTMLResourceType)
  ∧ GetHighestReadingOrder Example.book2
    = Z.of_nat
        (length (GetResourceListByType HTMLResourceType Example.book2)) - 1.
Proof.
  apply GetResourceListByType_counts. vm_compute. discriminate.
Defined.

Lemma NoDup_fmap_omap {A B C : Type} (f : A → option B) (g : B → C)
    (l : list A) :
  NoDup l →
  (∀ x y a b, x ∈ l → y ∈ l → f x = Some a → f y = Some b → g a = g b →
     x = y) →
  NoDup (g <$> omap f l).
Proof.
  induction l as [|x l IH]; intros Hnodup Hinj; [constructor|].
  apply NoDup_cons in Hnodup as [Hx Hnodup]. cbn [omap list_omap].
  assert (NoDup (g <$> omap f l)) as Hrest.
  { apply IH; [done|]. intros y z a b Hy Hz. apply Hinj; by right. }
  destruct (f x) as [a|] eqn:Ha; [|done].
  rewrite fmap_cons. apply NoDup_cons. split; [|done].
  intros Hin. apply list_elem_of_fmap in Hin as (b & Hab & Hb).
  apply list_elem_of_omap in Hb as (y & Hy & Hfy).
  apply Hx. rewrite (Hinj x y a b); [done|by left|by right|done..].
Qed.

(** X14: book paths are unique (I6). Under I1 the list [GetAllBookPaths]
    returns has no duplicates, and it holds exactly the book paths for
    which [GetResourceByBookPath] returns a resource. *)
Theorem GetAllBookPaths_unique (st : FolderKeeper) :
  I1 st →
  NoDup (GetAllBookPaths st)
  ∧ ∀ bookpath,
      bookpath ∈ GetAllBookPaths st
      ↔ ∃ p, GetResourceByBookPath bookpath st = Returns p st.
Proof.
  intros HI1. split.
  - unfold GetAllBookPaths, values. apply NoDup_fmap_omap.
    + by apply NoDup_GetResourceList.
    + intros p q r s Hp Hq Hr Hs Heq.
      apply elem_of_GetResourceList in Hp as [id1 Hp].
      apply elem_of_GetResourceList in Hq as [id2 Hq].
      destruct (decide (p = q)) as [|Hne]; [done|exfalso].
      destruct (registered_keys_differ st p q r s) as [_ Hrel]; try done.
      * by apply (proj1 HI1 id1).
      * by apply (proj1 HI1 id2).
  - intros bookpath. unfold GetAllBookPaths, GetResourceByBookPath.
    rewrite list_elem_of_fmap. split.
    + intros (r & -> & Hr). apply elem_of_values in Hr as (id & q & Hq & Hr).
      destruct (proj1 HI1 _ _ Hq) as (Hnull & r' & Hr' & _ & Hrel & _).
      rewrite Hr in Hr'. injection Hr' as <-. exists q.
      rewrite Hrel. cbn [default]. by rewrite bool_decide_eq_true_2.
    + intros [p Hp].
      destruct (m_Path2Resource st !! bookpath) as [q|] eqn:Hq; last first.
      { cbn [default] in Hp. by rewrite bool_decide_eq_false_2 in Hp
          by (intros H; by apply H). }
      destruct (proj2 HI1 _ _ Hq) as (_ & r & Hr & Hid & _ & _ & Huniq).
      exists r. split; [by apply Huniq|].
      apply elem_of_values. by exists (GetIdentifier r), q.
Qed.

Lemma GetAllBookPaths_unique_witness :
  NoDup (GetAllBookPaths Example.book4)
  ∧ ∀ bookpath,
      bookpath ∈ GetAllBookPaths Example.book4
      ↔ ∃ p, GetResourceByBookPath bookpath Example.book4
             = Returns p Example.book4.
Proof.
  apply GetAllBookPaths_unique.
  apply (reachable_invariant Example.env), reachable_book4.
Defined.

Lemma length_toLower (s : string) :
  String.length (QString.toLower s) = String.length s.
Proof. induction s as [|c s IH]; [done|]. simpl. by rewrite IH. Qed.

Lemma endsWith_spec (s e : string) :
  QString.endsWith s e = true
  ↔ ∃ pre tail, s = pre +:+ tail ∧ QString.toLower tail = QString.toLower e.
Proof.
  unfold QString.endsWith. rewrite andb_true_iff, equals_ci_spec. split.
  - intros [_ Heq].
    destruct (skip_suffix (String.length s - String.length e) s) as [pre Hpre].
    by exists pre, (QString.skip (String.length s - String.length e) s).
  - intros (pre & tail & -> & Heq).
    assert (String.length tail = String.length e) as Hlen.
    { by rewrite <- (length_toLower tail), Heq, length_toLower. }
    split.
    + apply Z.leb_le. unfold QString.size. rewrite length_append. lia.
    + rewrite length_append.
      replace (String.length pre + String.length tail - String.length e)%nat
        with (String.length pre) by lia.
      by rewrite skip_append.
Qed.

(** X15: [GetBookPathByPathEnd] returns a book path of the registry that
    ends with the text asked for, up to case, or the empty string when no
    book path of the registry ends with it; for the empty text it returns
    the first book path of the list. *)
Theorem GetBookPathByPathEnd_finds (path_end : string) (st : FolderKeeper) :
  ((GetBookPathByPathEnd path_end st ∈ GetAllBookPaths st
    ∧ ∃ pre tail,
        GetBookPathByPathEnd path_end st = pre +:+ tail
        ∧ QString.toLower tail = QString.toLower path_end)
   ∨ (GetBookPathByPathEnd path_end st = EmptyString
      ∧ ∀ bookpath pre tail,
          bookpath ∈ GetAllBookPaths st → bookpath = pre +:+ tail →
          QString.toLower tail ≠ QString.toLower path_end))
  ∧ GetBookPathByPathEnd EmptyString st
    = default EmptyString (head (GetAllBookPaths st)).
Proof.
  unfold GetBookPathByPathEnd, GetAllBookPaths. split.
  - destruct (find _ (values st)) as [r|] eqn:Hfind.
    + left. apply find_some in Hfind as [Hin Hends].
      split; [apply list_elem_of_fmap; exists r; by rewrite list_elem_of_In|].
      by apply endsWith_spec.
    + right. split; [done|]. intros bookpath pre tail Hin Hsplit Heq.
      apply list_elem_of_fmap in Hin as (r & -> & Hr).
      apply list_elem_of_In in Hr.
      pose proof (find_none _ _ Hfind r Hr) as Hno. cbn beta in Hno.
      assert (QString.endsWith (GetRelativePath r) path_end = true) as Hyes
        by (apply endsWith_spec; by exists pre, tail).
      by rewrite Hno in Hyes.
  - destruct (values st) as [|r l]; [done|]. cbn [find].
    assert (QString.endsWith (GetRelativePath r) EmptyString = true) as ->;
      [|done].
    apply endsWith_spec. exists (GetRelativePath r), EmptyString.
    by rewrite append_empty_r.
Qed.

(** ** The file watcher, again *)

Lemma files_empty (st : FolderKeeper) : files st = [] ↔ m_FSWatcher st = ∅.
Proof. unfold files. rewrite elements_empty_iff. apply leibniz_equiv_iff. Qed.

Lemma list_to_set_files (st : FolderKeeper) :
  list_to_set (files st) = m_FSWatcher st.
Proof. unfold files. apply list_to_set_elements_L. Qed.

Lemma list_to_set_filter_disk (st : FolderKeeper) (watched : gset string) :
  watched ⊆ disk st →
  list_to_set (filter (λ path, path ∈ disk st) (elements watched)) = watched.
Proof.
  intros Hsub. apply set_eq. intros path.
  rewrite elem_of_list_to_set, list_elem_of_filter, elem_of_elements.
  split; [by intros [_ ?]|]. intros Hin. split; [by apply Hsub|done].
Qed.

(** X16: suspending and then resuming gives back the state when nothing
    was suspended before and every watched file still exists; in general
    the files watched afterwards are the watched files that exist, and
    nothing stays suspended. *)
Theorem SuspendWatchingResources_ResumeWatchingResources
    (st : FolderKeeper) :
  m_SuspendedWatchedFiles st = [] →
  (∀ path,
     path ∈ m_FSWatcher (ResumeWatchingResources (SuspendWatchingResources st))
     ↔ path ∈ m_FSWatcher st ∧ path ∈ disk st)
  ∧ m_SuspendedWatchedFiles
      (ResumeWatchingResources (SuspendWatchingResources st)) = []
  ∧ (m_FSWatcher st ⊆ disk st →
     ResumeWatchingResources (SuspendWatchingResources st) = st).
Proof.
  intros Hnone. unfold SuspendWatchingResources. rewrite Hnone.
  rewrite bool_decide_eq_true_2 by done. cbn [andb app].
  destruct (decide (files st = [])) as [Hempty|Hfiles].
  - rewrite bool_decide_eq_true_2 by done. cbn [negb].
    unfold ResumeWatchingResources. rewrite Hnone.
    rewrite bool_decide_eq_true_2 by done. cbn [negb].
    apply files_empty in Hempty. rewrite Hempty.
    split_and!; [|done..]. intros path. split; [|by intros [? _]].
    intros Hin. by apply elem_of_empty in Hin.
  - rewrite bool_decide_eq_false_2 by done. cbn [negb].
    unfold ResumeWatchingResources. cbn [m_SuspendedWatchedFiles].
    rewrite bool_decide_eq_false_2 by done. cbn [negb].
    cbn [m_FSWatcher heap disk m_Resources m_Path2Resource m_OPF m_NCX
         m_FullPathToMainFolder m_KeyToLCP emitted].
    match goal with
    | |- context [fold_left ?f ?l ?w] =>
        change (fold_left f l w)
          with (fold_left
                  (λ watched path,
                     if file_exists st path then addPath st path watched
                     else watched) l w)
    end.
    rewrite resume_fold, list_to_set_files, difference_diag_L,
      union_empty_l_L.
    split_and!.
    + intros path. rewrite ?elem_of_union.
      rewrite elem_of_list_to_set, list_elem_of_filter. unfold files.
      rewrite elem_of_elements, ?elem_of_empty. tauto.
    + done.
    + intros Hsub. unfold files. rewrite list_to_set_filter_disk by done.

      rewrite <- Hnone. by destruct st.
Qed.

Lemma SuspendWatchingResources_ResumeWatchingResources_witness :
  (∀ path,
     path ∈ m_FSWatcher
              (ResumeWatchingResources
                 (SuspendWatchingResources Example.watched))
     ↔ path ∈ m_FSWatcher Example.watched ∧ path ∈ disk Example.watched)
  ∧ m_SuspendedWatchedFiles
      (ResumeWatchingResources (SuspendWatchingResources Example.watched))
    = []
  ∧ (m_FSWatcher Example.watched ⊆ disk Example.watched →
     ResumeWatchingResources (SuspendWatchingResources Example.watched)
     = Example.watched).
Proof.
  apply SuspendWatchingResources_ResumeWatchingResources.
  vm_compute. reflexivity.
Defined.

(** X17: a resource removed while watching is suspended is not watched
    again. When nothing is suspended and the watcher is suspended, a
    resource is removed and the watcher is resumed, the path of the
    resource is not watched, and any other path is watched exactly when it
    was watched before and exists. *)
Theorem RemoveResource_while_suspended (st : FolderKeeper) (p : N)
    (r : Resource) :
  m_SuspendedWatchedFiles st = [] → heap st !! p = Some r →
  ∃ st1, RemoveResource p (SuspendWatchingResources st) = Some st1
    ∧ (GetFullPath r ∉ m_FSWatcher (ResumeWatchingResources st1))
    ∧ (∀ path, path ≠ GetFullPath r →
         (path ∈ m_FSWatcher (ResumeWatchingResources st1)
          ↔ path ∈ m_FSWatcher st ∧ path ∈ disk st))
    ∧ m_SuspendedWatchedFiles (ResumeWatchingResources st1) = [].
Proof.
  intros Hnone Hr.
  assert (heap (SuspendWatchingResources st) = heap st
          ∧ disk (SuspendWatchingResources st) = disk st
          ∧ m_FSWatcher (SuspendWatchingResources st) = ∅
          ∧ m_SuspendedWatchedFiles (SuspendWatchingResources st) = files st)
    as (Hheap & Hdisk & Hwatch & Hsusp).
  { unfold SuspendWatchingResources. rewrite Hnone.
    rewrite bool_decide_eq_true_2 by done. cbn [andb app].
    destruct (decide (files st = [])) as [Hempty|Hfiles].
    - rewrite bool_decide_eq_true_2 by done. cbn [negb].
      rewrite Hempty. split_and!; [done..| |done]. by apply files_empty.
    - rewrite bool_decide_eq_false_2 by done. cbn.
      split_and!; [done..| |done].
      by rewrite list_to_set_files, difference_diag_L. }
  rewrite (RemoveResource_state (SuspendWatchingResources st) p r)
    by (by rewrite Hheap).
  eexists. split; [done|].
  assert (files (SuspendWatchingResources st) = []) as Hnofiles
    by (by apply files_empty).
  rewrite Hnofiles, Hwatch, Hsusp, Hdisk.
  rewrite bool_decide_eq_false_2 by (by intros ?%elem_of_nil).
  set (st1 := mkFolderKeeper _ _ _ _ _ _ _ _ _ _ _).
  assert (m_FSWatcher (ResumeWatchingResources st1)
          = list_to_set
              (filter (λ path, path ∈ disk st)
                 (filter (λ path, path ≠ GetFullPath r) (files st)))
          ∧ m_SuspendedWatchedFiles (ResumeWatchingResources st1) = [])
    as [Hresumed ->].
  { unfold ResumeWatchingResources.
    destruct (decide (m_SuspendedWatchedFiles st1 = [])) as [Hempty|Hsome].
    - rewrite bool_decide_eq_true_2 by done. cbn [negb].
      split; [|done]. cbn [st1 m_SuspendedWatchedFiles] in Hempty.
      by rewrite Hempty.
    - rewrite bool_decide_eq_false_2 by done. cbn [negb].
      cbn [m_FSWatcher m_SuspendedWatchedFiles]. split; [|done].
      match goal with
      | |- context [fold_left ?f ?l ?w] =>
          change (fold_left f l w)
            with (fold_left
                    (λ watched path,
                       if file_exists st1 path then addPath st1 path watched
                       else watched) l w)
      end.
      rewrite resume_fold. cbn [st1 disk m_FSWatcher m_SuspendedWatchedFiles].
      by rewrite (left_id_L ∅ (∪)). }
  rewrite Hresumed. split_and!; [| |done].
  - rewrite elem_of_list_to_set, !list_elem_of_filter. by intros (_ & ? & _).
  - intros path Hne.
    rewrite elem_of_list_to_set, !list_elem_of_filter. unfold files.
    rewrite elem_of_elements. tauto.
Qed.

Lemma RemoveResource_while_suspended_witness :
  ∃ st1, RemoveResource 2 (SuspendWatchingResources Example.watched) = Some st1
    ∧ ("/tmp/book/OEBPS/Text/a.xhtml"
       ∉ m_FSWatcher (ResumeWatchingResources st1))
    ∧ (∀ path, path ≠ "/tmp/book/OEBPS/Text/a.xhtml" →
         (path ∈ m_FSWatcher (ResumeWatchingResources st1)
          ↔ path ∈ m_FSWatcher Example.watched ∧ path ∈ disk Example.watched))
    ∧ m_SuspendedWatchedFiles (ResumeWatchingResources st1) = [].
Proof.
  apply (RemoveResource_while_suspended Example.watched 2
           (mkResource "u1" "/tmp/book" "/tmp/book/OEBPS/Text/a.xhtml"
              HTMLResourceType "application/xhtml+xml" "2.0"
              "/tmp/book/OEBPS/Text/")); vm_compute; reflexivity.
Defined.

(** X18: [WatchResourceFile] watches the file of a resource exactly when
    the resource may be opened externally and its file exists (or the file
    was watched already); no other path is added or dropped, the indices
    are unchanged, and a second call changes nothing. *)
Theorem WatchResourceFile_watches (env : Collaborators) (p : N)
    (r : Resource) (st : FolderKeeper) :
  heap st !! p = Some r →
  ∃ st', WatchResourceFile env p st = Some st'
    ∧ (GetFullPath r ∈ m_FSWatcher st'
       ↔ GetFullPath r ∈ m_FSWatcher st
         ∨ (mayOpen env (m_Type r) = true ∧ file_exists st (GetFullPath r) = true))
    ∧ (∀ path, path ≠ GetFullPath r →
         (path ∈ m_FSWatcher st' ↔ path ∈ m_FSWatcher st))
    ∧ m_Resources st' = m_Resources st
    ∧ m_Path2Resource st' = m_Path2Resource st
    ∧ m_SuspendedWatchedFiles st' = m_SuspendedWatchedFiles st
    ∧ WatchResourceFile env p st' = Some st'.
Proof.
  intros Hr. unfold WatchResourceFile at 1. rewrite Hr.
  destruct (mayOpen env (m_Type r)) eqn:Hmay; last first.
  { exists st. split; [done|]. split_and!; try done.
    - split; [by left|]. by intros [?|[? _]].
    - unfold WatchResourceFile. by rewrite Hr, Hmay. }
  eexists. split; [done|]. cbn.
  unfold files, addPath, file_exists.
  destruct (decide (GetFullPath r ∈ m_FSWatcher st)) as [Hin|Hout].
  - rewrite bool_decide_eq_true_2 by (by apply elem_of_elements).
    split_and!; try done.
    + split; [by left|done].
    + unfold WatchResourceFile. cbn. rewrite Hr, Hmay. unfold files. cbn.
      rewrite bool_decide_eq_true_2 by (by apply elem_of_elements).
      done.
  - rewrite bool_decide_eq_false_2 by (by rewrite elem_of_elements).
    destruct (decide (GetFullPath r ∈ disk st)) as [Hex|Hno].
    + rewrite bool_decide_eq_true_2 by done. split_and!; try done.
      * split; [intros _; right; by split|]. intros _. apply elem_of_union_l.
        by apply elem_of_singleton.
      * intros path Hne. rewrite elem_of_union, elem_of_singleton. tauto.
      * unfold WatchResourceFile. cbn. rewrite Hr, Hmay. unfold files. cbn.
        rewrite bool_decide_eq_true_2; [done|].
        apply elem_of_elements, elem_of_union_l. by apply elem_of_singleton.
    + rewrite bool_decide_eq_false_2 by done. split_and!; try done.
      * split; [done|]. by intros [?|[_ ?]].
      * unfold WatchResourceFile. cbn. rewrite Hr, Hmay.
        unfold files, addPath, file_exists. cbn.
        rewrite bool_decide_eq_false_2 by (by rewrite elem_of_elements).
        by rewrite bool_decide_eq_false_2 by done.
Qed.

Lemma WatchResourceFile_watches_witness :
  ∃ st', WatchResourceFile Example.env 2 Example.book2 = Some st'
    ∧ ("/tmp/book/OEBPS/Text/a.xhtml" ∈ m_FSWatcher st'
       ↔ "/tmp/book/OEBPS/Text/a.xhtml" ∈ m_FSWatcher Example.book2
         ∨ (mayOpen Example.env HTMLResourceType = true
            ∧ file_exists Example.book2 "/tmp/book/OEBPS/Text/a.xhtml" = true))
    ∧ (∀ path, path ≠ "/tmp/book/OEBPS/Text/a.xhtml" →
         (path ∈ m_FSWatcher st' ↔ path ∈ m_FSWatcher Example.book2))
    ∧ m_Resources st' = m_Resources Example.book2
    ∧ m_Path2Resource st' = m_Path2Resource Example.book2
    ∧ m_SuspendedWatchedFiles st' = m_SuspendedWatchedFiles Example.book2
    ∧ WatchResourceFile Example.env 2 st' = Some st'.
Proof.
  apply (WatchResourceFile_watches Example.env 2
           (mkResource "u1" "/tmp/book" "/tmp/book/OEBPS/Text/a.xhtml"
              HTMLResourceType "application/xhtml+xml" "2.0"
              "/tmp/book/OEBPS/Text/")).
  vm_compute. reflexivity.
Defined.

(** ** The lists after an addition *)

Lemma omap_heap_insert (h : gmap N Resource) (new : N) (r : Resource)
    (l : list N) :
  h !! new = None → Forall (λ q, is_Some (h !! q)) l →
  omap (λ q, <[new := r]> h !! q) l = omap (λ q, h !! q) l.
Proof.
  intros Hnew Hall. induction Hall as [|q l [s Hs] _ IH]; [done|].
  cbn [omap list_omap]. rewrite IH.
  rewrite lookup_insert_ne; [done|]. intros <-. by rewrite Hnew in Hs.
Qed.

(** X19: an addition under a new identifier adds one entry to each list.
    When every address of the index by identifier holds an object and the
    identifier is new, the lists of resources, of file names and of book
    paths after the addition are, up to order, the lists before it with
    the new resource, its file name and its book path in front. *)
Theorem AddContentFileToFolder_lists (env : Collaborators)
    (uuid fullfilepath : string) (update_opf : bool) (mimetype : string)
    (st : FolderKeeper) :
  addresses_valid st → m_Resources st !! uuid = None →
  file_exists st fullfilepath = true →
  ∃ p st' r,
    AddContentFileToFolder env uuid fullfilepath update_opf mimetype st
    = Returns p st'
    ∧ heap st' !! p = Some r
    ∧ GetResourceList st' ≡ₚ p :: GetResourceList st
    ∧ GetAllFilenames st' ≡ₚ Filename r :: GetAllFilenames st
    ∧ GetAllBookPaths st' ≡ₚ GetRelativePath r :: GetAllBookPaths st.
Proof.
  intros Hvalid Hfresh Hex.
  destruct (AddContentFileToFolder_returns env uuid fullfilepath update_opf
              mimetype st Hex) as (r & Hret & _).
  cbn zeta in Hret.
  destruct (new_address_spec (heap st)) as [_ Hnew].
  set (new := new_address (heap st)) in *.
  eexists _, _, r. split; [exact Hret|]. cbn [heap].
  rewrite lookup_insert_eq. split; [done|].
  assert ((map_to_list (<[uuid := new]> (m_Resources st))).*2
          ≡ₚ new :: (map_to_list (m_Resources st)).*2) as Hperm.
  { by rewrite map_to_list_insert. }
  assert (Forall (λ q, is_Some (heap st !! q))
            (map_to_list (m_Resources st)).*2) as Hall.
  { apply Forall_forall. intros q Hq.
    apply list_elem_of_fmap in Hq as ([id q'] & -> & Hin).
    apply elem_of_map_to_list in Hin. by apply (Hvalid id). }
  assert (omap (λ q, <[new := r]> (heap st) !! q)
            (map_to_list (<[uuid := new]> (m_Resources st))).*2
          ≡ₚ r :: values st) as Hvalues.
  { rewrite Hperm. cbn [omap list_omap]. rewrite lookup_insert_eq.
    by rewrite omap_heap_insert. }
  unfold GetResourceList, GetAllFilenames, GetAllBookPaths, values.
  cbn [m_Resources heap]. split_and!.
  - exact Hperm.
  - by rewrite Hvalues.
  - by rewrite Hvalues.
Qed.

Lemma AddContentFileToFolder_lists_witness :
  ∃ p st' r,
    AddContentFileToFolder Example.env "u2" "/in/b.css" true "" Example.book1
    = Returns p st'
    ∧ heap st' !! p = Some r
    ∧ GetResourceList st' ≡ₚ p :: GetResourceList Example.book1
    ∧ GetAllFilenames st' ≡ₚ Filename r :: GetAllFilenames Example.book1
    ∧ GetAllBookPaths st' ≡ₚ GetRelativePath r :: GetAllBookPaths Example.book1.
Proof.
  apply AddContentFileToFolder_lists.
  - apply I1_addresses_valid.
    apply (I1_add Example.env "u1" "/in/a.xhtml" true "" Example.book0).
    + apply I1_new.
    + apply I1_new.
    + apply enters_unusedb_spec. vm_compute. reflexivity.
  - vm_compute. reflexivity.
  - vm_compute. reflexivity.
Defined.

(** ** The group of a file *)

Lemma toLower_char_idem (c : ascii) :
  QChar.toLower (QChar.toLower c) = QChar.toLower c.
Proof.
  destruct c as [[] [] [] [] [] [] [] []]; reflexivity.
Qed.

Lemma toLower_idem (s : string) :
  QString.toLower (QString.toLower s) = QString.toLower s.
Proof.
  induction s as [|c s IH]; [done|]. simpl. by rewrite toLower_char_idem, IH.
Qed.

(** X20: the group [DetermineFileGroup] returns is in lower case; it is
    the group other for every path that contains META-INF, and for a path
    outside the metadata folder without a media-type hint whose extension,
    in lower case, is not in the table of media types. *)
Theorem DetermineFileGroup_lower_case (env : Collaborators)
    (filepath mimetype : string) :
  QString.toLower (DetermineFileGroup env filepath mimetype)
  = DetermineFileGroup env filepath mimetype
  ∧ (QString.contains FILE_EXCEPTIONS filepath = true →
     DetermineFileGroup env filepath mimetype = "other")
  ∧ (QString.isEmpty mimetype = true →
     m_ExtToMType (MTMaps env)
       !! QString.toLower (QFileInfo.suffix filepath) = None →
     DetermineFileGroup env filepath mimetype = "other").
Proof.
  unfold DetermineFileGroup.
  destruct (QString.contains FILE_EXCEPTIONS filepath); [done|].
  split_and!.
  - destruct (QString.isEmpty (if QString.isEmpty mimetype then _ else _));
      [done|apply toLower_idem].
  - done.
  - intros -> Hext. unfold GetMediaTypeFromExtension. by rewrite Hext.
Qed.

(** ** Renaming, again *)

(** X21: a rename that is announced with an old path the path index does
    not hold leaves a NULL entry. [ResourceRenamed] then puts NULL under
    the book path of the resource, over the entry the path had, so that
    [GetResourceByBookPath] fails for it; the index by identifier is
    unchanged. *)
Theorem ResourceRenamed_unknown_path (st : FolderKeeper) (p : N)
    (r : Resource) (old_full_path : string) :
  heap st !! p = Some r →
  m_Path2Resource st
    !! QString.right old_full_path
         (QString.size old_full_path
          - QString.size (m_FullPathToMainFolder st) - 1) = None →
  ∃ st', ResourceRenamed p old_full_path st = Some st'
    ∧ m_Path2Resource st' !! GetRelativePath r = Some NULL
    ∧ GetResourceByBookPath (GetRelativePath r) st'
      = Throws (ResourceDoesNotExist (GetRelativePath r)) st'
    ∧ (∀ k, k ≠ GetRelativePath r →
         m_Path2Resource st' !! k = m_Path2Resource st !! k)
    ∧ m_Resources st' = m_Resources st.
Proof.
  intros Hr Hold. unfold ResourceRenamed. rewrite Hr, Hold.
  cbn [default]. eexists. split; [done|].
  unfold GetResourceByBookPath. cbn [m_Path2Resource m_Resources].
  rewrite lookup_insert_eq. cbn [default].
  rewrite bool_decide_eq_false_2 by (intros H; by apply H).
  split_and!; [done..| |done].
  intros k Hne. rewrite lookup_insert_ne by done.
  rewrite delete_insert_eq.
  destruct (decide (k = QString.right old_full_path
                          (QString.size old_full_path
                           - QString.size (m_FullPathToMainFolder st) - 1)))
    as [->|Hne'].
  - by rewrite lookup_delete_eq, Hold.
  - by rewrite lookup_delete_ne.
Qed.

Lemma ResourceRenamed_unknown_path_witness :
  ∃ st', ResourceRenamed 2 "/elsewhere/a.xhtml" Example.book2 = Some st'
    ∧ m_Path2Resource st' !! "OEBPS/Text/a.xhtml" = Some NULL
    ∧ GetResourceByBookPath "OEBPS/Text/a.xhtml" st'
      = Throws (ResourceDoesNotExist "OEBPS/Text/a.xhtml") st'
    ∧ (∀ k, k ≠ "OEBPS/Text/a.xhtml" →
         m_Path2Resource st' !! k = m_Path2Resource Example.book2 !! k)
    ∧ m_Resources st' = m_Resources Example.book2.
Proof.
  apply (ResourceRenamed_unknown_path Example.book2 2
           (mkResource "u1" "/tmp/book" "/tmp/book/OEBPS/Text/a.xhtml"
              HTMLResourceType "application/xhtml+xml" "2.0"
              "/tmp/book/OEBPS/Text/")); vm_compute; reflexivity.
Defined.

Lemma RenameResource_state (st : FolderKeeper) (p : N) (r : Resource)
    (old_rel new_rel : string) :
  heap st !! p = Some r →
  m_MainFolder r = m_FullPathToMainFolder st →
  m_FullFilePath r = m_FullPathToMainFolder st +:+ "/" +:+ old_rel →
  m_Path2Resource st !! old_rel = Some p →
  RenameResource p (m_FullPathToMainFolder st +:+ "/" +:+ new_rel) st
  = Some
      (mkFolderKeeper
         (<[p := SetFullPath
                   (m_FullPathToMainFolder st +:+ "/" +:+ new_rel) r]>
            (heap st))
         (disk st) (m_Resources st)
         (<[new_rel := p]> (delete old_rel (m_Path2Resource st)))
         (m_OPF st) (m_NCX st) (m_FSWatcher st) (m_SuspendedWatchedFiles st)
         (m_FullPathToMainFolder st) (m_KeyToLCP st)
         (emitted st
          ++ [OPF_ResourceRenamed p
                (m_FullPathToMainFolder st +:+ "/" +:+ old_rel)])).
Proof.
  intros Hr Hmain Hfull Hold. unfold RenameResource. rewrite Hr.
  unfold ResourceRenamed, MoveResource.
  cbn [heap m_FullPathToMainFolder m_Path2Resource disk m_Resources m_OPF
       m_NCX m_FSWatcher m_SuspendedWatchedFiles m_KeyToLCP emitted].
  rewrite lookup_alter_eq, Hr. cbn [fmap option_fmap option_map].
  unfold GetFullPath. rewrite Hfull, relative_path_inside, Hold.
  cbn [default]. rewrite delete_insert_eq.
  assert (GetRelativePath
            (SetFullPath (m_FullPathToMainFolder st +:+ "/" +:+ new_rel) r)
          = new_rel) as ->.
  { unfold GetRelativePath, SetFullPath. cbn [m_FullFilePath m_MainFolder].
    rewrite Hmain. apply relative_path_inside. }
  do 2 f_equal. apply map_eq. intros q.
  destruct (decide (q = p)) as [->|Hne].
  - by rewrite lookup_alter_eq, lookup_insert_eq, Hr.
  - by rewrite lookup_alter_ne, lookup_insert_ne.
Qed.

(** X22: a rename and the rename back give the registry back. For a
    resource of the book folder that the path index holds under its book
    path, a rename to a book path that is not in use makes the new path
    find the resource; the rename back to the old path restores the path
    index and the objects, and the index by identifier is never touched. *)
Theorem RenameResource_back (st : FolderKeeper) (p : N) (r : Resource)
    (old_rel new_rel : string) :
  p ≠ NULL → heap st !! p = Some r →
  m_MainFolder r = m_FullPathToMainFolder st →
  m_FullFilePath r = m_FullPathToMainFolder st +:+ "/" +:+ old_rel →
  m_Path2Resource st !! old_rel = Some p →
  m_Path2Resource st !! new_rel = None →
  ∃ st1 st2,
    RenameResource p (m_FullPathToMainFolder st +:+ "/" +:+ new_rel) st
    = Some st1
    ∧ GetResourceByBookPath new_rel st1 = Returns p st1
    ∧ GetResourceByBookPath old_rel st1
      = Throws (ResourceDoesNotExist old_rel) st1
    ∧ m_Resources st1 = m_Resources st
    ∧ RenameResource p (m_FullPathToMainFolder st +:+ "/" +:+ old_rel) st1
      = Some st2
    ∧ m_Path2Resource st2 = m_Path2Resource st
    ∧ m_Resources st2 = m_Resources st
    ∧ heap st2 = heap st.
Proof.
  intros Hnull Hr Hmain Hfull Hold Hnew.
  assert (old_rel ≠ new_rel) as Hne by (intros ->; congruence).
  rewrite (RenameResource_state st p r old_rel new_rel) by done.
  eexists _, _. split; [done|].
  unfold GetResourceByBookPath. cbn [m_Path2Resource m_Resources].
  rewrite lookup_insert_eq, lookup_insert_ne, lookup_delete_eq by done.
  cbn [default]. rewrite (bool_decide_eq_true_2 (p ≠ NULL)) by done.
  rewrite (bool_decide_eq_false_2 (NULL ≠ NULL)) by (intros H; by apply H).
  split; [done|]. split; [done|]. split; [done|].
  set (st1 := mkFolderKeeper _ _ _ _ _ _ _ _ _ _ _).
  change (m_FullPathToMainFolder st) with (m_FullPathToMainFolder st1).
  rewrite (RenameResource_state st1 p
             (SetFullPath (m_FullPathToMainFolder st +:+ "/" +:+ new_rel) r)
             new_rel old_rel).
  - split; [done|]. cbn [st1 m_Path2Resource m_Resources heap].
    split_and!; [|done|].
    + rewrite delete_insert_eq.
      rewrite (delete_id (delete old_rel (m_Path2Resource st)) new_rel)
        by (by rewrite lookup_delete_ne).
      by apply insert_delete_id.
    + rewrite insert_insert_eq. apply map_eq. intros q.
      destruct (decide (q = p)) as [->|Hq].
      * rewrite lookup_insert_eq, Hr. f_equal. destruct r.
        unfold SetFullPath. cbn in *. by rewrite Hfull.
      * by rewrite lookup_insert_ne.
  - cbn. by rewrite lookup_insert_eq.
  - done.
  - done.
  - cbn. by rewrite lookup_insert_eq.
Qed.

Lemma RenameResource_back_witness :
  ∃ st1 st2,
    RenameResource 2
      (m_FullPathToMainFolder Example.book2 +:+ "/" +:+ "OEBPS/Text/c.xhtml")
      Example.book2 = Some st1
    ∧ GetResourceByBookPath "OEBPS/Text/c.xhtml" st1 = Returns 2%N st1
    ∧ GetResourceByBookPath "OEBPS/Text/a.xhtml" st1
      = Throws (ResourceDoesNotExist "OEBPS/Text/a.xhtml") st1
    ∧ m_Resources st1 = m_Resources Example.book2
    ∧ RenameResource 2
        (m_FullPathToMainFolder Example.book2 +:+ "/" +:+ "OEBPS/Text/a.xhtml")
        st1 = Some st2
    ∧ m_Path2Resource st2 = m_Path2Resource Example.book2
    ∧ m_Resources st2 = m_Resources Example.book2
    ∧ heap st2 = heap Example.book2.
Proof.
  apply (RenameResource_back Example.book2 2
           (mkResource "u1" "/tmp/book" "/tmp/book/OEBPS/Text/a.xhtml"
              HTMLResourceType "application/xhtml+xml" "2.0"
              "/tmp/book/OEBPS/Text/") "OEBPS/Text/a.xhtml"
           "OEBPS/Text/c.xhtml"); vm_compute; first [reflexivity|discriminate].
Defined.

(** ** The longest common path of a new resource *)

Lemma placement_lcp (st : FolderKeeper) (fullfilepath filename resdesc
    lcppath : string) :
  (placement st fullfilepath filename resdesc lcppath).2 = lcppath
  ∨ (QString.contains FILE_EXCEPTIONS fullfilepath = false
     ∧ (placement st fullfilepath filename resdesc lcppath).2
       = default "" (m_KeyToLCP st !! "misc")).
Proof.
  unfold placement.
  destruct (QString.contains FILE_EXCEPTIONS fullfilepath); [by left|].
  repeat match goal with
         | |- context [String.eqb resdesc ?d] => destruct (String.eqb resdesc d)
         end;
    first [by left|by right].
Qed.

Lemma DetermineFileGroup_exception (env : Collaborators)
    (filepath mimetype : string) :
  QString.contains FILE_EXCEPTIONS filepath = true →
  DetermineFileGroup env filepath mimetype = "other".
Proof. intros Hin. unfold DetermineFileGroup. by rewrite Hin. Qed.

(** X23: the longest common path of a new resource. In a state a new
    [FolderKeeper] reaches by permitted operations, a resource that
    [AddContentFileToFolder] makes has a longest common path that is empty
    or is the main folder followed by a text that ends with a slash; for a
    file of the metadata folder whose name does not start with a dot it is
    the main folder and a slash, and for a file outside the metadata folder
    whose media type has no resource description it is the Misc folder of
    OEBPS, and the resource is a generic one. *)
Theorem AddContentFileToFolder_LCP (env : Collaborators)
    (uuid fullfilepath : string) (update_opf : bool) (mimetype : string)
    (st : FolderKeeper) :
  reachable env st → file_exists st fullfilepath = true →
  ∃ p st' r,
    AddContentFileToFolder env uuid fullfilepath update_opf mimetype st
    = Returns p st'
    ∧ heap st' !! p = Some r
    ∧ (m_LCP r = EmptyString
       ∨ ∃ mid, m_LCP r = m_FullPathToMainFolder st +:+ mid +:+ "/")
    ∧ (QString.contains FILE_EXCEPTIONS fullfilepath = true →
       QString.left (QFileInfo.fileName fullfilepath) 1 ≠ "." →
       m_LCP r = m_FullPathToMainFolder st +:+ "/")
    ∧ (QString.contains FILE_EXCEPTIONS fullfilepath = false →
       m_MTypeToRDesc (MTMaps env) !! m_MediaType r = None →
       m_LCP r = m_FullPathToMainFolder st +:+ "/OEBPS/Misc/"
       ∧ m_Type r = GenericResourceType).
Proof.
  intros Hreach Hex.
  destruct (reachable_KeyToLCP env st Hreach)
    as (st0 & Hempty & Hfolder & Htable).
  destruct (KeyToLCP_filled st0 Hempty) as [Hfilled _].
  rewrite Hfolder, <- Htable in Hfilled.
  assert (∀ key, default "" (m_KeyToLCP st !! key) = EmptyString
                 ∨ ∃ mid, default "" (m_KeyToLCP st !! key)
                          = m_FullPathToMainFolder st +:+ mid +:+ "/")
    as Hshape.
  { intros key. destruct (m_KeyToLCP st !! key) as [v|] eqn:Hv; [|by left].
    right. rewrite Htable in Hv.
    destruct (KeyToLCP_entry st0 key v Hempty Hv) as [_ [mid Hmid]].
    exists mid. by rewrite <- Hfolder. }
  assert (m_KeyToLCP st !! "misc"
          = Some (m_FullPathToMainFolder st +:+ "/OEBPS/Misc/")) as Hmisc.
  { rewrite Hfilled.
    by rewrite !lookup_insert_ne, lookup_insert_eq by done. }
  assert (m_KeyToLCP st !! "other" = Some (m_FullPathToMainFolder st +:+ "/"))
    as Hother.
  { rewrite Hfilled. by rewrite lookup_insert_eq. }
  unfold AddContentFileToFolder. rewrite Hex. cbn [negb].
  set (mt := if QString.isEmpty mimetype then _ else mimetype).
  set (name := GetUniqueFilenameVersion _ _).
  set (resdesc := GetResourceDescFromMediaType (MTMaps env) mt "Resource").
  set (lcp := default "" (m_KeyToLCP st !! DetermineFileGroup env _ mt)).
  pose proof (placement_lcp st fullfilepath name resdesc lcp) as Hlcp.
  destruct (placement st fullfilepath name resdesc lcp)
    as [[new_file_path type] lcppath] eqn:Hpl.
  cbn [snd] in Hlcp. eexists _, _, _. split; [done|]. cbn.
  rewrite lookup_insert_eq. split; [done|]. cbn. split_and!.
  - destruct Hlcp as [->|[_ ->]]; apply Hshape.
  - intros Hin Hplain. rewrite placement_exception in Hpl by done.
    injection Hpl as _ _ <-.
    unfold lcp. rewrite fileName_normalise_plain by done.
    by rewrite DetermineFileGroup_exception, Hother.
  - intros Hout Hdesc.
    assert (resdesc = "Resource") as Hres.
    { unfold resdesc, GetResourceDescFromMediaType. by rewrite Hdesc. }
    rewrite Hres, placement_fallback in Hpl by done.
    injection Hpl as _ <- <-. by rewrite Hmisc.
Qed.

Lemma AddContentFileToFolder_LCP_witness :
  ∃ p st' r,
    AddContentFileToFolder Example.env "u5" "/in/x.zzz" true "" Example.book4
    = Returns p st'
    ∧ heap st' !! p = Some r
    ∧ (m_LCP r = EmptyString
       ∨ ∃ mid, m_LCP r = m_FullPathToMainFolder Example.book4 +:+ mid +:+ "/")
    ∧ (QString.contains FILE_EXCEPTIONS "/in/x.zzz" = true →
       QString.left (QFileInfo.fileName "/in/x.zzz") 1 ≠ "." →
       m_LCP r = m_FullPathToMainFolder Example.book4 +:+ "/")
    ∧ (QString.contains FILE_EXCEPTIONS "/in/x.zzz" = false →
       m_MTypeToRDesc (MTMaps Example.env) !! m_MediaType r = None →
       m_LCP r = m_FullPathToMainFolder Example.book4 +:+ "/OEBPS/Misc/"
       ∧ m_Type r = GenericResourceType).
Proof.
  apply AddContentFileToFolder_LCP; [apply reachable_book4|].
  vm_compute. reflexivity.
Defined.

(** ** The OPF of a registry *)



